(** * agentkg-research: the ReAct agent and the Cypher generator

  A shallow embedding of [agent.py] (class [ResearchAgent]),
  [cypher_generator.py] (class [CypherGenerator]) and the parts of
  [search_kg.py] and [config.py] they call.

  Conventions of the embedding.
  - Python [str] values are [string]s of ASCII characters
    ([PyStr.ascii_text]): the character classes and the case mappings
    are those of ASCII text (what Cypher, JSON and the prompts are
    written in).  On other text [str.upper], [\w], [\s] and [\d] follow
    Unicode and the embedding says nothing; what is proved of the safety
    gate through its case mapping and its word boundaries is stated for
    ASCII queries.
  - Values that come out of [json.loads] or out of the graph store are
    [pyval]s; a [dict] is an association list in insertion order.
  - Effects (the HTTP call to Ollama, the Neo4j session, the clock) are
    threaded through a state-and-exception monad [M]; every effect leaves
    an [event] in the trace, so that calls can be counted.
  - What lives outside the repository ([json.loads], [requests.post], the
    Neo4j driver, [float] formatting) is a field of the class
    [Externals]. *)

From Stdlib Require Import String Ascii List ZArith Lia Bool DecimalString SpecFloat.
Import ListNotations.
Local Open Scope list_scope.
Local Open Scope string_scope.

Set Implicit Arguments.
Set Warnings "-register-all".

(* ===================================================================== *)
(** * Python strings *)
(* ===================================================================== *)

Module PyStr.

Definition code (c : ascii) : N := N_of_ascii c.

Definition between (lo hi : N) (c : ascii) : bool :=
  ((lo <=? code c) && (code c <=? hi))%N.

Definition is_lower (c : ascii) : bool := between 97 122 c.
Definition is_upper (c : ascii) : bool := between 65 90 c.
Definition is_digit (c : ascii) : bool := between 48 57 c.
Definition is_alpha (c : ascii) : bool := is_lower c || is_upper c.

(** [\w] on ASCII text: letters, digits and the underscore. *)
Definition is_word (c : ascii) : bool :=
  is_alpha c || is_digit c || (code c =? 95)%N.

(** [str.isspace] and [\s] on ASCII text: TAB, LF, VT, FF, CR, FS, GS,
    RS, US, SPACE. *)
Definition is_space (c : ascii) : bool := between 9 13 c || between 28 32 c.

Definition upper_char (c : ascii) : ascii :=
  if is_lower c then ascii_of_N (code c - 32) else c.

Definition lower_char (c : ascii) : ascii :=
  if is_upper c then ascii_of_N (code c + 32) else c.

Fixpoint map_chars (f : ascii -> ascii) (s : string) : string :=
  match s with
  | EmptyString => EmptyString
  | String c s' => String (f c) (map_chars f s')
  end.

(** [s.upper()] and [s.lower()] on ASCII text. *)
Definition upper : string -> string := map_chars upper_char.
Definition lower : string -> string := map_chars lower_char.

(** [s[:n]] and [s[n:]]. *)
Fixpoint take (n : nat) (s : string) : string :=
  match n, s with
  | S n', String c s' => String c (take n' s')
  | _, _ => EmptyString
  end.

Fixpoint drop (n : nat) (s : string) : string :=
  match n, s with
  | S n', String _ s' => drop n' s'
  | _, _ => s
  end.

(** [needle in hay]. *)
Fixpoint contains (needle hay : string) : bool :=
  prefix needle hay
  || match hay with
     | EmptyString => false
     | String _ hay' => contains needle hay'
     end.

(** [hay.partition(needle)] when [needle] occurs: the text before the
    first occurrence and the text after it. *)
Fixpoint partition (needle hay : string) : option (string * string) :=
  if prefix needle hay then Some (EmptyString, drop (String.length needle) hay)
  else match hay with
       | EmptyString => None
       | String c hay' =>
           match partition needle hay' with
           | Some (before, after) => Some (String c before, after)
           | None => None
           end
       end.

Fixpoint lstrip (s : string) : string :=
  match s with
  | EmptyString => EmptyString
  | String c s' => if is_space c then lstrip s' else s
  end.

Fixpoint rstrip (s : string) : string :=
  match s with
  | EmptyString => EmptyString
  | String c s' =>
      let r := rstrip s' in
      if is_space c && (r =? EmptyString) then EmptyString else String c r
  end.

(** [s.strip()]. *)
Definition strip (s : string) : string := rstrip (lstrip s).

(** The word that starts [s] (up to the first white space) and the words
    after it. *)
Fixpoint words_aux (s : string) : string * list string :=
  match s with
  | EmptyString => (EmptyString, [])
  | String c s' =>
      let (w, ws) := words_aux s' in
      if is_space c
      then (EmptyString, if w =? EmptyString then ws else w :: ws)
      else (String c w, ws)
  end.

(** [s.split()]. *)
Definition split (s : string) : list string :=
  let (w, ws) := words_aux s in
  if w =? EmptyString then ws else w :: ws.

(** [sep.join(l)]. *)
Definition join (sep : string) (l : list string) : string := String.concat sep l.

Definition head (s : string) : option ascii :=
  match s with
  | EmptyString => None
  | String c _ => Some c
  end.

(** [str(n)] for an [int]. *)
Definition of_nat (n : nat) : string := NilZero.string_of_uint (Nat.to_uint n).
Definition of_Z (z : Z) : string := NilZero.string_of_int (Z.to_int z).


(** An ASCII character, and a text made of ASCII characters. *)
Definition is_ascii (c : ascii) : bool := (code c <? 128)%N.

Fixpoint ascii_text (s : string) : bool :=
  match s with
  | EmptyString => true
  | String c s' => is_ascii c && ascii_text s'
  end.

End PyStr.

(* ===================================================================== *)
(** * The regular expressions of the two modules *)
(* ===================================================================== *)

Module Re.
Import PyStr.

Definition opt_word (c : option ascii) : bool :=
  match c with
  | Some c => is_word c
  | None => false
  end.

(** [\b] between the character before the position and the one at it. *)
Definition is_boundary (before after : option ascii) : bool :=
  xorb (opt_word before) (opt_word after).

(** Matches the literal [lit] at the start of [s]; gives the last
    character consumed ([prev] when [lit] is empty) and the rest. *)
Fixpoint match_lit (lit s : string) (prev : option ascii)
  : option (option ascii * string) :=
  match lit with
  | EmptyString => Some (prev, s)
  | String a lit' =>
      match s with
      | EmptyString => None
      | String c s' =>
          if Ascii.eqb a c then match_lit lit' s' (Some c) else None
      end
  end.

(** Does [\b lit \b] match at the start of [s], [prev] being the
    character before? *)
Definition word_here (prev : option ascii) (lit s : string) : bool :=
  is_boundary prev (head s)
  && match match_lit lit s prev with
     | Some (last, rest) => is_boundary last (head rest)
     | None => false
     end.

Fixpoint search_word_from (prev : option ascii) (lit s : string) : bool :=
  word_here prev lit s
  || match s with
     | EmptyString => false
     | String c s' => search_word_from (Some c) lit s'
     end.

(** [re.search(rf"\b{lit}\b", s)] is not [None]. *)
Definition search_word (lit s : string) : bool := search_word_from None lit s.

(** The last character of [s], or [prev] when [s] is empty. *)
Fixpoint last_of (prev : option ascii) (s : string) : option ascii :=
  match s with
  | EmptyString => prev
  | String c s' => last_of (Some c) s'
  end.

(** A literal that starts and ends with a word character. *)
Definition keyword_like (lit : string) : bool :=
  opt_word (head lit) && opt_word (last_of None lit).

(** [re.search(r"```(?:json)?\s*(.*?)```", text, re.DOTALL)]: group 1.
    The match starts at the first fence that has a closing fence after
    it; the optional [json] and the white space are taken greedily, the
    body lazily up to the next fence. *)
Definition fence : string := "```".

Definition skip_json (s : string) : string :=
  if prefix "json" s then drop 4 s else s.

Definition fence_group (text : string) : option string :=
  match partition fence text with
  | None => None
  | Some (_, after_open) =>
      match partition fence (lstrip (skip_json after_open)) with
      | None => None
      | Some (body, _) => Some body
      end
  end.

(** The text up to and including the last [}] of [s]. *)
Fixpoint upto_last_close (s : string) : option string :=
  match s with
  | EmptyString => None
  | String c s' =>
      match upto_last_close s' with
      | Some r => Some (String c r)
      | None => if Ascii.eqb c "}" then Some (String c EmptyString) else None
      end
  end.

(** [re.search(r"\{.*\}", text, re.DOTALL)]: the whole match, from the
    first [{] that has a [}] after it to the last [}] of the text. *)
Fixpoint brace_group (text : string) : option string :=
  match text with
  | EmptyString => None
  | String c s' =>
      if Ascii.eqb c "{"
      then match upto_last_close s' with
           | Some r => Some (String c r)
           | None => None
           end
      else brace_group s'
  end.

End Re.

(* ===================================================================== *)
(** * Python values, exceptions and the monad of effects *)
(* ===================================================================== *)

(** What [json.loads] and [record.data()] produce. *)
Inductive pyval : Type :=
| PNone
| PBool (b : bool)
| PInt (z : Z)
| PFloat (f : spec_float)
| PStr (s : string)
| PList (l : list pyval)
| PDict (d : list (string * pyval)).

Definition dict := list (string * pyval).

(** [bool(v)]. *)
Definition truthy (v : pyval) : bool :=
match v with
| PNone => false
| PBool b => b
| PInt z => negb (z =? 0)%Z
| PFloat (S754_zero _) => false
| PFloat _ => true
| PStr s => negb (s =? EmptyString)
| PList [] => false
| PList _ => true
| PDict [] => false
| PDict _ => true
end.

Fixpoint assoc (k : string) (d : dict) : option pyval :=
match d with
| [] => None
| (k', v) :: d' => if k =? k' then Some v else assoc k d'
end.

(** [d.get(k, default)] on a [dict]. *)
Definition dict_get (d : dict) (k : string) (default : pyval) : pyval :=
match assoc k d with
| Some v => v
| None => default
end.

(** [k in d] on a [dict]. *)
Definition dict_has (k : string) (d : dict) : bool :=
match assoc k d with
| Some _ => true
| None => false
end.

(** [list(d.values())]. *)
Definition dict_values (d : dict) : list pyval := map snd d.

Definition is_dict (v : pyval) : bool :=
match v with
| PDict _ => true
| _ => false
end.

(** [v == s] for a [str] literal [s]. *)
Definition eq_str (v : pyval) (s : string) : bool :=
match v with
| PStr s' => s' =? s
| _ => false
end.

(** The exceptions that the code can meet.  [DriverError] stands for what
  the Neo4j driver raises (none of it is a [TypeError]). *)
Inductive exn : Type :=
| TypeError
| AttributeError
| KeyError
| JSONDecodeError
| DriverError.

Inductive outcome (A : Type) : Type :=
| Ok (a : A)
| Raise (e : exn).

Arguments Ok {A} a.
Arguments Raise {A} e.

(** One step of the loop, as appended to [thought_chain]. *)
Record step_rec : Type := mkStep
{ st_step : nat;
  st_thought : pyval;
  st_action : pyval;
  st_args : pyval;
  st_observation : string;
  st_raw_results : pyval }.

(** One entry of [all_observations]. *)
Record obs_rec : Type := mkObs
{ ob_tool : pyval;
  ob_args : pyval;
  ob_results : pyval;
  ob_summary : string }.

(** A prompt is kept as the data its f-string is built from. *)
Inductive prompt : Type :=
| PromptDecide (question : string) (history : list step_rec) (step_number : nat)
| PromptAnswer (question : string) (observations : list obs_rec)
| PromptCypher (question : pyval) (schema : string)
| PromptSimple (question : pyval).

(** The body of the POST to Ollama: prompt, temperature (in tenths),
  [num_predict] and the timeout in seconds. *)
Record llm_request : Type := mkRequest
{ rq_prompt : prompt;
  rq_temperature : nat;
  rq_num_predict : nat;
  rq_timeout : nat }.

(** What [requests.post] does: a response with its status code and the
  ["response"] field of its JSON body ([None] when reading it raises),
  a [ConnectionError], or another exception. *)
Inductive http_outcome : Type :=
| HttpResponse (status_code : nat) (response : option string)
| HttpConnectionError
| HttpOtherError.

(** The six tools of the registry. *)
Inductive tool : Type :=
| KeywordSearch
| AuthorSearch
| InstitutionSearch
| TopicSearch
| CypherSearch
| GetStatistics.

(** How a tool function is called: with the mapping unpacked into keyword
  arguments, or with one positional argument. *)
Inductive call_args : Type :=
| Kwargs (kw : pyval)
| Positional (v : pyval).

Inductive event : Type :=
| EvLLM (rq : llm_request)
| EvQuery (cypher : string) (params : dict)
| EvConnect
| EvExecute (tool_name tool_args : pyval)
| EvInvoke (t : tool) (a : call_args).

(** The collaborators outside the repository. *)
Class Externals : Type :=
{ World : Type;
  (** [json.loads]; [None] when it raises. *)
  json_loads : string -> option pyval;
  (** [requests.post] to the Ollama endpoint. *)
  requests_post : llm_request -> World -> http_outcome * World;
  (** [session.run(query, parameters)] and [record.data()] for each
      record; [None] when the driver raises. *)
  session_run : string -> dict -> World -> option (list dict) * World;
  (** [Neo4jConnection(config)]; [false] when it raises. *)
  neo4j_connect : World -> bool * World;
  (** [time.time()]. *)
  time_time : World -> spec_float * World;
  (** [round(t1 - t0, 2)]. *)
  round_elapsed : spec_float -> spec_float -> spec_float;
  (** [round(x, 1)] and [str(x)] for a [float]. *)
  float_round1 : spec_float -> spec_float;
  float_str : spec_float -> string;
  (** [str(v)] for a [list] or a [dict], and [str(e)] for an exception. *)
  container_str : pyval -> string;
  exn_str : exn -> string }.

Section Effects.
Context {E : Externals}.

Record state : Type := mkState
  { world : World;
    trace : list event }.

(** Computations that read and change the state and may raise. *)
Definition M (A : Type) : Type := state -> outcome A * state.

Definition ret {A} (a : A) : M A := fun s => (Ok a, s).

Definition raise {A} (e : exn) : M A := fun s => (Raise e, s).

Definition bind {A B} (c : M A) (k : A -> M B) : M B :=
  fun s =>
    match c s with
    | (Ok a, s') => k a s'
    | (Raise e, s') => (Raise e, s')
    end.

(** [try: c / except ...: h e]; a handler that does not catch [e]
    raises it again. *)
Definition try_except {A} (c : M A) (h : exn -> M A) : M A :=
  fun s =>
    match c s with
    | (Ok a, s') => (Ok a, s')
    | (Raise e, s') => h e s'
    end.

Definition lift {A} (o : outcome A) : M A := fun s => (o, s).

Definition emit (e : event) : M unit :=
  fun s => (Ok tt, mkState (world s) (e :: trace s)).

(** An operation of the world, recorded in the trace. *)
Definition perform {A} (e : event) (op : World -> A * World) : M A :=
  fun s =>
    let (a, w) := op (world s) in
    (Ok a, mkState w (e :: trace s)).

(** An operation of the world that leaves no event (the clock). *)
Definition observe {A} (op : World -> A * World) : M A :=
  fun s =>
    let (a, w) := op (world s) in
    (Ok a, mkState w (trace s)).

End Effects.

Declare Scope py_scope.
Delimit Scope py_scope with py.
Notation "x <- c ;; k" := (bind c (fun x => k))
(at level 61, c at next level, right associativity) : py_scope.
Notation "c ;;; k" := (bind c (fun _ => k))
(at level 61, right associativity) : py_scope.
Local Open Scope py_scope.

(* ===================================================================== *)
(** * cypher_generator.py *)
(* ===================================================================== *)

Definition BLOCKED_CYPHER_KEYWORDS : list string :=
["DROP"; "DELETE"; "DETACH"; "REMOVE"; "SET"; "CREATE"; "MERGE"].

(** The loop of [_safety_check] over the keywords, on the upper-cased
  query. *)
Fixpoint first_blocked (keywords : list string) (cypher_upper : string)
: option string :=
match keywords with
| [] => None
| keyword :: rest =>
    if Re.search_word keyword cypher_upper
    then Some ("Blocked: Cypher contains write operation '" ++ keyword ++ "'")
    else first_blocked rest cypher_upper
end.

(** [CypherGenerator._safety_check] on a [str] of ASCII text: the error
  message, or [None] when the query is safe to run.  (On other text
  [cypher.upper()] can turn a character that is no word character into
  a letter, and the word boundaries move with it.) *)
Definition _safety_check (cypher : string) : option string :=
first_blocked BLOCKED_CYPHER_KEYWORDS (PyStr.upper cypher).

(** [get_schema_description()]. *)
Definition get_schema_description : string :=
"
NODE TYPES:
- Paper:       paper_id, title, abstract, year (int), citation_count (int)
- Author:      author_id, name, h_index (int)
- Institution: inst_id, name, country
- Topic:       name

RELATIONSHIPS:
- (Author)-[:WROTE]->(Paper)
- (Author)-[:AFFILIATED_WITH]->(Institution)
- (Paper)-[:ABOUT]->(Topic)
- (Paper)-[:CITES]->(Paper)

EXAMPLE QUERIES:
  Papers after 2020:
    MATCH (p:Paper) WHERE p.year > 2020 RETURN p.title, p.year ORDER BY p.year DESC LIMIT 20

  Papers from IIT:
    MATCH (i:Institution)<-[:AFFILIATED_WITH]-(a:Author)-[:WROTE]->(p:Paper)
    WHERE toLower(i.name) CONTAINS 'iit'
    RETURN p.title, a.name, i.name LIMIT 20

  Most cited:
    MATCH (p:Paper) RETURN p.title, p.citation_count ORDER BY p.citation_count DESC LIMIT 10

  Papers with >500 citations about deep learning:
    MATCH (p:Paper)-[:ABOUT]->(t:Topic)
    WHERE p.citation_count > 500 AND toLower(t.name) CONTAINS 'deep learning'
    RETURN p.title, p.citation_count LIMIT 20
".

Section CypherGenerator.
Context {E : Externals}.

(** [json.loads(text)] as a computation. *)
Definition loads (text : string) : M pyval :=
  match json_loads text with
  | Some v => ret v
  | None => raise JSONDecodeError
  end.

(** [try: return json.loads(text) / except Exception: pass]: [Some v]
    when the [return] is taken. *)
Definition try_loads (text : string) : M (option pyval) :=
  try_except (v <- loads text ;; ret (Some v)) (fun _ => ret None).

(** [CypherGenerator._extract_json]. *)
Definition _extract_json (text : string) : M pyval :=
  let text := PyStr.strip text in
  (* Strategy 1: direct parse *)
  r1 <- try_loads text ;;
  match r1 with
  | Some v => ret v
  | None =>
      (* Strategy 2: markdown code block *)
      r2 <- match Re.fence_group text with
            | Some body => try_loads (PyStr.strip body)
            | None => ret None
            end ;;
      match r2 with
      | Some v => ret v
      | None =>
          (* Strategy 3: first { ... } block *)
          r3 <- match Re.brace_group text with
                | Some block => try_loads block
                | None => ret None
                end ;;
          match r3 with
          | Some v => ret v
          | None => ret PNone
          end
      end
  end.

(** [CypherGenerator._call_ollama]. *)
Definition _call_ollama (p : prompt) : M string :=
  let rq := mkRequest p 1 300 45 in
  r <- perform (EvLLM rq) (requests_post rq) ;;
  match r with
  | HttpResponse status_code response =>
      if Nat.eqb status_code 200
      then match response with
           | Some text => ret text
           | None => ret EmptyString
           end
      else ret EmptyString
  | HttpConnectionError => ret EmptyString
  | HttpOtherError => ret EmptyString
  end.

(** ["cypher" in result]. *)
Definition py_in (k : string) (v : pyval) : M bool :=
  match v with
  | PDict d => ret (dict_has k d)
  | PList l => ret (existsb (fun x => eq_str x k) l)
  | PStr s => ret (PyStr.contains k s)
  | PNone | PBool _ | PInt _ | PFloat _ => raise TypeError
  end.

(** [result["cypher"]]. *)
Definition py_getitem (v : pyval) (k : string) : M pyval :=
  match v with
  | PDict d =>
      match assoc k d with
      | Some x => ret x
      | None => raise KeyError
      end
  | _ => raise TypeError
  end.

(** [not result or "cypher" not in result]. *)
Definition lacks_cypher (result : pyval) : M bool :=
  if negb (truthy result) then ret true
  else (b <- py_in "cypher" result ;; ret (negb b)).

(** [self._safety_check(cypher)] on any value: [cypher.upper()] needs a
    [str]. *)
Definition safety_check_val (cypher : pyval) : M (option string) :=
  match cypher with
  | PStr s => ret (_safety_check s)
  | _ => raise AttributeError
  end.

Definition error_result (cypher explanation error : pyval) : pyval :=
  PDict [("cypher", cypher); ("explanation", explanation); ("error", error)].

(** [CypherGenerator.generate_cypher]. *)
Definition generate_cypher (llm_provider : string)
    (user_question : pyval) (schema_info : string) : M pyval :=
  let prompt := PromptCypher user_question schema_info in
  try_except
    (if llm_provider =? "ollama"
     then
       raw_response <- _call_ollama prompt ;;
       result <- _extract_json raw_response ;;
       retry <- lacks_cypher result ;;
       result <- (if retry : bool
                  then
                    let simple_prompt := PromptSimple user_question in
                    raw_response2 <- _call_ollama simple_prompt ;;
                    _extract_json raw_response2
                  else ret result) ;;
       failed <- lacks_cypher result ;;
       if failed : bool
       then ret (error_result PNone (PStr "Failed after retry")
                   (PStr "JSON parse failed both attempts"))
       else
         cypher <- py_getitem result "cypher" ;;
         safety_error <- safety_check_val cypher ;;
         match safety_error with
         | Some msg => ret (error_result PNone (PStr msg) (PStr "unsafe_query"))
         | None => ret result
         end
     else ret (error_result PNone (PStr "Only Ollama is supported")
                 (PStr "unsupported provider")))
    (fun e => ret (error_result PNone (PStr (exn_str e)) (PStr (exn_str e)))).

End CypherGenerator.

(* ===================================================================== *)
(** * search_kg.py and config.py *)
(* ===================================================================== *)

Module Cypher.

Definition papers_by_keyword : string :=
  "
        MATCH (p:Paper)
        WHERE toLower(p.title) CONTAINS toLower($keyword)
           OR toLower(p.abstract) CONTAINS toLower($keyword)
        OPTIONAL MATCH (a:Author)-[:WROTE]->(p)
        OPTIONAL MATCH (p)-[:ABOUT]->(t:Topic)
        OPTIONAL MATCH (a)-[:AFFILIATED_WITH]->(i:Institution)
        RETURN p.title as title, 
               p.year as year, 
               p.citation_count as citations,
               p.abstract as abstract,
               collect(DISTINCT a.name) as authors,
               collect(DISTINCT t.name) as topics,
               collect(DISTINCT i.name) as institutions
        ORDER BY p.citation_count DESC
        ".

Definition by_author : string :=
  "
        MATCH (a:Author)-[:WROTE]->(p:Paper)
        WHERE toLower(a.name) CONTAINS toLower($author_name)
        OPTIONAL MATCH (a)-[:AFFILIATED_WITH]->(i:Institution)
        OPTIONAL MATCH (p)-[:ABOUT]->(t:Topic)
        RETURN a.name as author,
               a.h_index as h_index,
               i.name as institution,
               p.title as title,
               p.year as year,
               p.citation_count as citations,
               collect(DISTINCT t.name) as topics
        ORDER BY p.citation_count DESC
        ".

Definition by_institution : string :=
  "
        MATCH (i:Institution)<-[:AFFILIATED_WITH]-(a:Author)-[:WROTE]->(p:Paper)
        WHERE toLower(i.name) CONTAINS toLower($institution_name)
        OPTIONAL MATCH (p)-[:ABOUT]->(t:Topic)
        RETURN i.name as institution,
               a.name as author,
               p.title as title,
               p.year as year,
               p.citation_count as citations,
               collect(DISTINCT t.name) as topics
        ORDER BY p.citation_count DESC
        ".

Definition by_topic : string :=
  "
        MATCH (p:Paper)-[:ABOUT]->(t:Topic)
        WHERE toLower(t.name) CONTAINS toLower($topic)
        OPTIONAL MATCH (a:Author)-[:WROTE]->(p)
        OPTIONAL MATCH (a)-[:AFFILIATED_WITH]->(i:Institution)
        RETURN t.name as topic,
               p.title as title,
               p.year as year,
               p.citation_count as citations,
               collect(DISTINCT a.name) as authors,
               collect(DISTINCT i.name) as institutions
        ORDER BY p.citation_count DESC
        ".

Definition most_cited_papers : string :=
  "
        MATCH (p:Paper)
        WHERE p.citation_count IS NOT NULL
        OPTIONAL MATCH (a:Author)-[:WROTE]->(p)
        OPTIONAL MATCH (p)-[:ABOUT]->(t:Topic)
        OPTIONAL MATCH (a)-[:AFFILIATED_WITH]->(i:Institution)
        RETURN p.title as title,
               p.year as year,
               p.citation_count as citations,
               collect(DISTINCT a.name) as authors,
               collect(DISTINCT t.name) as topics,
               collect(DISTINCT i.name) as institutions
        ORDER BY p.citation_count DESC
        LIMIT $limit
        ".

Definition statistics : string :=
  "
        MATCH (p:Paper)
        WITH count(p) as total_papers, 
             sum(p.citation_count) as total_citations,
             avg(p.citation_count) as avg_citations
        MATCH (a:Author)
        WITH total_papers, total_citations, avg_citations,
             count(a) as total_authors
        MATCH (t:Topic)
        WITH total_papers, total_citations, avg_citations, total_authors,
             count(t) as total_topics
        OPTIONAL MATCH (i:Institution)
        RETURN total_papers, total_citations, avg_citations, 
               total_authors, total_topics, count(i) as total_institutions
        ".

End Cypher.

Section KnowledgeGraphSearch.
Context {E : Externals}.

(** [Neo4jConnection.execute_query]. *)
Definition execute_query (query : string) (parameters : dict) : M (list dict) :=
  r <- perform (EvQuery query parameters) (session_run query parameters) ;;
  match r with
  | Some records => ret records
  | None => raise DriverError
  end.

Definition search_papers_by_keyword (keyword : pyval) : M (list dict) :=
  execute_query Cypher.papers_by_keyword [("keyword", keyword)].

Definition search_by_author (author_name : pyval) : M (list dict) :=
  execute_query Cypher.by_author [("author_name", author_name)].

Definition search_by_institution (institution_name : pyval) : M (list dict) :=
  execute_query Cypher.by_institution [("institution_name", institution_name)].

Definition search_by_topic (topic : pyval) : M (list dict) :=
  execute_query Cypher.by_topic [("topic", topic)].

Definition get_most_cited_papers (limit : Z) : M (list dict) :=
  execute_query Cypher.most_cited_papers [("limit", PInt limit)].

Definition get_statistics : M dict :=
  results <- execute_query Cypher.statistics [] ;;
  match results with
  | r :: _ => ret r
  | [] => ret []
  end.

End KnowledgeGraphSearch.

(* ===================================================================== *)
(** * agent.py: helpers *)
(* ===================================================================== *)

Definition MAX_STEPS : nat := 3.

Definition newline : string := String (ascii_of_nat 10) EmptyString.

(** The keys of the tool registry [self.tools], in order. *)
Definition tools : list (string * tool) :=
[("keyword_search", KeywordSearch);
 ("author_search", AuthorSearch);
 ("institution_search", InstitutionSearch);
 ("topic_search", TopicSearch);
 ("cypher_search", CypherSearch);
 ("get_statistics", GetStatistics)].

Fixpoint lookup_tool (name : string) (reg : list (string * tool)) : option tool :=
match reg with
| [] => None
| (k, t) :: reg' => if name =? k then Some t else lookup_tool name reg'
end.

(** The parameter of each tool function after [self]: its name and its
  default value, if it has one. *)
Definition parameter (t : tool) : option (string * option pyval) :=
match t with
| KeywordSearch => Some ("query", Some (PStr EmptyString))
| AuthorSearch => Some ("name", None)
| InstitutionSearch => Some ("name", None)
| TopicSearch => Some ("topic", None)
| CypherSearch => Some ("question", None)
| GetStatistics => None
end.

(** Binding of the call with the mapping unpacked: the value the
  parameter receives ([PNone] for the tool that has no parameter), or
  [None] for the [TypeError] of a call that does not fit. *)
Definition bind_kwargs (t : tool) (kwargs : dict) : option pyval :=
match parameter t, kwargs with
| None, [] => Some PNone
| None, _ :: _ => None
| Some (_, default), [] => default
| Some (p, _), [(k, v)] => if k =? p then Some v else None
| Some _, _ :: _ :: _ => None
end.

(** Binding of the call with one positional argument. *)
Definition bind_positional (t : tool) (v : pyval) : option pyval :=
match parameter t with
| None => None
| Some _ => Some v
end.

(** The institution regex of [_decide_action], with [re.I], on ASCII
  text: [from ([A-Za-z ]+?)(?:\s+(?:paper|author|research)|$)]. *)
Module InstRe.
Import PyStr.

Definition in_class (c : ascii) : bool := is_alpha c || Ascii.eqb c " ".

(** [lit] (in lower case) matches at the start of [s], ignoring case. *)
Definition iprefix (lit s : string) : bool := prefix lit (lower s).

(** The group that follows the name: white space and one of the three
    words, or the end of the text (also before a final line feed). *)
Definition tail_ok (rest : string) : bool :=
  match rest with
  | EmptyString => true
  | String c _ =>
      (is_space c
       && let r := lstrip rest in
          iprefix "paper" r || iprefix "author" r || iprefix "research" r)
      || (rest =? newline)
  end.

(** The lazy group, [s] being the text after [from ]. *)
Fixpoint lazy_group (s : string) : option string :=
  match s with
  | EmptyString => None
  | String c s' =>
      if in_class c
      then if tail_ok s' then Some (String c EmptyString)
           else match lazy_group s' with
                | Some g => Some (String c g)
                | None => None
                end
      else None
  end.

(** [re.search(...)]: group 1 of the leftmost match. *)
Fixpoint search (s : string) : option string :=
  match (if iprefix "from " s then lazy_group (drop 5 s) else None) with
  | Some g => Some g
  | None =>
      match s with
      | EmptyString => None
      | String _ s' => search s'
      end
  end.

End InstRe.

Record agent_result : Type := mkResult
{ ar_question : string;
  ar_answer : string;
  ar_thought_chain : list step_rec;
  ar_steps_taken : nat;
  ar_latency_s : spec_float;
  ar_success : bool }.

(** How the [for] loop of [run] ends: by the [return] in its body, or by
  running out of steps or the [break], with the two lists it built. *)
Inductive loop_exit : Type :=
| Returned (r : agent_result)
| Completed (thought_chain : list step_rec) (all_observations : list obs_rec).

Section ResearchAgent.
Context {E : Externals}.

(** [str(v)], as an f-string applies it. *)
Definition py_str (v : pyval) : string :=
  match v with
  | PNone => "None"
  | PBool true => "True"
  | PBool false => "False"
  | PInt z => PyStr.of_Z z
  | PFloat f => float_str f
  | PStr s => s
  | PList _ | PDict _ => container_str v
  end.

(** [v.get(k, default)]. *)
Definition py_get (v : pyval) (k : string) (default : pyval) : M pyval :=
  match v with
  | PDict d => ret (dict_get d k default)
  | _ => raise AttributeError
  end.

(** [v[:n]]. *)
Definition py_slice (n : nat) (v : pyval) : M pyval :=
  match v with
  | PStr s => ret (PStr (PyStr.take n s))
  | PList l => ret (PList (firstn n l))
  | _ => raise TypeError
  end.

(** [round(v, 1)]. *)
Definition py_round1 (v : pyval) : M pyval :=
  match v with
  | PInt z => ret (PInt z)
  | PBool b => ret (PInt (if b then 1 else 0))
  | PFloat f => ret (PFloat (float_round1 f))
  | _ => raise TypeError
  end.

(** [ResearchAgent._call_llm]. *)
Definition _call_llm (p : prompt) (temperature max_tokens : nat) : M string :=
  let rq := mkRequest p temperature max_tokens 90 in
  r <- perform (EvLLM rq) (requests_post rq) ;;
  match r with
  | HttpResponse status_code response =>
      if Nat.eqb status_code 200
      then match response with
           | Some text => ret text
           | None => ret EmptyString
           end
      else ret EmptyString
  | HttpConnectionError => ret EmptyString
  | HttpOtherError => ret EmptyString
  end.

(** [ResearchAgent._parse_json]. *)
Definition _parse_json (text : string) : M pyval :=
  let text := PyStr.strip text in
  (* direct parse *)
  r1 <- try_loads text ;;
  match r1 with
  | Some v => ret v
  | None =>
      (* markdown fences *)
      r2 <- match Re.fence_group text with
            | Some body => try_loads (PyStr.strip body)
            | None => ret None
            end ;;
      match r2 with
      | Some v => ret v
      | None =>
          (* first { ... } block *)
          r3 <- match Re.brace_group text with
                | Some block => try_loads block
                | None => ret None
                end ;;
          match r3 with
          | Some v => ret v
          | None => ret PNone
          end
      end
  end.

(** One line of the summary, for the [i]-th item. *)
Definition summarize_item (i : nat) (item : pyval) : M string :=
  title0 <- py_get item "p.title" (PStr "Unknown") ;;
  title <- py_get item "title" title0 ;;
  citations0 <- py_get item "p.citation_count" (PStr "?") ;;
  citations <- py_get item "citations" citations0 ;;
  year0 <- py_get item "p.year" (PStr EmptyString) ;;
  year <- py_get item "year" year0 ;;
  author <- py_get item "author" (PStr EmptyString) ;;
  let year_str := if truthy year then " (" ++ py_str year ++ ")" else EmptyString in
  let auth_str := if truthy author then " — " ++ py_str author else EmptyString in
  title70 <- py_slice 70 title ;;
  ret ("  " ++ PyStr.of_nat i ++ ". " ++ py_str title70 ++ year_str ++ auth_str
       ++ " [" ++ py_str citations ++ " citations]").

(** [for i, item in enumerate(items, i)]. *)
Fixpoint summarize_items (i : nat) (items : list pyval) : M (list string) :=
  match items with
  | [] => ret []
  | item :: items' =>
      line <- summarize_item i item ;;
      lines <- summarize_items (S i) items' ;;
      ret (line :: lines)
  end.

Definition summarize_statistics (d : dict) : M string :=
  let avg := dict_get d "avg_citations" PNone in
  rounded <- py_round1 (if truthy avg then avg else PInt 0) ;;
  ret ("Statistics: " ++ py_str (dict_get d "total_papers" (PInt 0)) ++ " papers, "
       ++ py_str (dict_get d "total_authors" (PInt 0)) ++ " authors, "
       ++ py_str (dict_get d "total_topics" (PInt 0)) ++ " topics, "
       ++ py_str (dict_get d "total_institutions" (PInt 0)) ++ " institutions, "
       ++ "avg citations: " ++ py_str rounded).

(** [isinstance(observation, dict) and "total_papers" in observation]. *)
Definition is_statistics (observation : pyval) : bool :=
  match observation with
  | PDict d => dict_has "total_papers" d
  | _ => false
  end.

(** [ResearchAgent._summarize_observation]. *)
Definition _summarize_observation (observation : pyval) : M string :=
  match observation with
  | PDict d =>
      if dict_has "total_papers" d then summarize_statistics d
      else ret (PyStr.take 300 (py_str observation))
  | PList [] => ret "No results found."
  | PList l =>
      items <- summarize_items 1 (firstn 5 l) ;;
      let lines := ("Found " ++ PyStr.of_nat (List.length l) ++ " results:") :: items in
      let lines :=
        if Nat.ltb 5 (List.length l)
        then app lines ["  ... and " ++ PyStr.of_nat (List.length l - 5) ++ " more"]
        else lines in
      ret (PyStr.join newline lines)
  | _ => ret (PyStr.take 300 (py_str observation))
  end.

(** [ResearchAgent._has_sufficient_results]. *)
Definition _has_sufficient_results (observation : pyval) : bool :=
  if is_statistics observation then true
  else match observation with
       | PList l => Nat.leb 3 (List.length l)
       | _ => false
       end.

End ResearchAgent.

(* ===================================================================== *)
(** * agent.py: tools, executor, planner and loop *)
(* ===================================================================== *)

Section Agent.
Context {E : Externals}.

(** The records of the store as a tool returns them. *)
Definition rows (records : list dict) : pyval := PList (map PDict records).

(** [ResearchAgent._tool_keyword_search]. *)
Definition _tool_keyword_search (query : pyval) : M pyval :=
  match query with
  | PStr s =>
      if negb (truthy query) || negb (truthy (PStr (PyStr.strip s)))
      then
        (* Guard: empty query *)
        top <- get_most_cited_papers 10 ;;
        ret (rows top)
      else
        results <- search_papers_by_keyword query ;;
        if negb (truthy (rows results)) && Nat.ltb 2 (List.length (PyStr.split s))
        then
          let short_query := hd EmptyString (PyStr.split s) in
          results <- search_papers_by_keyword (PStr short_query) ;;
          ret (rows results)
        else ret (rows results)
  | _ =>
      if negb (truthy query)
      then
        top <- get_most_cited_papers 10 ;;
        ret (rows top)
      else raise AttributeError (* no [strip] on this value *)
  end.

(** [ResearchAgent._tool_author_search]. *)
Definition _tool_author_search (name : pyval) : M pyval :=
  results <- search_by_author name ;;
  ret (rows results).

(** [ResearchAgent._tool_institution_search]. *)
Definition _tool_institution_search (name : pyval) : M pyval :=
  results <- search_by_institution name ;;
  ret (rows results).

(** [ResearchAgent._tool_topic_search]. *)
Definition _tool_topic_search (topic : pyval) : M pyval :=
  results <- search_by_topic topic ;;
  ret (rows results).

(** [ResearchAgent._tool_get_statistics]. *)
Definition _tool_get_statistics : M pyval :=
  stats <- get_statistics ;;
  ret (PDict stats).

(** [ResearchAgent._tool_cypher_search]. *)
Definition _tool_cypher_search (question : pyval) : M pyval :=
  _ <- py_slice 60 question ;; (* the log line slices the question *)
  let schema := get_schema_description in
  cypher_result <- generate_cypher "ollama" question schema ;;
  cypher <- py_get cypher_result "cypher" PNone ;;
  if negb (truthy cypher)
  then
    results <- search_papers_by_keyword question ;;
    ret (rows results)
  else
    _ <- py_slice 80 cypher ;; (* the log line slices the query *)
    try_except
      (connected <- perform EvConnect neo4j_connect ;;
       if connected : bool
       then match cypher with
            | PStr text =>
                results <- execute_query text [] ;;
                ret (rows results)
            | _ => raise TypeError
            end
       else raise DriverError)
      (fun _ =>
         results <- search_papers_by_keyword question ;;
         ret (rows results)).

(** The body of a tool function, its parameter bound to [arg]. *)
Definition tool_body (t : tool) (arg : pyval) : M pyval :=
  match t with
  | KeywordSearch => _tool_keyword_search arg
  | AuthorSearch => _tool_author_search arg
  | InstitutionSearch => _tool_institution_search arg
  | TopicSearch => _tool_topic_search arg
  | CypherSearch => _tool_cypher_search arg
  | GetStatistics => _tool_get_statistics
  end.

(** A call of a tool function: binding, then the body. *)
Definition invoke (t : tool) (a : call_args) : M pyval :=
  emit (EvInvoke t a) ;;;
  match a with
  | Kwargs (PDict kwargs) =>
      match bind_kwargs t kwargs with
      | Some arg => tool_body t arg
      | None => raise TypeError
      end
  | Kwargs _ => raise TypeError (* not a mapping *)
  | Positional v =>
      match bind_positional t v with
      | Some arg => tool_body t arg
      | None => raise TypeError
      end
  end.

(** [tool_name in self.tools]; lists and dicts cannot be hashed. *)
Definition registry_has (tool_name : pyval) : M bool :=
  match tool_name with
  | PStr name =>
      match lookup_tool name tools with
      | Some _ => ret true
      | None => ret false
      end
  | PList _ | PDict _ => raise TypeError
  | _ => ret false
  end.

(** [self.tools[tool_name]]. *)
Definition registry_get (tool_name : pyval) : M tool :=
  match tool_name with
  | PStr name =>
      match lookup_tool name tools with
      | Some t => ret t
      | None => raise KeyError
      end
  | PList _ | PDict _ => raise TypeError
  | _ => raise KeyError
  end.

(** [list(tool_args.values())[0] if tool_args else ""]. *)
Definition first_value (tool_args : pyval) : M pyval :=
  match tool_args with
  | PDict [] => ret (PStr EmptyString)
  | PDict ((_, v) :: _) => ret v
  | _ => if truthy tool_args then raise AttributeError else ret (PStr EmptyString)
  end.

(** The start of the [try] block of [_execute_tool]: the two names as
    they are bound when the call is made. *)
Definition resolve_tool (tool_name tool_args : pyval) : M (pyval * pyval) :=
  known <- registry_has tool_name ;;
  if known : bool then ret (tool_name, tool_args)
  else
    first <- first_value tool_args ;;
    ret (PStr "keyword_search", PDict [("query", first)]).

(** [except TypeError]: one more call, with the first value. *)
Definition retry_positional (tool_name tool_args : pyval) : M pyval :=
  try_except
    (first_val <- first_value tool_args ;;
     t <- registry_get tool_name ;;
     invoke t (Positional first_val))
    (fun _ => ret (PList [])).

(** The two [except] clauses, with the names as bound when raised. *)
Definition execute_handlers (tool_name tool_args : pyval) (e : exn) : M pyval :=
  match e with
  | TypeError => retry_positional tool_name tool_args
  | _ => ret (PList [])
  end.

(** [ResearchAgent._execute_tool]. *)
Definition _execute_tool (tool_name tool_args : pyval) : M pyval :=
  emit (EvExecute tool_name tool_args) ;;;
  bound <- try_except
             (na <- resolve_tool tool_name tool_args ;; ret (inr na))
             (fun e => r <- execute_handlers tool_name tool_args e ;; ret (inl r)) ;;
  match bound with
  | inl result => ret result
  | inr (tool_name, tool_args) =>
      try_except
        (t <- registry_get tool_name ;;
         invoke t (Kwargs tool_args))
        (execute_handlers tool_name tool_args)
  end.

Definition count_words : list string :=
  ["how many"; "total"; "count"; "statistics"; "overview"].

Definition institution_words : list string :=
  ["iit"; "mit"; "stanford"; "university"; "institution"; "college"].

(** [any(w in q for w in ws)]. *)
Definition any_in (ws : list string) (q : string) : bool :=
  existsb (fun w => PyStr.contains w q) ws.

Definition decision (thought tool_name : string) (args : dict) : pyval :=
  PDict [("thought", PStr thought); ("tool", PStr tool_name); ("args", PDict args)].

(** The rule-based pre-check of step 1. *)
Definition rule_step1 (question : string) : option pyval :=
  let q := PyStr.lower question in
  if any_in count_words q
  then Some (decision "Question asks for counts/statistics — using get_statistics directly."
               "get_statistics" [])
  else if any_in institution_words q
  then
    let inst_name :=
      match InstRe.search question with
      | Some g => PyStr.strip g
      | None => "IIT"
      end in
    Some (decision "Question asks about an institution — using institution_search."
            "institution_search" [("name", PStr inst_name)])
  else None.

(** The test on the last observation, from step 2 on. *)
Definition previous_has_results (thought_chain : list step_rec) : bool :=
  match rev thought_chain with
  | [] => false
  | last_step :: _ =>
      let last_obs := st_observation last_step in
      PyStr.contains "Found" last_obs && negb (PyStr.contains "0 results" last_obs)
  end.

(** The fallback decision when the answer of the LLM cannot be used. *)
Definition fallback_decision (question : string) : pyval :=
  let words := filter (fun w => Nat.ltb 3 (String.length w)) (PyStr.split question) in
  let query :=
    match words with
    | [] => question
    | _ => PyStr.join " " (firstn 4 words)
    end in
  decision "Falling back to keyword search" "keyword_search" [("query", PStr query)].

(** [ResearchAgent._decide_action]. *)
Definition _decide_action (question : string) (thought_chain : list step_rec)
    (step_number : nat) : M pyval :=
  match (if Nat.eqb step_number 1 then rule_step1 question else None) with
  | Some d => ret d
  | None =>
      if Nat.leb 2 step_number && previous_has_results thought_chain
      then ret (decision "I already have sufficient results from the previous step."
                  "FINISH" [])
      else
        raw <- _call_llm (PromptDecide question thought_chain step_number) 2 250 ;;
        result <- _parse_json raw ;;
        if negb (truthy result) then ret (fallback_decision question)
        else ret result
  end.

(** [ResearchAgent._generate_final_answer]. *)
Definition _generate_final_answer (question : string) (observations : list obs_rec)
  : M string :=
  match observations with
  | [] => ret "I couldn't find relevant information for your question in the knowledge graph."
  | _ =>
      answer <- _call_llm (PromptAnswer question observations) 4 500 ;;
      if truthy (PStr answer) then ret (PyStr.strip answer)
      else ret "Could not generate an answer from the retrieved data."
  end.

(** The [for step in range(self.MAX_STEPS)] loop of [run], over the
    values of [step] still to come. *)
Fixpoint run_loop (question : string) (start_time : spec_float) (steps : list nat)
    (thought_chain : list step_rec) (all_observations : list obs_rec)
  : M loop_exit :=
  match steps with
  | [] => ret (Completed thought_chain all_observations)
  | step :: steps' =>
      action_decision <- _decide_action question thought_chain (step + 1) ;;
      tool_name <- py_get action_decision "tool" (PStr "keyword_search") ;;
      tool_args <- py_get action_decision "args" (PDict []) ;;
      thought <- py_get action_decision "thought" (PStr EmptyString) ;;
      if eq_str tool_name "FINISH"
      then
        answer <- _generate_final_answer question all_observations ;;
        now <- observe time_time ;;
        ret (Returned (mkResult question answer thought_chain step
                         (round_elapsed now start_time) true))
      else
        observation <- _execute_tool tool_name tool_args ;;
        obs_summary <- _summarize_observation observation ;;
        let thought_chain :=
          app thought_chain
            [mkStep (step + 1) thought tool_name tool_args obs_summary observation] in
        let all_observations :=
          app all_observations [mkObs tool_name tool_args observation obs_summary] in
        if _has_sufficient_results observation && Nat.leb 1 step
        then ret (Completed thought_chain all_observations)
        else run_loop question start_time steps' thought_chain all_observations
  end.

(** The code after the loop. *)
Definition run_finish (question : string) (start_time : spec_float)
    (thought_chain : list step_rec) (all_observations : list obs_rec)
  : M agent_result :=
  answer <- _generate_final_answer question all_observations ;;
  now <- observe time_time ;;
  ret (mkResult question answer thought_chain (List.length thought_chain)
         (round_elapsed now start_time)
         (truthy (PStr answer)
          && negb (PyStr.contains "couldn't find" (PyStr.lower answer)))).

(** [ResearchAgent.run]. *)
Definition run (question : string) : M agent_result :=
  start_time <- observe time_time ;;
  exit <- run_loop question start_time (seq 0 MAX_STEPS) [] [] ;;
  match exit with
  | Returned r => ret r
  | Completed thought_chain all_observations =>
      run_finish question start_time thought_chain all_observations
  end.

End Agent.

(* ===================================================================== *)
(** * A world to run the model in *)
(* ===================================================================== *)

(** An instance of [Externals] for the examples: the LLM answers from a
  script, the store answers every read query with the records it holds
  (the first [limit] of them when the query has that parameter), and
  JSON is decoded by a small decoder (objects, arrays, strings without
  escapes, integers, [true], [false], [null]). *)
Module Demo.
Import PyStr.

Definition dq : ascii := ascii_of_nat 34.

(** [s] between double quotes. *)
Definition quoted (s : string) : string := String dq (s ++ String dq EmptyString).

Definition json_space (c : ascii) : bool :=
  Ascii.eqb c " " || (code c =? 9)%N || (code c =? 10)%N || (code c =? 13)%N.

Fixpoint skip (s : string) : string :=
  match s with
  | EmptyString => EmptyString
  | String c s' => if json_space c then skip s' else s
  end.

(** The characters of a string literal, after its opening quote. *)
Fixpoint read_string (s : string) : option (string * string) :=
  match s with
  | EmptyString => None
  | String c s' =>
      if Ascii.eqb c dq then Some (EmptyString, s')
      else if Ascii.eqb c "\" then None
      else match read_string s' with
           | Some (x, rest) => Some (String c x, rest)
           | None => None
           end
  end.

Fixpoint read_digits (acc : Z) (s : string) : Z * string :=
  match s with
  | EmptyString => (acc, s)
  | String c s' =>
      if is_digit c then read_digits (10 * acc + Z.of_N (code c - 48)) s'
      else (acc, s)
  end.

Definition read_int (s : string) : option (Z * string) :=
  let (neg, body) :=
    match s with
    | String c s' => if Ascii.eqb c "-" then (true, s') else (false, s)
    | EmptyString => (false, s)
    end in
  match body with
  | String c _ =>
      if is_digit c
      then let (z, rest) := read_digits 0 body in
           match rest with
           | String d _ =>
               if Ascii.eqb d "." || Ascii.eqb d "e" || Ascii.eqb d "E" then None
               else Some (if neg then (- z)%Z else z, rest)
           | EmptyString => Some (if neg then (- z)%Z else z, rest)
           end
      else None
  | EmptyString => None
  end.

(** A later value for a key replaces the earlier one, in place. *)
Fixpoint dict_set (d : dict) (k : string) (v : pyval) : dict :=
  match d with
  | [] => [(k, v)]
  | (k', v') :: d' => if k =? k' then (k, v) :: d' else (k', v') :: dict_set d' k v
  end.

Fixpoint value (fuel : nat) (s : string) {struct fuel} : option (pyval * string) :=
  match fuel with
  | O => None
  | S fuel' =>
      match skip s with
      | EmptyString => None
      | String c rest as text =>
          if Ascii.eqb c "{"
          then match skip rest with
               | String c' rest' =>
                   if Ascii.eqb c' "}" then Some (PDict [], rest')
                   else members fuel' rest []
               | EmptyString => None
               end
          else if Ascii.eqb c "["
          then match skip rest with
               | String c' rest' =>
                   if Ascii.eqb c' "]" then Some (PList [], rest')
                   else elements fuel' rest []
               | EmptyString => None
               end
          else if Ascii.eqb c dq
          then match read_string rest with
               | Some (x, rest') => Some (PStr x, rest')
               | None => None
               end
          else if prefix "true" text then Some (PBool true, drop 4 text)
          else if prefix "false" text then Some (PBool false, drop 5 text)
          else if prefix "null" text then Some (PNone, drop 4 text)
          else match read_int text with
               | Some (z, rest') => Some (PInt z, rest')
               | None => None
               end
      end
  end
with elements (fuel : nat) (s : string) (acc : list pyval) {struct fuel}
  : option (pyval * string) :=
  match fuel with
  | O => None
  | S fuel' =>
      match value fuel' s with
      | Some (v, rest) =>
          match skip rest with
          | String c rest' =>
              if Ascii.eqb c "," then elements fuel' rest' (app acc [v])
              else if Ascii.eqb c "]" then Some (PList (app acc [v]), rest')
              else None
          | EmptyString => None
          end
      | None => None
      end
  end
with members (fuel : nat) (s : string) (acc : dict) {struct fuel}
  : option (pyval * string) :=
  match fuel with
  | O => None
  | S fuel' =>
      match skip s with
      | String c rest =>
          if Ascii.eqb c dq
          then match read_string rest with
               | Some (k, rest1) =>
                   match skip rest1 with
                   | String c2 rest2 =>
                       if Ascii.eqb c2 ":"
                       then match value fuel' rest2 with
                            | Some (v, rest3) =>
                                match skip rest3 with
                                | String c4 rest4 =>
                                    if Ascii.eqb c4 ","
                                    then members fuel' rest4 (dict_set acc k v)
                                    else if Ascii.eqb c4 "}"
                                    then Some (PDict (dict_set acc k v), rest4)
                                    else None
                                | EmptyString => None
                                end
                            | None => None
                            end
                       else None
                   | EmptyString => None
                   end
               | None => None
               end
          else None
      | EmptyString => None
      end
  end.

Definition loads (s : string) : option pyval :=
  match value (2 * String.length s + 2) s with
  | Some (v, rest) => if skip rest =? EmptyString then Some v else None
  | None => None
  end.

Record world : Type := mkWorld
  { answers : list string;
    records : list dict }.

Definition post (rq : llm_request) (w : world) : http_outcome * world :=
  match answers w with
  | a :: rest => (HttpResponse 200 (Some a), mkWorld rest (records w))
  | [] => (HttpConnectionError, w)
  end.

Definition statistics_record (w : world) : dict :=
  [("total_papers", PInt (Z.of_nat (List.length (records w))));
   ("total_citations", PInt 0);
   ("avg_citations", PNone);
   ("total_authors", PInt 0);
   ("total_topics", PInt 0);
   ("total_institutions", PInt 0)].

Definition run_query (query : string) (parameters : dict) (w : world)
  : option (list dict) * world :=
  if query =? Cypher.statistics then (Some [statistics_record w], w)
  else match assoc "limit" parameters with
       | Some (PInt n) => (Some (firstn (Z.to_nat n) (records w)), w)
       | _ => (Some (records w), w)
       end.

Definition exn_name (e : exn) : string :=
  match e with
  | TypeError => "TypeError"
  | AttributeError => "AttributeError"
  | KeyError => "KeyError"
  | JSONDecodeError => "JSONDecodeError"
  | DriverError => "DriverError"
  end.

#[global] Instance externals : Externals :=
  {| World := world;
     json_loads := loads;
     requests_post := post;
     session_run := run_query;
     neo4j_connect := fun w => (true, w);
     time_time := fun w => (S754_zero false, w);
     round_elapsed := fun _ _ => S754_zero false;
     float_round1 := fun f => f;
     float_str := fun _ => "0.0";
     container_str := fun _ => "[...]";
     exn_str := exn_name |}.

Definition start (llm_answers : list string) (papers : list dict) : state :=
  mkState (mkWorld llm_answers papers) [].

Definition paper (title : string) (year citations : Z) : dict :=
  [("title", PStr title); ("year", PInt year); ("citations", PInt citations)].

Definition ten_papers : list dict :=
  map (fun n => paper "Graph Neural Networks" 2020 (Z.of_nat n)) (seq 1 10).

(** An answer of the LLM that carries a mutating query. *)
Definition delete_answer : string :=
  "{" ++ quoted "cypher" ++ ": " ++ quoted "MATCH (n) DETACH DELETE n" ++ ", "
      ++ quoted "explanation" ++ ": " ++ quoted "removes every node" ++ "}".

(** An answer of the LLM that carries a read query. *)
Definition match_answer : string :=
  "{" ++ quoted "cypher" ++ ": "
      ++ quoted "MATCH (p:Paper) RETURN p.title LIMIT 10" ++ "}".

(** A step that found three papers. *)
Definition found_step : step_rec :=
  mkStep 1 (PStr "Falling back to keyword search") (PStr "keyword_search")
    (PDict [("query", PStr "graph")])
    "Found 3 results:"
    (PList (map PDict (firstn 3 ten_papers))).

(** A run in which the LLM never gives a decision, the store has no
    paper, and the answer is an apology. *)
Definition apology_answers : list string :=
  ["nonsense"; "nonsense"; "nonsense"; "I couldn't find any matching paper."].

Definition apology_result : agent_result :=
  Eval vm_compute in
    match fst (run "graph networks" (start apology_answers [])) with
    | Ok r => r
    | Raise _ => mkResult EmptyString EmptyString [] 0 (S754_zero false) false
    end.

Definition apology_state : state :=
  Eval vm_compute in snd (run "graph networks" (start apology_answers [])).

End Demo.

(* ===================================================================== *)
(** * Specifications of computations *)
(* ===================================================================== *)

Section Logic.
Context {E : Externals}.

(** [spec P Q X c]: from any state, [c] adds events that all satisfy [P]
    to the trace, and ends with a value that satisfies [Q] or with an
    exception that satisfies [X]. *)
Definition spec {A} (P : event -> Prop) (Q : A -> Prop) (X : exn -> Prop)
    (c : M A) : Prop :=
  forall s, exists evs,
    trace (snd (c s)) = app evs (trace s)
    /\ Forall P evs
    /\ match fst (c s) with
       | Ok a => Q a
       | Raise e => X e
       end.

Definition is_llm (e : event) : Prop :=
  match e with
  | EvLLM _ => True
  | _ => False
  end.

Definition not_execute (e : event) : Prop :=
  match e with
  | EvExecute _ _ => False
  | _ => True
  end.

(** Every query sent to the store passes the safety gate. *)
Definition safe_event (e : event) : Prop :=
  match e with
  | EvQuery cypher _ => _safety_check cypher = None
  | _ => True
  end.

(** The number of calls of [_execute_tool] among the events. *)
Fixpoint count_execute (evs : list event) : nat :=
  match evs with
  | [] => 0
  | EvExecute _ _ :: evs' => S (count_execute evs')
  | _ :: evs' => count_execute evs'
  end.

(** What the code under a call of [_execute_tool] may leave in the
    trace: safe queries, and no further call of [_execute_tool]. *)
Definition quiet (e : event) : Prop := safe_event e /\ not_execute e.

Definition not_type_error (e : exn) : Prop := e <> TypeError.

Definition nobody {A : Type} : A -> Prop := fun _ => False.
Definition anybody {A : Type} : A -> Prop := fun _ => True.

(** What [generate_cypher] returns: a mapping whose query is null, or is
    a text that passes the gate. *)
Definition gated_result (r : pyval) : Prop :=
  exists d, r = PDict d
            /\ (assoc "cypher" d = Some PNone
                \/ exists q, assoc "cypher" d = Some (PStr q) /\ _safety_check q = None).

(** [v[:n]] does not raise. *)
Definition sliceable (v : pyval) : bool :=
  match v with
  | PStr _ | PList _ => true
  | _ => false
  end.

(** The outcome of a call under [except Exception: return []]. *)
Definition or_empty (r : outcome pyval * state) : outcome pyval * state :=
  match r with
  | (Ok v, s) => (Ok v, s)
  | (Raise _, s) => (Ok (PList []), s)
  end.

(** The first value of a mapping, or the empty string. *)
Definition first_or_empty (d : dict) : pyval :=
  match d with
  | [] => PStr EmptyString
  | (_, v) :: _ => v
  end.

(** A tool name that can be looked up and is not in the registry. *)
Definition unknown_tool (tool_name : pyval) : Prop :=
  match tool_name with
  | PStr name => lookup_tool name tools = None
  | PList _ | PDict _ => False
  | _ => True
  end.

(** The state once [e] has been recorded. *)
Definition record_event (e : event) (s : state) : state :=
  mkState (world s) (e :: trace s).

(** What the loop of [run] has done when it ends, [k] steps having been
    completed before it started and [evs] being the events it added:
    the steps counted in the result are the calls of [_execute_tool]. *)
Definition loop_post (k : nat) (evs : list event) (o : outcome loop_exit) : Prop :=
  match o with
  | Ok (Returned r) =>
      ar_steps_taken r = k + count_execute evs
      /\ List.length (ar_thought_chain r) = k + count_execute evs
      /\ ar_success r = true
  | Ok (Completed thought_chain _) =>
      List.length thought_chain = k + count_execute evs
  | Raise _ => True
  end.

End Logic.

(** The three tools that send one query with one parameter and return
  its records: the query and the name of the parameter. *)
Definition plain_search (t : tool) : option (string * string) :=
match t with
| AuthorSearch => Some (Cypher.by_author, "author_name")
| InstitutionSearch => Some (Cypher.by_institution, "institution_name")
| TopicSearch => Some (Cypher.by_topic, "topic")
| _ => None
end.

(** The texts that [_parse_json] and [_extract_json] hand to [json.loads],
  in the order in which they are tried. *)
Definition candidates (text : string) : list string :=
let text := PyStr.strip text in
app [text]
  (app (match Re.fence_group text with
        | Some body => [PyStr.strip body]
        | None => []
        end)
     (match Re.brace_group text with
      | Some block => [block]
      | None => []
      end)).

(** The first of the texts that [json.loads] accepts, decoded. *)
Fixpoint first_decoded {E : Externals} (texts : list string) : option pyval :=
match texts with
| [] => None
| t :: texts' =>
    match json_loads t with
    | Some v => Some v
    | None => first_decoded texts'
    end
end.

(** What the parser returns: that value, or [None]. *)
Definition decoded_or_none {E : Externals} (text : string) : pyval :=
match first_decoded (candidates text) with
| Some v => v
| None => PNone
end.

(** A keyword occurs in a query as a whole word, in any case: the query is
  [before ++ w ++ after], [w] is the keyword up to case, and no word
  character touches [w] on either side. *)
Definition ends_outside_word (before : string) : Prop :=
forall p c, before = p ++ String c EmptyString -> PyStr.is_word c = false.

Definition starts_outside_word (after : string) : Prop :=
forall c r, after = String c r -> PyStr.is_word c = false.

Definition occurs_as_word (keyword query : string) : Prop :=
exists before w after,
  query = before ++ w ++ after
  /\ PyStr.upper w = keyword
  /\ ends_outside_word before
  /\ starts_outside_word after.


(* ===================================================================== *)
(** * More vocabulary for the agent *)
(* ===================================================================== *)

(** The text that [_call_llm] and [_call_ollama] give back for an outcome
    of the POST: the ["response"] field of a 200 response, and the empty
    string in every other case. *)
Definition response_text (o : http_outcome) : string :=
match o with
| HttpResponse status_code response =>
    if Nat.eqb status_code 200
    then match response with
         | Some text => text
         | None => EmptyString
         end
    else EmptyString
| HttpConnectionError => EmptyString
| HttpOtherError => EmptyString
end.

(** The thought chain that the loop of [run] ends with. *)
Definition chain_of_exit (x : loop_exit) : list step_rec :=
match x with
| Returned r => ar_thought_chain r
| Completed thought_chain _ => thought_chain
end.

(** Every character of [s] satisfies [p]. *)
Fixpoint all_chars (p : ascii -> bool) (s : string) : bool :=
match s with
| EmptyString => true
| String c s' => p c && all_chars p s'
end.

Definition opt_space (c : option ascii) : bool :=
match c with
| Some c => PyStr.is_space c
| None => false
end.

(** The two fixed answers of [_generate_final_answer]. *)
Definition no_information : string :=
"I couldn't find relevant information for your question in the knowledge graph.".

Definition no_answer : string :=
"Could not generate an answer from the retrieved data.".

(** More of the world of the examples. *)
Module DemoMore.
Import Demo.

(** An answer of the LLM that says [FINISH]. *)
Definition finish_answer : string :=
"{" ++ quoted "thought" ++ ": " ++ quoted "enough" ++ ", "
    ++ quoted "tool" ++ ": " ++ quoted "FINISH" ++ ", "
    ++ quoted "args" ++ ": {}}".

Definition finish_result : agent_result :=
Eval vm_compute in
  match fst (run "graph networks" (start [finish_answer] ten_papers)) with
  | Ok r => r
  | Raise _ => mkResult EmptyString EmptyString [] 0 (S754_zero false) false
  end.

Definition finish_state : state :=
Eval vm_compute in snd (run "graph networks" (start [finish_answer] ten_papers)).

(** The entry of [all_observations] for [found_step]. *)
Definition found_obs : obs_rec :=
mkObs (st_action found_step) (st_args found_step) (st_raw_results found_step)
  (st_observation found_step).

End DemoMore.

(** The fallback of the Cypher tool: the keyword query on the question. *)
Definition keyword_fallback {E : Externals} (question : pyval) : M pyval :=
bind (search_papers_by_keyword question) (fun results => ret (rows results)).

(** The two requests of [generate_cypher]. *)
Definition first_request (question : pyval) (schema : string) : llm_request :=
mkRequest (PromptCypher question schema) 1 300 45.

Definition retry_request (question : pyval) : llm_request :=
mkRequest (PromptSimple question) 1 300 45.

(** A second world for the examples: as [Demo], with a store that answers
    the keyword query with the papers whose title contains the keyword,
    in any case. *)
Module Shelf.
Import PyStr.

Definition title_of (d : dict) : string :=
match assoc "title" d with
| Some (PStr t) => t
| _ => EmptyString
end.

Definition matches (keyword : string) (d : dict) : bool :=
contains (lower keyword) (lower (title_of d)).

Definition run_query (query : string) (parameters : dict) (w : Demo.world)
  : option (list dict) * Demo.world :=
if query =? Cypher.papers_by_keyword
then match assoc "keyword" parameters with
     | Some (PStr keyword) => (Some (filter (matches keyword) (Demo.records w)), w)
     | _ => (None, w)
     end
else Demo.run_query query parameters w.

Definition externals : Externals :=
{| World := Demo.world;
   json_loads := Demo.loads;
   requests_post := Demo.post;
   session_run := run_query;
   neo4j_connect := fun w => (true, w);
   time_time := fun w => (S754_zero false, w);
   round_elapsed := fun _ _ => S754_zero false;
   float_round1 := fun f => f;
   float_str := fun _ => "0.0";
   container_str := fun _ => "[...]";
   exn_str := Demo.exn_name |}.

Definition start (llm_answers : list string) (papers : list dict) : @state externals :=
@mkState externals (Demo.mkWorld llm_answers papers) [].

Definition papers : list dict :=
[Demo.paper "Attention Is All You Need" 2017 90000;
 Demo.paper "Graph Attention Networks" 2018 20000;
 Demo.paper "Deep Residual Learning" 2016 150000].

(** A record of the store whose title is null. *)
Definition untitled : dict :=
[("institution", PStr "IIT Tirupati"); ("author", PStr "A. Rao");
 ("title", PNone); ("year", PInt 2021); ("citations", PInt 3)].

End Shelf.

(** The end of [generate_cypher], from the second test of the result on:
    the failure record, the key lookup and the safety gate. *)
Definition checked {E : Externals} (result : pyval) : M pyval :=
bind (lacks_cypher result) (fun failed : bool =>
  if failed
  then ret (error_result PNone (PStr "Failed after retry")
              (PStr "JSON parse failed both attempts"))
  else
    bind (py_getitem result "cypher") (fun cypher =>
    bind (safety_check_val cypher) (fun safety_error =>
      match safety_error with
      | Some msg => ret (error_result PNone (PStr msg) (PStr "unsafe_query"))
      | None => ret result
      end))).

(** [except Exception as e] of [generate_cypher]. *)
Definition reported {E : Externals} (c : M pyval) : M pyval :=
try_except c (fun e => ret (error_result PNone (PStr (exn_str e)) (PStr (exn_str e)))).

(** What [_extract_json] makes of the answer to a request, and the state
    after the request. *)
Definition ollama_answer {E : Externals} (rq : llm_request) (s : state) : pyval :=
decoded_or_none (response_text (fst (requests_post rq (world s)))).

Definition after_request {E : Externals} (rq : llm_request) (s : state) : state :=
mkState (snd (requests_post rq (world s))) (EvLLM rq :: trace s).

(** A computation that neither reads nor changes the state. *)
Definition stateless {E : Externals} {A} (c : M A) : Prop :=
exists o, forall s, c s = (o, s).

Definition failed_after_retry : pyval :=
error_result PNone (PStr "Failed after retry") (PStr "JSON parse failed both attempts").

(** [item.get("title", item.get("p.title", "Unknown"))]. *)
Definition item_title (d : dict) : pyval :=
dict_get d "title" (dict_get d "p.title" (PStr "Unknown")).

(** The title of a record can be cut to 70 characters. *)
Definition titled (d : dict) : bool := sliceable (item_title d).

(* ===================================================================== *)
(** * evaluator.py: the tool accuracy of a run *)
(* ===================================================================== *)

Module Evaluator.

(** The three scores, [1.0], [0.5] and [0.0]. *)
Definition score_full : spec_float := S754_finite false 1 0.
Definition score_half : spec_float := S754_finite false 1 (-1).
Definition score_none : spec_float := S754_zero false.

(** The [for step in thought_chain] loop of [compute_tool_accuracy]; a
    step of a run always has its "action" and its "step". *)
Fixpoint first_use (expected_tool : string) (thought_chain : list step_rec)
  : spec_float :=
match thought_chain with
| [] => score_none
| step :: rest =>
    let used_tool := st_action step in
    if eq_str used_tool expected_tool
    then
      let step_num := st_step step in
      if Nat.eqb step_num 1 then score_full else score_half
    else first_use expected_tool rest
end.

(** [compute_tool_accuracy]. *)
Definition compute_tool_accuracy (expected_tool : string)
    (thought_chain : list step_rec) : spec_float :=
match thought_chain with
| [] => score_none
| _ => first_use expected_tool thought_chain
end.

(** Some step used the tool. *)
Definition used_in (expected_tool : string) (thought_chain : list step_rec) : bool :=
existsb (fun step => eq_str (st_action step) expected_tool) thought_chain.

End Evaluator.

Module DemoRuns.
Import Demo.

(** Two runs without an LLM, over the ten papers of the example. *)
Definition count_run : outcome agent_result * state :=
Eval vm_compute in run "How many papers are there?" (start [] ten_papers).

Definition institution_run : outcome agent_result * state :=
Eval vm_compute in run "papers from IIT Tirupati" (start [] ten_papers).

Definition result_of (o : outcome agent_result * state) : agent_result :=
match fst o with
| Ok r => r
| Raise _ => mkResult EmptyString EmptyString [] 0 (S754_zero false) false
end.

End DemoRuns.

(* ===================================================================== *)
(** * llm_integration.py: the hybrid question answering system *)
(* ===================================================================== *)

Module Hybrid.
Import PyStr.

Definition predefined_strong : list string :=
["how many"; "statistics"; "count"; "total";
 "most cited"; "top papers"; "top 5"; "top 10";
 "from iit"; "iit tirupati"; "get stats"; "overview"].

Definition generate_strong : list string :=
["more than"; "more then";
 "less than"; "less then";
 "greater than"; "fewer than";
 "at least"; "at most";
 "published after"; "published before";
 "between"; "not from"; "except"; "excluding";
 "citations >"; "citations <";
 "> 100"; "> 500"; "< 100"].

Definition generate_weak : list string :=
["and also"; "both"; "who have written";
 "have more"; "no more than"].

(** [sum(weight for p in patterns if p in q)]. *)
Definition score_of (weight : nat) (patterns : list string) (q : string) : nat :=
list_sum (map (fun p => if contains p q then weight else 0) patterns).

(** [bool(re.search(r'\d+', q))] on ASCII text. *)
Fixpoint has_digit (q : string) : bool :=
match q with
| EmptyString => false
| String c q' => is_digit c || has_digit q'
end.

(** The two scores of [decide_strategy], the bonus included. *)
Definition scores (question : string) : nat * nat :=
let q := strip (lower question) in
let score_predefined := score_of 2 predefined_strong q in
let score_generate := score_of 2 generate_strong q in
let score_generate := score_generate + score_of 1 generate_weak q in
let has_number := has_digit q in
let citation_kw := any_in ["citation"; "cited"; "cite"] q in
let year_kw := any_in ["year"; "after"; "before"; "since"] q in
let score_generate :=
  if has_number && (citation_kw || year_kw)
  then score_generate + 2
  else score_generate in
(score_predefined, score_generate).

(** [HybridKnowledgeGraphQA.decide_strategy]. *)
Definition decide_strategy (question : string) : string :=
let (score_predefined, score_generate) := scores question in
if Nat.ltb score_generate score_predefined then "predefined"
else if Nat.leb 2 score_generate then "generate"
else "predefined".

(** [str.istitle]: an upper-case letter only after a character without
    case, a lower-case letter only after a letter, and a letter at all. *)
Fixpoint istitle_from (previous_is_cased cased : bool) (s : string) : bool :=
match s with
| EmptyString => cased
| String ch s' =>
    if is_upper ch
    then if previous_is_cased then false else istitle_from true true s'
    else if is_lower ch
    then if previous_is_cased then istitle_from true true s' else false
    else istitle_from false cased s'
end.

Definition istitle (s : string) : bool := istitle_from false false s.

(** The word of a question that is tried as the name of an author. *)
Definition name_like (word : string) : bool :=
istitle word && Nat.ltb 2 (String.length word)
&& negb (existsb (String.eqb (lower word)) ["how"; "what"; "who"; "the"]).

(** The [results] mapping, with its two keys. *)
Definition results (papers : list dict) (statistics : dict) : pyval :=
PDict [("papers", rows papers); ("statistics", PDict statistics)].

Section System.
Context {E : Externals}.

(** [for word in words] in the author branch: the papers of the first
    name-like word for which the store finds some. *)
Fixpoint author_loop (words : list string) : M (option (list dict)) :=
match words with
| [] => ret None
| word :: rest =>
    if name_like word
    then
      papers <- search_by_author (PStr word) ;;
      if truthy (rows papers) then ret (Some papers) else author_loop rest
    else author_loop rest
end.

(** [HybridKnowledgeGraphQA.search_with_predefined]. *)
Definition search_with_predefined (question : string) : M pyval :=
let q := lower question in
if any_in ["how many"; "statistics"; "count"; "total"; "overview"] q
then
  statistics <- get_statistics ;;
  ret (results [] statistics)
else if any_in ["most cited"; "top papers"; "best"; "highest"] q
then
  papers <- get_most_cited_papers 5 ;;
  ret (results papers [])
else if contains "iit" q || contains "institution" q || contains "university" q
then
  papers <- search_by_institution (PStr "IIT") ;;
  ret (results papers [])
else
  found <- (if contains "author" q
            then author_loop (split question)
            else ret None) ;;
  match found with
  | Some papers => ret (results papers [])
  | None =>
      (* Default: keyword search on the full question *)
      papers <- search_papers_by_keyword (PStr question) ;;
      ret (results papers [])
  end.

(** The mapping returned after a fallback. *)
Definition fallback_results (papers : list dict) (more : dict) : pyval :=
PDict (app [("papers", rows papers); ("fallback", PBool true)] more).

(** [HybridKnowledgeGraphQA.search_with_generated_cypher]. *)
Definition search_with_generated_cypher (llm_provider : string) (question : string)
  : M pyval :=
let schema := get_schema_description in
cypher_result <- generate_cypher llm_provider (PStr question) schema ;;
cypher <- py_get cypher_result "cypher" PNone ;;
if negb (truthy cypher)
then
  fallback <- search_papers_by_keyword (PStr question) ;;
  reason <- py_get cypher_result "error" (PStr "generation failed") ;;
  ret (fallback_results fallback [("fallback_reason", reason)])
else
  cypher_query <- py_getitem cypher_result "cypher" ;;
  _ <- py_slice 120 cypher_query ;; (* the log line slices the query *)
  try_except
    (connected <- perform EvConnect neo4j_connect ;;
     if connected : bool
     then match cypher_query with
          | PStr text =>
              papers <- execute_query text [] ;;
              explanation <- py_get cypher_result "explanation" (PStr EmptyString) ;;
              ret (PDict [("papers", rows papers); ("cypher", cypher_query);
                          ("explanation", explanation)])
          | _ => raise TypeError
          end
     else raise DriverError)
    (fun e =>
       fallback <- search_papers_by_keyword (PStr question) ;;
       ret (fallback_results fallback
              [("fallback_reason", PStr (exn_str e)); ("failed_cypher", cypher_query)])).

(** Steps 1 and 2 of [HybridKnowledgeGraphQA.ask]: the strategy, then the
    search it names. *)
Definition ask_search (llm_provider : string) (question : string) : M pyval :=
let strategy := decide_strategy question in
if strategy =? "predefined"
then search_with_predefined question
else search_with_generated_cypher llm_provider question.

End System.

(** What a search of the hybrid system returns: a mapping with a list
    under "papers" that is marked as a fallback, or carries the query it
    ran, a query that passes the gate, or comes from the fixed queries
    and has "statistics". *)
Definition search_result (r : pyval) : Prop :=
exists d l,
  r = PDict d
  /\ assoc "papers" d = Some (PList l)
  /\ (assoc "fallback" d = Some (PBool true)
      \/ (exists text, assoc "cypher" d = Some (PStr text) /\ _safety_check text = None)
      \/ (exists statistics, assoc "statistics" d = Some (PDict statistics))).

(** An event other than a request to the LLM. *)
Definition not_llm (e : event) : Prop :=
match e with
| EvLLM _ => False
| _ => True
end.

(** An event of the store alone: a query that passes the gate, or the
    opening of a connection. *)
Definition store_only (e : event) : Prop := quiet e /\ not_llm e.

Definition driver_error (e : exn) : Prop := e = DriverError.

(** The question has none of the phrases and numbers that speak for a
    generated query, but for one of the weak phrases at most. *)
Definition plain (question : string) : bool :=
let q := strip (lower question) in
negb (any_in generate_strong q)
&& negb (has_digit q)
&& Nat.leb (score_of 1 generate_weak q) 1.

End Hybrid.

(** [format_context] and the test of [generate_nlp_answer] on its
    result.  A call that raises is [None]. *)
Module HybridContext.
Import PyStr.

Definition sentinel : string := "## CONTEXT_START ##".

(** [a or b]. *)
Definition py_or (a b : pyval) : pyval := if truthy a then a else b.

Definition is_none (v : pyval) : bool :=
match v with
| PNone => true
| _ => false
end.

Section Formatting.
Context {E : Externals}.

(** [f"{avg:.1f}"], which raises on a value that is not a number. *)
Variable format_1f : pyval -> option string.

(** [", ".join(str(a) for a in items if a)]. *)
Definition joined (items : list pyval) : string :=
join ", " (map py_str (filter truthy items)).

(** The statistics block. *)
Definition statistics_block (stats : pyval) : option (list string) :=
match stats with
| PDict d =>
    let avg := dict_get d "avg_citations" (PInt 0) in
    let avg_line :=
      if truthy avg
      then option_map (fun t => "  Avg Citations/Paper: " ++ t) (format_1f avg)
      else Some EmptyString in
    match avg_line with
    | Some line =>
        Some [newline ++ "DATABASE STATISTICS:";
              "  Total Papers:       " ++ py_str (dict_get d "total_papers" (PInt 0));
              "  Total Authors:      " ++ py_str (dict_get d "total_authors" (PInt 0));
              "  Total Institutions: " ++ py_str (dict_get d "total_institutions" (PInt 0));
              "  Total Topics:       " ++ py_str (dict_get d "total_topics" (PInt 0));
              "  Total Citations:    " ++ py_str (dict_get d "total_citations" (PInt 0));
              line]
    | None => None
    end
| _ => None (* no [get] on this value *)
end.

(** The lines of the [i]-th paper. *)
Definition paper_lines (i : nat) (paper : pyval) : option (list string) :=
match paper with
| PDict p =>
    let title := py_or (dict_get p "title" PNone) (dict_get p "p.title" (PStr "Untitled")) in
    let year := py_or (dict_get p "year" PNone) (dict_get p "p.year" (PStr EmptyString)) in
    let citations :=
      py_or (dict_get p "citations" PNone) (dict_get p "p.citation_count" (PInt 0)) in
    let authors := dict_get p "authors" (PList []) in
    let institution :=
      py_or (dict_get p "institution" PNone) (dict_get p "institutions" (PList [])) in
    Some
      (app [newline ++ "  " ++ of_nat i ++ ". " ++ py_str title]
      (app (if truthy year then ["     Year: " ++ py_str year] else [])
      (app (if is_none citations then [] else ["     Citations: " ++ py_str citations])
      (app (match authors with
            | PList l =>
                if truthy authors && existsb truthy l
                then ["     Authors: " ++ joined (firstn 3 l)]
                else []
            | _ => []
            end)
           (if truthy institution
            then
              let inst_str :=
                match institution with
                | PList l => joined l
                | _ => py_str institution
                end in
              if truthy (PStr inst_str) then ["     Institution: " ++ inst_str] else []
            else [])))))
| _ => None (* no [get] on this value *)
end.

(** [for i, paper in enumerate(papers, i)]. *)
Fixpoint papers_block (i : nat) (papers : list pyval) : option (list string) :=
match papers with
| [] => Some []
| paper :: rest =>
    match paper_lines i paper with
    | Some lines =>
        match papers_block (S i) rest with
        | Some more => Some (app lines more)
        | None => None
        end
    | None => None
    end
end.

(** [HybridKnowledgeGraphQA.format_context]. *)
Definition format_context (search_results : dict) : option string :=
let statistics := dict_get search_results "statistics" PNone in
match (if truthy statistics then statistics_block statistics else Some []) with
| None => None
| Some statistics_lines =>
    let papers := dict_get search_results "papers" PNone in
    match (if truthy papers
           then match papers with
                | PList l =>
                    option_map (cons (newline ++ "RESEARCH PAPERS:"))
                      (papers_block 1 (firstn 10 l))
                | _ => None (* not a list of mappings *)
                end
           else Some []) with
    | None => None
    | Some papers_lines =>
        let note :=
          if truthy (dict_get search_results "fallback" PNone)
          then [newline ++ "  [Note: Cypher failed ("
                ++ py_str (dict_get search_results "fallback_reason" (PStr EmptyString))
                ++ "), showing keyword-search results instead]"]
          else [] in
        let has_content := truthy statistics || truthy papers in
        if negb has_content then Some EmptyString
        else Some (join newline
                     (sentinel :: app statistics_lines (app papers_lines note)))
    end
end.

End Formatting.

(** The test at the start of [generate_nlp_answer]:
    [not context or "## CONTEXT_START ##" not in context]. *)
Definition lacks_context (context : string) : bool :=
negb (truthy (PStr context)) || negb (contains sentinel context).

End HybridContext.
(* ===================================================================== *)
(** * Facts about strings *)
(* ===================================================================== *)

Section StringFacts.
Import PyStr.

Lemma append_assoc (a b c : string) : (a ++ b) ++ c = a ++ (b ++ c).
Proof. induction a as [|x a IH]; simpl; [reflexivity | now rewrite IH]. Qed.

Lemma append_empty_r (a : string) : a ++ EmptyString = a.
Proof. induction a as [|x a IH]; simpl; [reflexivity | now rewrite IH]. Qed.

Lemma map_chars_append f (a b : string) :
  map_chars f (a ++ b) = map_chars f a ++ map_chars f b.
Proof. induction a as [|x a IH]; simpl; [reflexivity | now rewrite IH]. Qed.

(** A text whose image is a concatenation is a concatenation itself. *)
Lemma map_chars_split f (s a b : string) :
  map_chars f s = a ++ b ->
  exists a' b', s = a' ++ b' /\ map_chars f a' = a /\ map_chars f b' = b.
Proof.
  revert s; induction a as [|x a IH]; intros s H.
  - exists EmptyString, s. auto.
  - destruct s as [|c s]; simpl in H; [discriminate|].
    injection H as Hc Hs. destruct (IH _ Hs) as (a' & b' & -> & Ha & Hb).
    exists (String c a'), b'. simpl. now rewrite Hc, Ha, Hb.
Qed.

Lemma is_word_upper_char (c : ascii) : is_word (upper_char c) = is_word c.
Proof. destruct c as [[] [] [] [] [] [] [] []]; reflexivity. Qed.

Lemma contains_prefix (needle hay : string) :
  prefix needle hay = true -> contains needle hay = true.
Proof. intros H. destruct hay; simpl in *; now rewrite H. Qed.

Lemma prefix_append (a b : string) : prefix a (a ++ b) = true.
Proof.
  induction a as [|x a IH]; simpl.
  - now destruct b.
  - destruct (ascii_dec x x); [assumption | congruence].
Qed.

Lemma prefix_split (a s : string) :
  prefix a s = true -> exists b, s = a ++ b.
Proof.
  revert s; induction a as [|x a IH]; intros s H.
  - exists s. reflexivity.
  - destruct s as [|c s]; simpl in H; [discriminate|].
    destruct (ascii_dec x c); [subst | discriminate].
    destruct (IH _ H) as [b ->]. now exists b.
Qed.

(** [needle in hay] says that [hay] is a text around [needle]. *)
Lemma contains_iff (needle hay : string) :
  contains needle hay = true <-> exists a b, hay = a ++ needle ++ b.
Proof.
  split.
  - induction hay as [|c hay IH]; simpl; intros H.
    + rewrite orb_false_r in H. destruct needle; [|discriminate].
      now exists EmptyString, EmptyString.
    + apply orb_true_iff in H. destruct H as [H|H].
      * destruct (prefix_split needle (String c hay) H) as [b Hb].
        exists EmptyString, b. exact Hb.
      * destruct (IH H) as (a & b & ->). now exists (String c a), b.
  - intros (a & b & ->). induction a as [|c a IH]; simpl.
    + apply contains_prefix, prefix_append.
    + simpl in IH. rewrite IH. apply orb_true_r.
Qed.

End StringFacts.

(* ===================================================================== *)
(** * The safety gate *)
(* ===================================================================== *)

Section SafetyGate.
Import PyStr Re.

Lemma last_of_append prev (a b : string) :
  last_of prev (a ++ b) = last_of (last_of prev a) b.
Proof. revert prev; induction a as [|x a IH]; intros prev; simpl; auto. Qed.

Lemma last_of_cases prev (s : string) :
  (s = EmptyString /\ last_of prev s = prev)
  \/ exists p c, s = p ++ String c EmptyString /\ last_of prev s = Some c.
Proof.
  revert prev; induction s as [|x s IH]; intros prev; [now left | right].
  simpl. destruct (IH (Some x)) as [[-> H] | (p & c & -> & H)].
  - now exists EmptyString, x.
  - now exists (String x p), c.
Qed.

Lemma last_of_nonempty prev x (s : string) :
  last_of prev (String x s) = last_of None (String x s).
Proof. reflexivity. Qed.

Lemma last_of_map f prev (s : string) :
  last_of (option_map f prev) (map_chars f s) = option_map f (last_of prev s).
Proof. revert prev; induction s as [|x s IH]; intros prev; simpl; [reflexivity|]. apply (IH (Some x)). Qed.

Lemma last_of_map_none f (s : string) :
  last_of None (map_chars f s) = option_map f (last_of None s).
Proof. exact (last_of_map f None s). Qed.

Lemma head_map f (s : string) : head (map_chars f s) = option_map f (head s).
Proof. now destruct s. Qed.

Lemma opt_word_upper (c : option ascii) :
  opt_word (option_map upper_char c) = opt_word c.
Proof. destruct c; simpl; [apply is_word_upper_char | reflexivity]. Qed.

Lemma ends_outside_word_iff (before : string) :
  ends_outside_word before <-> opt_word (last_of None before) = false.
Proof.
  unfold ends_outside_word. split.
  - intros H. destruct (last_of_cases None before) as [[_ ->] | (p & c & Hs & ->)].
    + reflexivity.
    + simpl. eapply H, Hs.
  - intros H p c ->. rewrite last_of_append in H. exact H.
Qed.

Lemma starts_outside_word_iff (after : string) :
  starts_outside_word after <-> opt_word (head after) = false.
Proof.
  unfold starts_outside_word. split.
  - intros H. destruct after as [|c r]; simpl; [reflexivity | eapply H; reflexivity].
  - intros H c r ->. exact H.
Qed.

Lemma match_lit_spec (lit s : string) prev l rest :
  match_lit lit s prev = Some (l, rest) <-> s = lit ++ rest /\ l = last_of prev lit.
Proof.
  revert s prev; induction lit as [|a lit IH]; intros s prev; simpl.
  - split; [intros [= -> ->]; auto | intros [-> ->]; reflexivity].
  - destruct s as [|c s].
    + split; [discriminate | intros [H _]; discriminate].
    + destruct (Ascii.eqb_spec a c) as [->|Hne].
      * rewrite IH. split; intros [H1 H2]; split; congruence.
      * split; [discriminate | intros [H _]; injection H as H1 _; congruence].
Qed.

Lemma match_lit_append (lit rest : string) prev :
  match_lit lit (lit ++ rest) prev = Some (last_of prev lit, rest).
Proof. apply match_lit_spec. auto. Qed.

Lemma word_here_spec prev (lit s : string) :
  word_here prev lit s = true <->
  exists rest, s = lit ++ rest
               /\ is_boundary prev (head s) = true
               /\ is_boundary (last_of prev lit) (head rest) = true.
Proof.
  unfold word_here. split.
  - intros H. apply andb_true_iff in H. destruct H as [Hb H].
    destruct (match_lit lit s prev) as [[l rest]|] eqn:Hm; [|discriminate].
    apply match_lit_spec in Hm. destruct Hm as [-> ->]. now exists rest.
  - intros (rest & -> & Hb & He). rewrite Hb, match_lit_append. exact He.
Qed.

Lemma search_word_from_spec prev (lit s : string) :
  search_word_from prev lit s = true <->
  exists before rest,
    s = before ++ lit ++ rest
    /\ is_boundary (last_of prev before) (head (lit ++ rest)) = true
    /\ is_boundary (last_of (last_of prev before) lit) (head rest) = true.
Proof.
  revert prev; induction s as [|c s IH]; intros prev.
  - simpl. rewrite orb_false_r, word_here_spec. split.
    + intros (rest & H & Hb & He). exists EmptyString, rest. simpl. rewrite <- H. auto.
    + intros (before & rest & H & Hb & He).
      destruct before; [|discriminate]. simpl in *. exists rest.
      rewrite <- H in Hb. auto.
  - simpl. rewrite orb_true_iff, word_here_spec, IH. split.
    + intros [(rest & H & Hb & He) | (before & rest & H & Hb & He)].
      * exists EmptyString, rest. simpl. rewrite <- H. auto.
      * exists (String c before), rest. simpl. rewrite H. auto.
    + intros (before & rest & H & Hb & He). destruct before as [|x before].
      * left. exists rest. simpl in *. rewrite <- H in Hb. auto.
      * right. simpl in H. injection H as -> ->. exists before, rest. auto.
Qed.

(** For a literal that starts and ends inside a word, [\b] on its two
    sides asks for the characters next to it to be outside words. *)
Lemma search_word_spec (lit s : string) :
  keyword_like lit = true ->
  search_word lit s = true <->
  exists before rest,
    s = before ++ lit ++ rest
    /\ ends_outside_word before /\ starts_outside_word rest.
Proof.
  intros Hk. unfold keyword_like in Hk. apply andb_true_iff in Hk.
  destruct Hk as [Hh Hl]. destruct lit as [|a lit]; [discriminate|].
  unfold search_word. rewrite search_word_from_spec.
  split; intros (before & rest & Hs & H1 & H2); exists before, rest;
    (split; [exact Hs|]).
  - rewrite ends_outside_word_iff, starts_outside_word_iff.
    rewrite last_of_nonempty in H2. unfold is_boundary in *.
    simpl in Hh. simpl head in H1. simpl opt_word in H1 at 2.
    rewrite Hh in H1. rewrite Hl in H2.
    split; [now destruct (opt_word (last_of None before)) | now destruct (opt_word (head rest))].
  - rewrite ends_outside_word_iff in H1. rewrite starts_outside_word_iff in H2.
    rewrite last_of_nonempty. unfold is_boundary. simpl in Hh. simpl head.
    simpl opt_word at 2. now rewrite Hh, Hl, H1, H2.
Qed.

Lemma occurs_as_word_upper (keyword query : string) :
  occurs_as_word keyword query <->
  exists before rest,
    upper query = before ++ keyword ++ rest
    /\ ends_outside_word before /\ starts_outside_word rest.
Proof.
  unfold occurs_as_word. split.
  - intros (b & w & a & -> & Hw & Hb & Ha).
    exists (upper b), (upper a). unfold upper. rewrite !map_chars_append.
    fold upper. rewrite Hw. split; [reflexivity|].
    rewrite ends_outside_word_iff, starts_outside_word_iff in *.
    unfold upper. rewrite last_of_map_none, head_map, !opt_word_upper. auto.
  - intros (before & rest & H & Hb & Ha).
    destruct (map_chars_split _ _ _ _ H) as (b & r & -> & Hbu & Hr).
    destruct (map_chars_split _ _ _ _ Hr) as (w & a & -> & Hwu & Hau).
    exists b, w, a. split; [reflexivity|]. split; [exact Hwu|].
    rewrite ends_outside_word_iff, starts_outside_word_iff in *.
    rewrite <- Hbu in Hb. rewrite <- Hau in Ha.
    unfold upper in Hb, Ha. rewrite last_of_map_none in Hb. rewrite head_map in Ha.
    rewrite opt_word_upper in Hb, Ha. auto.
Qed.

Lemma first_blocked_some (keywords : list string) (u : string) :
  (exists k, In k keywords /\ search_word k u = true) ->
  exists k, In k keywords
            /\ first_blocked keywords u
               = Some ("Blocked: Cypher contains write operation '" ++ k ++ "'").
Proof.
  induction keywords as [|k ks IH]; intros (k0 & Hin & Hs); [destruct Hin|].
  simpl. destruct (search_word k u) eqn:Hk.
  - exists k. split; [now left | reflexivity].
  - destruct Hin as [->|Hin]; [congruence|].
    destruct IH as (k' & Hin' & H'); [now exists k0|].
    exists k'. split; [now right | exact H'].
Qed.

Lemma first_blocked_none (keywords : list string) (u : string) :
  (forall k, In k keywords -> search_word k u = false) ->
  first_blocked keywords u = None.
Proof.
  induction keywords as [|k ks IH]; intros H; [reflexivity|].
  simpl. rewrite (H k (or_introl eq_refl)). apply IH.
  intros k' Hin. apply H. now right.
Qed.

Lemma blocked_keyword_like (k : string) :
  In k BLOCKED_CYPHER_KEYWORDS -> keyword_like k = true.
Proof.
  intros H. repeat (destruct H as [<-|H]; [reflexivity|]). destruct H.
Qed.

(** The gate of the embedding blocks a query exactly when a keyword of
    the denylist occurs in it as a whole word, in any case; this is the
    gate of the code on queries of ASCII text. *)
Lemma safety_check_blocks (cypher : string) :
  (exists k, In k BLOCKED_CYPHER_KEYWORDS /\ occurs_as_word k cypher) ->
  exists k, In k BLOCKED_CYPHER_KEYWORDS
            /\ _safety_check cypher
               = Some ("Blocked: Cypher contains write operation '" ++ k ++ "'").
Proof.
  intros (k & Hin & Ho). apply first_blocked_some. exists k. split; [exact Hin|].
  apply search_word_spec; [now apply blocked_keyword_like|].
  now apply occurs_as_word_upper.
Qed.

Lemma safety_check_accepts (cypher : string) :
  (forall k, In k BLOCKED_CYPHER_KEYWORDS -> ~ occurs_as_word k cypher) ->
  _safety_check cypher = None.
Proof.
  intros H. apply first_blocked_none. intros k Hin.
  destruct (search_word k (upper cypher)) eqn:Hs; [exfalso | reflexivity].
  apply (H k Hin). apply occurs_as_word_upper.
  now apply search_word_spec in Hs; [|apply blocked_keyword_like].
Qed.

End SafetyGate.

(* ===================================================================== *)
(** * Rules for [spec] *)
(* ===================================================================== *)

Section Rules.
Context {E : Externals}.

Lemma spec_ret A P (Q : A -> Prop) X (a : A) : Q a -> spec P Q X (ret a).
Proof. intros H s. exists []. simpl. auto. Qed.

Lemma spec_raise A P (Q : A -> Prop) (X : exn -> Prop) e :
  X e -> spec P Q X (raise e).
Proof. intros H s. exists []. simpl. auto. Qed.

Lemma spec_bind A B P (Q1 : A -> Prop) (Q : B -> Prop) X (c : M A) (k : A -> M B) :
  spec P Q1 X c -> (forall a, Q1 a -> spec P Q X (k a)) -> spec P Q X (bind c k).
Proof.
  intros Hc Hk s. unfold bind. destruct (Hc s) as (e1 & Ht & Hf & Ho).
  destruct (c s) as [[a|e] s1]; simpl in *.
  - destruct (Hk a Ho s1) as (e2 & Ht2 & Hf2 & Ho2). exists (app e2 e1).
    rewrite Ht2, Ht, app_assoc. split; [reflexivity|].
    split; [apply Forall_app; auto | exact Ho2].
  - exists e1. auto.
Qed.

Lemma spec_try A P (Q : A -> Prop) (X1 X : exn -> Prop) (c : M A) (h : exn -> M A) :
  spec P Q X1 c -> (forall e, X1 e -> spec P Q X (h e)) -> spec P Q X (try_except c h).
Proof.
  intros Hc Hh s. unfold try_except. destruct (Hc s) as (e1 & Ht & Hf & Ho).
  destruct (c s) as [[a|e] s1]; simpl in *.
  - exists e1. auto.
  - destruct (Hh e Ho s1) as (e2 & Ht2 & Hf2 & Ho2). exists (app e2 e1).
    rewrite Ht2, Ht, app_assoc. split; [reflexivity|].
    split; [apply Forall_app; auto | exact Ho2].
Qed.

Lemma spec_perform A (P : event -> Prop) (Q : A -> Prop) X ev (op : World -> A * World) :
  P ev -> (forall w, Q (fst (op w))) -> spec P Q X (perform ev op).
Proof.
  intros Hp Hq s. unfold perform. specialize (Hq (world s)).
  destruct (op (world s)) as [a w]. exists [ev]. simpl. auto.
Qed.

Lemma spec_observe A P (Q : A -> Prop) X (op : World -> A * World) :
  (forall w, Q (fst (op w))) -> spec P Q X (observe op).
Proof.
  intros Hq s. unfold observe. specialize (Hq (world s)).
  destruct (op (world s)) as [a w]. exists []. simpl. auto.
Qed.

Lemma spec_emit (P : event -> Prop) (Q : unit -> Prop) X ev :
  P ev -> Q tt -> spec P Q X (emit ev).
Proof. intros Hp Hq s. exists [ev]. simpl. auto. Qed.

Lemma spec_weaken A (P P' : event -> Prop) (Q Q' : A -> Prop) (X X' : exn -> Prop) c :
  spec P Q X c ->
  (forall e, P e -> P' e) -> (forall a, Q a -> Q' a) -> (forall e, X e -> X' e) ->
  spec P' Q' X' c.
Proof.
  intros Hc HP HQ HX s. destruct (Hc s) as (evs & Ht & Hf & Ho).
  exists evs. split; [exact Ht|]. split.
  - eapply Forall_impl; [|exact Hf]. exact HP.
  - destruct (fst (c s)); auto.
Qed.

(** A computation that is a function of nothing: it gives [a] and leaves
    the state as it is. *)
Lemma spec_pure A P (Q : A -> Prop) X (c : M A) (a : A) :
  (forall s, c s = (Ok a, s)) -> Q a -> spec P Q X c.
Proof. intros Hc Hq s. rewrite Hc. exists []. simpl. auto. Qed.

Lemma is_llm_quiet e : is_llm e -> quiet e.
Proof. destruct e; simpl; intros []; split; exact I. Qed.

Lemma count_execute_app (a b : list event) :
  count_execute (app a b) = count_execute a + count_execute b.
Proof.
  induction a as [|e a IH]; simpl; [reflexivity|].
  destruct e; simpl; rewrite IH; reflexivity.
Qed.

Lemma count_execute_quiet (evs : list event) :
  Forall not_execute evs -> count_execute evs = 0.
Proof.
  induction 1 as [|e evs He _ IH]; simpl; [reflexivity|].
  destruct e; simpl in *; auto; contradiction.
Qed.

End Rules.

(* ===================================================================== *)
(** * The parser of structured responses *)
(* ===================================================================== *)

Section Parser.
Context {E : Externals}.

(** [json.loads] under [try]: no effect, no exception. *)
Lemma try_loads_run (text : string) (s : state) :
  try_loads text s = (Ok (json_loads text), s).
Proof.
  unfold try_loads, try_except, loads, bind, ret, raise.
  destruct (json_loads text); reflexivity.
Qed.

(** The three strategies in order: the result is the first candidate text
    that [json.loads] accepts, decoded; [None] when there is none.  The
    state is untouched and nothing is raised. *)
Lemma parse_json_run (text : string) (s : state) :
  _parse_json text s = (Ok (decoded_or_none text), s).
Proof.
  unfold _parse_json, decoded_or_none, candidates, bind.
  rewrite try_loads_run. simpl.
  destruct (json_loads (PyStr.strip text)) as [v|]; [reflexivity|].
  destruct (Re.fence_group (PyStr.strip text)) as [body|]; simpl.
  - rewrite try_loads_run.
    destruct (json_loads (PyStr.strip body)) as [v|]; [reflexivity|].
    destruct (Re.brace_group (PyStr.strip text)) as [block|]; simpl.
    + rewrite try_loads_run. destruct (json_loads block); reflexivity.
    + reflexivity.
  - destruct (Re.brace_group (PyStr.strip text)) as [block|]; simpl.
    + rewrite try_loads_run. destruct (json_loads block); reflexivity.
    + reflexivity.
Qed.

Lemma extract_json_run (text : string) (s : state) :
  _extract_json text s = (Ok (decoded_or_none text), s).
Proof. exact (parse_json_run text s). Qed.

End Parser.

(* ===================================================================== *)
(** * The query generation adapter *)
(* ===================================================================== *)

Section Generator.
Context {E : Externals}.

Lemma call_ollama_spec X (p : prompt) : spec is_llm anybody X (_call_ollama p).
Proof.
  unfold _call_ollama. eapply spec_bind with (Q1 := anybody).
  - apply spec_perform; simpl; auto. intros; exact I.
  - intros r _. destruct r as [st [resp|]| |]; try destruct (Nat.eqb st 200);
      apply spec_ret; exact I.
Qed.

Lemma extract_json_spec P X (text : string) : spec P anybody X (_extract_json text).
Proof. eapply spec_pure; [apply extract_json_run | exact I]. Qed.

Lemma lacks_cypher_spec P (result : pyval) :
  spec P anybody anybody (lacks_cypher result).
Proof.
  unfold lacks_cypher. destruct (negb (truthy result)); [apply spec_ret; exact I|].
  eapply spec_bind with (Q1 := anybody); [|intros; apply spec_ret; exact I].
  destruct result; simpl; (apply spec_ret || apply spec_raise); exact I.
Qed.

Lemma py_getitem_spec P (v : pyval) (k : string) :
  spec P (fun x => exists d, v = PDict d /\ assoc k d = Some x) anybody (py_getitem v k).
Proof.
  destruct v; simpl; try (apply spec_raise; exact I).
  destruct (assoc k d) eqn:Ha; [apply spec_ret; eauto | apply spec_raise; exact I].
Qed.

Lemma safety_check_val_spec P (cypher : pyval) :
  spec P (fun o => match o with
                   | None => exists q, cypher = PStr q /\ _safety_check q = None
                   | Some _ => True
                   end)
    anybody (safety_check_val cypher).
Proof.
  destruct cypher; simpl; try (apply spec_raise; exact I).
  apply spec_ret. destruct (_safety_check s) eqn:Hs; eauto.
Qed.

Lemma error_result_gated (explanation error : pyval) :
  gated_result (error_result PNone explanation error).
Proof. eexists. split; [reflexivity|]. left. reflexivity. Qed.

(** The adapter never raises, talks only to the LLM, and a query it
    returns has passed the gate. *)
Lemma generate_cypher_spec (llm_provider : string) (question : pyval) (schema : string) :
  spec is_llm gated_result nobody (generate_cypher llm_provider question schema).
Proof.
  unfold generate_cypher. eapply spec_try with (X1 := anybody).
  - destruct (llm_provider =? "ollama").
    + eapply spec_bind; [apply call_ollama_spec|].
      intros raw _. eapply spec_bind; [apply extract_json_spec|].
      intros result _. eapply spec_bind; [apply lacks_cypher_spec|].
      intros retry _. eapply spec_bind with (Q1 := anybody).
      { destruct retry; [|apply spec_ret; exact I].
        eapply spec_bind; [apply call_ollama_spec|].
        intros; apply extract_json_spec. }
      intros result2 _. eapply spec_bind; [apply lacks_cypher_spec|].
      intros failed _. destruct failed.
      * apply spec_ret, error_result_gated.
      * eapply spec_bind; [apply py_getitem_spec|].
        intros cypher (d & -> & Hd).
        eapply spec_bind; [apply safety_check_val_spec|].
        intros [msg|] Hm.
        -- apply spec_ret, error_result_gated.
        -- destruct Hm as (q & -> & Hq). apply spec_ret.
           exists d. split; [reflexivity|]. right. eauto.
    + apply spec_ret, error_result_gated.
  - intros e _. apply spec_ret, error_result_gated.
Qed.

End Generator.

(* ===================================================================== *)
(** * The tools *)
(* ===================================================================== *)

Section Tools.
Context {E : Externals}.

(** The six queries of [search_kg.py] are read queries for the gate. *)
Lemma fixed_queries_safe :
  _safety_check Cypher.papers_by_keyword = None
  /\ _safety_check Cypher.by_author = None
  /\ _safety_check Cypher.by_institution = None
  /\ _safety_check Cypher.by_topic = None
  /\ _safety_check Cypher.most_cited_papers = None
  /\ _safety_check Cypher.statistics = None.
Proof. repeat split; vm_compute; reflexivity. Qed.

Lemma execute_query_spec (query : string) (parameters : dict) :
  _safety_check query = None ->
  spec quiet anybody not_type_error (execute_query query parameters).
Proof.
  intros H. unfold execute_query. eapply spec_bind with (Q1 := anybody).
  - apply spec_perform; [split; simpl; auto | intros; exact I].
  - intros [records|] _; [apply spec_ret; exact I | apply spec_raise; discriminate].
Qed.

Lemma search_papers_by_keyword_spec (keyword : pyval) :
  spec quiet anybody not_type_error (search_papers_by_keyword keyword).
Proof. apply execute_query_spec, fixed_queries_safe. Qed.

Lemma get_most_cited_papers_spec (limit : Z) :
  spec quiet anybody not_type_error (get_most_cited_papers limit).
Proof. apply execute_query_spec, fixed_queries_safe. Qed.

Lemma returns_rows (c : M (list dict)) :
  spec quiet anybody not_type_error c ->
  spec quiet anybody not_type_error (bind c (fun results => ret (rows results))).
Proof. intros H. eapply spec_bind; [exact H | intros; apply spec_ret; exact I]. Qed.

Lemma tool_keyword_search_spec (query : pyval) :
  spec quiet anybody not_type_error (_tool_keyword_search query).
Proof.
  unfold _tool_keyword_search.
  destruct query;
    try (match goal with
         | |- context [truthy ?v] => destruct (truthy v)
         end; simpl;
         [apply spec_raise; discriminate
         | apply returns_rows, get_most_cited_papers_spec]);
    try (simpl; apply returns_rows, get_most_cited_papers_spec).
  destruct (negb (truthy (PStr s)) || negb (truthy (PStr (PyStr.strip s)))).
  - apply returns_rows, get_most_cited_papers_spec.
  - eapply spec_bind; [apply search_papers_by_keyword_spec|]. intros results _.
    destruct (negb (truthy (rows results)) && _).
    + apply returns_rows, search_papers_by_keyword_spec.
    + apply spec_ret; exact I.
Qed.

Lemma tool_get_statistics_spec :
  spec quiet anybody not_type_error _tool_get_statistics.
Proof.
  unfold _tool_get_statistics, get_statistics.
  eapply spec_bind with (Q1 := anybody); [|intros; apply spec_ret; exact I].
  eapply spec_bind; [apply execute_query_spec, fixed_queries_safe|].
  intros [|r results] _; apply spec_ret; exact I.
Qed.

(** A question that cannot be sliced stops the tool at its first line. *)
Lemma tool_cypher_search_unsliceable (question : pyval) (s : state) :
  sliceable question = false ->
  _tool_cypher_search question s = (Raise TypeError, s).
Proof. destruct question; simpl; intros H; try discriminate; reflexivity. Qed.

Lemma py_slice_sliceable (n : nat) (v : pyval) :
  sliceable v = true -> exists r, py_slice n v = ret r.
Proof. destruct v; simpl; intros H; try discriminate; eauto. Qed.

(** The tool sends to the store only the keyword query or a generated
    query that has passed the gate. *)
Lemma tool_cypher_search_spec (question : pyval) :
  sliceable question = true ->
  spec quiet anybody not_type_error (_tool_cypher_search question).
Proof.
  intros Hq. unfold _tool_cypher_search.
  destruct (py_slice_sliceable 60 question Hq) as [r ->].
  eapply spec_bind with (Q1 := anybody); [apply spec_ret; exact I|]. intros _ _.
  eapply spec_bind.
  { eapply spec_weaken; [apply generate_cypher_spec | apply is_llm_quiet | | ].
    - intros a H; exact H.
    - intros e []. }
  intros res (d & -> & Hd). simpl py_get.
  eapply spec_bind with (Q1 := fun c => c = dict_get d "cypher" PNone);
    [apply spec_ret; reflexivity|].
  intros cypher ->. unfold dict_get.
  destruct Hd as [Hd | (q & Hd & Hsafe)]; rewrite Hd.
  - simpl. apply returns_rows, search_papers_by_keyword_spec.
  - destruct (negb (truthy (PStr q))).
    + apply returns_rows, search_papers_by_keyword_spec.
    + simpl py_slice.
      eapply spec_bind with (Q1 := anybody); [apply spec_ret; exact I|]. intros _ _.
      eapply spec_try with (X1 := anybody).
      * eapply spec_bind with (Q1 := anybody).
        -- apply spec_perform; [split; exact I | intros; exact I].
        -- intros [|] _; [|apply spec_raise; exact I].
           eapply spec_weaken;
             [apply returns_rows, execute_query_spec, Hsafe | auto | auto | intros; exact I].
      * intros e _. apply returns_rows, search_papers_by_keyword_spec.
Qed.

(** A tool body raises a [TypeError] only in one case: the Cypher tool,
    on a question that cannot be sliced. *)
Lemma tool_body_spec (t : tool) (arg : pyval) :
  spec quiet anybody
    (fun e => e = TypeError -> t = CypherSearch /\ sliceable arg = false)
    (tool_body t arg).
Proof.
  assert (W : forall c : M pyval,
             spec quiet anybody not_type_error c ->
             spec quiet anybody
               (fun e => e = TypeError -> t = CypherSearch /\ sliceable arg = false) c).
  { intros c Hc. eapply spec_weaken; [exact Hc | auto | auto |].
    intros e Hne He. contradiction. }
  destruct t; simpl.
  - apply W, tool_keyword_search_spec.
  - apply W, returns_rows, execute_query_spec, fixed_queries_safe.
  - apply W, returns_rows, execute_query_spec, fixed_queries_safe.
  - apply W, returns_rows, execute_query_spec, fixed_queries_safe.
  - destruct (sliceable arg) eqn:Hs.
    + apply W, tool_cypher_search_spec, Hs.
    + intros s. rewrite (tool_cypher_search_unsliceable arg s Hs).
      exists []. simpl. auto.
  - apply W, tool_get_statistics_spec.
Qed.

Lemma invoke_spec (t : tool) (a : call_args) : spec quiet anybody anybody (invoke t a).
Proof.
  unfold invoke. eapply spec_bind with (Q1 := anybody).
  - apply spec_emit; [split; exact I | exact I].
  - intros _ _.
    assert (B : forall arg, spec quiet anybody anybody (tool_body t arg)).
    { intros arg. eapply spec_weaken; [apply tool_body_spec | auto | auto | intros; exact I]. }
    destruct a as [kw|v].
    + destruct kw; try (apply spec_raise; exact I).
      destruct (bind_kwargs t d); [apply B | apply spec_raise; exact I].
    + destruct (bind_positional t v); [apply B | apply spec_raise; exact I].
Qed.

End Tools.

(* ===================================================================== *)
(** * The executor *)
(* ===================================================================== *)

Section Executor.
Context {E : Externals}.

Lemma bind_emit A (ev : event) (k : unit -> M A) (s : state) :
  bind (emit ev) k s = k tt (record_event ev s).
Proof. reflexivity. Qed.

Lemma first_value_dict (d : dict) (s : state) :
  first_value (PDict d) s = (Ok (first_or_empty d), s).
Proof. destruct d as [|[k v] d]; reflexivity. Qed.

Lemma first_value_spec P (tool_args : pyval) :
  spec P anybody anybody (first_value tool_args).
Proof.
  destruct tool_args as [| b | z | f | str | l | d]; simpl;
    try destruct b; try destruct f; try destruct l;
    try (destruct d as [|[k v] d]); simpl;
    repeat match goal with
           | |- context [if ?c then _ else _] => destruct c
           end;
    (apply spec_ret || apply spec_raise); exact I.
Qed.

Lemma registry_get_spec P (tool_name : pyval) :
  spec P anybody anybody (registry_get tool_name).
Proof.
  destruct tool_name; unfold registry_get; try (apply spec_raise; exact I).
  destruct (lookup_tool s tools); [apply spec_ret | apply spec_raise]; exact I.
Qed.

Lemma registry_has_spec P (tool_name : pyval) :
  spec P anybody anybody (registry_has tool_name).
Proof.
  destruct tool_name; unfold registry_has; try (apply spec_raise; exact I);
    try (apply spec_ret; exact I).
  destruct (lookup_tool s tools); apply spec_ret; exact I.
Qed.

Lemma retry_positional_spec X (tool_name tool_args : pyval) :
  spec quiet anybody X (retry_positional tool_name tool_args).
Proof.
  unfold retry_positional. eapply spec_try with (X1 := anybody).
  - eapply spec_bind; [apply first_value_spec|]. intros first_val _.
    eapply spec_bind; [apply registry_get_spec|]. intros t _.
    apply invoke_spec.
  - intros e _. apply spec_ret; exact I.
Qed.

Lemma execute_handlers_spec X (tool_name tool_args : pyval) (e : exn) :
  spec quiet anybody X (execute_handlers tool_name tool_args e).
Proof.
  destruct e; simpl; try (apply spec_ret; exact I). apply retry_positional_spec.
Qed.

(** The executor records its call, never raises, and what runs under it
    is quiet. *)
Lemma execute_tool_spec (tool_name tool_args : pyval) (s : state) :
  exists evs v,
    fst (_execute_tool tool_name tool_args s) = Ok v
    /\ trace (snd (_execute_tool tool_name tool_args s))
       = app evs (EvExecute tool_name tool_args :: trace s)
    /\ Forall quiet evs.
Proof.
  unfold _execute_tool. rewrite !bind_emit. cbv beta.
  match goal with
  | |- context [fst (?c (record_event _ s))] =>
      assert (H : spec quiet anybody nobody c)
  end.
  { eapply spec_bind with (Q1 := anybody).
    - eapply spec_try with (X1 := anybody).
      + eapply spec_bind with (Q1 := anybody); [|intros; apply spec_ret; exact I].
        unfold resolve_tool. eapply spec_bind; [apply registry_has_spec|].
        intros [|] _; [apply spec_ret; exact I|].
        eapply spec_bind; [apply first_value_spec|]. intros; apply spec_ret; exact I.
      + intros e _. eapply spec_bind; [apply execute_handlers_spec|].
        intros; apply spec_ret; exact I.
    - intros [r | [n a]] _; [apply spec_ret; exact I|].
      eapply spec_try with (X1 := anybody).
      + eapply spec_bind; [apply registry_get_spec|]. intros t _. apply invoke_spec.
      + intros e _. apply execute_handlers_spec. }
  destruct (H (record_event (EvExecute tool_name tool_args) s))
    as (evs & Ht & Hf & Ho).
  simpl in Ht.
  match goal with
  | |- context [fst ?r] => destruct r as [[v|e] s']
  end; simpl in *; [|contradiction].
  exists evs, v. auto.
Qed.

End Executor.

Section ExecutorCases.
Context {E : Externals}.

Lemma resolve_unknown (tool_name : pyval) (d : dict) (s : state) :
  unknown_tool tool_name ->
  resolve_tool tool_name (PDict d) s
  = (Ok (PStr "keyword_search", PDict [("query", first_or_empty d)]), s).
Proof.
  intros H. unfold resolve_tool, bind.
  assert (Hr : registry_has tool_name s = (Ok false, s)).
  { destruct tool_name; unfold unknown_tool in H; cbv beta iota in H;
      try contradiction; try reflexivity.
    unfold registry_has. rewrite H. reflexivity. }
  rewrite Hr, first_value_dict. reflexivity.
Qed.

Lemma resolve_known (name : string) (t : tool) (tool_args : pyval) (s : state) :
  lookup_tool name tools = Some t ->
  resolve_tool (PStr name) tool_args s = (Ok (PStr name, tool_args), s).
Proof. intros H. unfold resolve_tool, bind, registry_has. rewrite H. reflexivity. Qed.

Lemma registry_get_known (name : string) (t : tool) (s : state) :
  lookup_tool name tools = Some t -> registry_get (PStr name) s = (Ok t, s).
Proof. intros H. unfold registry_get. rewrite H. reflexivity. Qed.

Lemma handlers_other (tool_name tool_args : pyval) (e : exn) (s : state) :
  e <> TypeError ->
  execute_handlers tool_name tool_args e s = (Ok (PList []), s).
Proof. destruct e; intros H; try reflexivity. contradiction. Qed.

Lemma tool_body_type_error (t : tool) (arg : pyval) (s s' : state) :
  tool_body t arg s = (Raise TypeError, s') ->
  t = CypherSearch /\ sliceable arg = false.
Proof.
  intros H. destruct (tool_body_spec t arg s) as (evs & _ & _ & Ho).
  rewrite H in Ho. simpl in Ho. auto.
Qed.

(** An unknown tool name: the keyword search runs with the first value
    of the mapping as its query, and an exception gives the empty list. *)
Lemma execute_unknown (tool_name : pyval) (d : dict) (s : state) :
  unknown_tool tool_name ->
  _execute_tool tool_name (PDict d) s
  = or_empty
      (_tool_keyword_search (first_or_empty d)
         (record_event
            (EvInvoke KeywordSearch (Kwargs (PDict [("query", first_or_empty d)])))
            (record_event (EvExecute tool_name (PDict d)) s))).
Proof.
  intros H. unfold _execute_tool. rewrite bind_emit. cbv beta.
  set (s0 := record_event (EvExecute tool_name (PDict d)) s).
  unfold bind at 1. unfold try_except at 1. unfold bind at 1.
  rewrite resolve_unknown by exact H. cbv beta iota. unfold ret at 1. cbv beta iota.
  unfold try_except. unfold bind at 1.
  change (registry_get (PStr "keyword_search") s0) with (Ok KeywordSearch, s0).
  cbv beta iota. unfold invoke. rewrite bind_emit. cbv beta iota.
  change (bind_kwargs KeywordSearch [("query", first_or_empty d)])
    with (Some (first_or_empty d)).
  cbv beta iota. unfold tool_body.
  match goal with
  | |- context [_tool_keyword_search ?q ?st] =>
      destruct (tool_keyword_search_spec q st) as (evs & _ & _ & Ho);
      destruct (_tool_keyword_search q st) as [[v|e] s1]
  end; simpl in *; [reflexivity|].
  apply handlers_other. exact Ho.
Qed.

(** A mapping that does not fit the tool: one more call, with the first
    value; an exception of that call gives the empty list. *)
Lemma execute_mismatch (name : string) (t : tool) (d : dict) (s : state) :
  lookup_tool name tools = Some t ->
  bind_kwargs t d = None ->
  _execute_tool (PStr name) (PDict d) s
  = or_empty
      (invoke t (Positional (first_or_empty d))
         (record_event (EvInvoke t (Kwargs (PDict d)))
            (record_event (EvExecute (PStr name) (PDict d)) s))).
Proof.
  intros Hl Hb. unfold _execute_tool. rewrite bind_emit. cbv beta.
  set (s0 := record_event (EvExecute (PStr name) (PDict d)) s).
  unfold bind at 1. unfold try_except at 1. unfold bind at 1.
  rewrite resolve_known with (t := t) by exact Hl. cbv beta iota. unfold ret at 1. cbv beta iota.
  unfold try_except at 1. unfold bind at 1.
  rewrite registry_get_known with (t := t) by exact Hl. cbv beta iota.
  unfold invoke at 1. rewrite bind_emit. cbv beta iota. rewrite Hb.
  unfold raise at 1. cbv beta iota.
  unfold execute_handlers, retry_positional, try_except, bind.
  rewrite first_value_dict. rewrite registry_get_known with (t := t) by exact Hl.
  destruct (invoke t (Positional (first_or_empty d)) _) as [[v|e] s1]; reflexivity.
Qed.

(** The mapping fits and the tool raises: the empty list. *)
Lemma execute_body_raises (name : string) (t : tool) (d : dict) (arg : pyval)
    (s s1 : state) (e : exn) :
  lookup_tool name tools = Some t ->
  bind_kwargs t d = Some arg ->
  tool_body t arg
    (record_event (EvInvoke t (Kwargs (PDict d)))
       (record_event (EvExecute (PStr name) (PDict d)) s)) = (Raise e, s1) ->
  fst (_execute_tool (PStr name) (PDict d) s) = Ok (PList []).
Proof.
  intros Hl Hb Hr. unfold _execute_tool. rewrite bind_emit. cbv beta.
  set (s0 := record_event (EvExecute (PStr name) (PDict d)) s) in *.
  unfold bind at 1. unfold try_except at 1. unfold bind at 1.
  rewrite resolve_known with (t := t) by exact Hl. cbv beta iota. unfold ret at 1. cbv beta iota.
  unfold try_except at 1. unfold bind at 1.
  rewrite registry_get_known with (t := t) by exact Hl. cbv beta iota.
  unfold invoke at 1. rewrite bind_emit. cbv beta iota. rewrite Hb, Hr.
  destruct e; try reflexivity.
  edestruct tool_body_type_error as [Ht Hs]; [exact Hr|]. subst t.
  assert (Hd : d = [("question", arg)]).
  { unfold bind_kwargs, parameter in Hb.
    destruct d as [|[k v] [|? ?]]; try discriminate.
    destruct (k =? "question") eqn:Hk; [|discriminate].
    apply String.eqb_eq in Hk. congruence. }
  subst d. unfold execute_handlers, retry_positional, try_except, bind.
  rewrite first_value_dict.
  rewrite registry_get_known with (t := CypherSearch) by exact Hl.
  simpl first_or_empty.
  unfold invoke. rewrite bind_emit. cbv beta iota.
  change (bind_positional CypherSearch arg) with (Some arg). cbv beta iota.
  unfold tool_body.
  rewrite tool_cypher_search_unsliceable by exact Hs. reflexivity.
Qed.

End ExecutorCases.

(* ===================================================================== *)
(** * The planner *)
(* ===================================================================== *)

Section Planner.
Context {E : Externals}.

Lemma call_llm_spec X (p : prompt) (temperature max_tokens : nat) :
  spec is_llm anybody X (_call_llm p temperature max_tokens).
Proof.
  unfold _call_llm. eapply spec_bind with (Q1 := anybody).
  - apply spec_perform; simpl; auto. intros; exact I.
  - intros r _. destruct r as [st [resp|]| |]; try destruct (Nat.eqb st 200);
      apply spec_ret; exact I.
Qed.

Lemma parse_json_spec P X (text : string) : spec P anybody X (_parse_json text).
Proof. eapply spec_pure; [apply parse_json_run | exact I]. Qed.

(** The planner never raises and talks only to the LLM. *)
Lemma decide_action_spec X (question : string) (thought_chain : list step_rec)
    (step_number : nat) :
  spec is_llm anybody X (_decide_action question thought_chain step_number).
Proof.
  unfold _decide_action.
  destruct (if Nat.eqb step_number 1 then rule_step1 question else None);
    [apply spec_ret; exact I|].
  destruct (Nat.leb 2 step_number && previous_has_results thought_chain);
    [apply spec_ret; exact I|].
  eapply spec_bind; [apply call_llm_spec|]. intros raw _.
  eapply spec_bind; [apply parse_json_spec|]. intros result _.
  destruct (negb (truthy result)); apply spec_ret; exact I.
Qed.

Lemma any_in_iff (ws : list string) (q : string) :
  any_in ws q = true <-> exists w, In w ws /\ PyStr.contains w q = true.
Proof. unfold any_in. apply existsb_exists. Qed.

(** Step 1, a question with a count word: the statistics tool, decided
    without touching the state. *)
Lemma decide_statistics (question : string) (thought_chain : list step_rec) (s : state) :
  any_in count_words (PyStr.lower question) = true ->
  _decide_action question thought_chain 1 s
  = (Ok (decision "Question asks for counts/statistics — using get_statistics directly."
           "get_statistics" []), s).
Proof.
  intros H. unfold _decide_action, rule_step1. simpl Nat.eqb. cbv iota.
  rewrite H. reflexivity.
Qed.

(** From step 2 on, results in the last summary: [FINISH], decided
    without touching the state. *)
Lemma decide_finish (question : string) (thought_chain : list step_rec)
    (step_number : nat) (s : state) :
  2 <= step_number ->
  previous_has_results thought_chain = true ->
  _decide_action question thought_chain step_number s
  = (Ok (decision "I already have sufficient results from the previous step."
           "FINISH" []), s).
Proof.
  intros Hn Hp. unfold _decide_action.
  destruct (Nat.eqb_spec step_number 1) as [->|_]; [lia|].
  apply Nat.leb_le in Hn. rewrite Hn, Hp. reflexivity.
Qed.

(** From step 2 on, no results seen in the last summary: the LLM is
    asked. *)
Lemma decide_asks_llm (question : string) (thought_chain : list step_rec)
    (step_number : nat) (s : state) :
  2 <= step_number ->
  previous_has_results thought_chain = false ->
  exists s',
    snd (_decide_action question thought_chain step_number s) = s'
    /\ trace s'
       = EvLLM (mkRequest (PromptDecide question thought_chain step_number) 2 250 90)
           :: trace s.
Proof.
  intros Hn Hp. unfold _decide_action.
  destruct (Nat.eqb_spec step_number 1) as [->|_]; [lia|].
  rewrite Hp, andb_false_r. eexists. split; [reflexivity|].
  unfold bind at 1. unfold _call_llm. unfold bind at 1. unfold perform.
  destruct (requests_post _ (world s)) as [r w].
  assert (K : forall (raw : string) (s1 : state),
             trace (snd ((result <- _parse_json raw ;;
                          if negb (truthy result)
                          then ret (fallback_decision question)
                          else ret result) s1)) = trace s1).
  { intros raw s1. unfold bind. rewrite parse_json_run.
    destruct (negb (truthy _)); reflexivity. }
  destruct r as [st [resp|]| |]; try destruct (Nat.eqb st 200);
    unfold ret at 1; cbv beta iota; rewrite K; reflexivity.
Qed.

End Planner.

(* ===================================================================== *)
(** * The loop *)
(* ===================================================================== *)

Section Loop.
Context {E : Externals}.

Lemma py_get_spec P (v : pyval) (k : string) (default : pyval) :
  spec P anybody anybody (py_get v k default).
Proof. destruct v; simpl; (apply spec_ret || apply spec_raise); exact I. Qed.

Lemma py_slice_spec P (n : nat) (v : pyval) : spec P anybody anybody (py_slice n v).
Proof. destruct v; simpl; (apply spec_ret || apply spec_raise); exact I. Qed.

Lemma py_round1_spec P (v : pyval) : spec P anybody anybody (py_round1 v).
Proof. destruct v; simpl; (apply spec_ret || apply spec_raise); exact I. Qed.

Ltac spec_any :=
  repeat first
    [ apply spec_ret; exact I
    | apply spec_raise; exact I
    | apply py_get_spec
    | apply py_slice_spec
    | apply py_round1_spec
    | eapply spec_bind with (Q1 := anybody); [|intros ? _] ].

Lemma summarize_item_spec P (i : nat) (item : pyval) :
  spec P anybody anybody (summarize_item i item).
Proof. unfold summarize_item. spec_any. Qed.

Lemma summarize_items_spec P (items : list pyval) :
  forall i, spec P anybody anybody (summarize_items i items).
Proof.
  induction items as [|item items IH]; intros i; simpl; [apply spec_ret; exact I|].
  eapply spec_bind with (Q1 := anybody); [apply summarize_item_spec|]. intros line _.
  eapply spec_bind with (Q1 := anybody); [apply IH|]. intros; apply spec_ret; exact I.
Qed.

(** The summary leaves no event. *)
Lemma summarize_observation_spec P (observation : pyval) :
  spec P anybody anybody (_summarize_observation observation).
Proof.
  unfold _summarize_observation. destruct observation; try (apply spec_ret; exact I).
  - destruct l; [apply spec_ret; exact I|].
    eapply spec_bind with (Q1 := anybody); [apply summarize_items_spec|].
    intros; apply spec_ret; exact I.
  - destruct (dict_has "total_papers" d); [|apply spec_ret; exact I].
    unfold summarize_statistics. spec_any.
Qed.

(** The synthesis of the answer never raises and talks only to the LLM. *)
Lemma generate_final_answer_spec X (question : string) (observations : list obs_rec) :
  spec is_llm anybody X (_generate_final_answer question observations).
Proof.
  unfold _generate_final_answer. destruct observations; [apply spec_ret; exact I|].
  eapply spec_bind; [apply call_llm_spec|]. intros answer _.
  destruct (truthy (PStr answer)); apply spec_ret; exact I.
Qed.

Lemma quiet_safe (evs : list event) : Forall quiet evs -> Forall safe_event evs.
Proof. apply Forall_impl. intros e [H _]. exact H. Qed.

Lemma quiet_count (evs : list event) : Forall quiet evs -> count_execute evs = 0.
Proof.
  intros H. apply count_execute_quiet. eapply Forall_impl; [|exact H].
  intros e [_ H']. exact H'.
Qed.

Lemma llm_quiet (evs : list event) : Forall is_llm evs -> Forall quiet evs.
Proof. apply Forall_impl, is_llm_quiet. Qed.

End Loop.

Section LoopInvariant.
Context {E : Externals}.

Lemma py_get_run (v : pyval) (k : string) (default : pyval) (s : state) :
  py_get v k default s
  = (match v with
     | PDict d => Ok (dict_get d k default)
     | _ => Raise AttributeError
     end, s).
Proof. destruct v; reflexivity. Qed.

(** The loop over [n] steps makes at most [n] calls of [_execute_tool];
    the steps it reports are those calls; every query it sends to the
    store has passed the gate; leaving through [FINISH] sets the success
    flag. *)
Lemma run_loop_spec (question : string) (t0 : spec_float) (n : nat) :
  forall k chain obs s o s',
    List.length chain = k ->
    run_loop question t0 (seq k n) chain obs s = (o, s') ->
    exists evs,
      trace s' = app evs (trace s)
      /\ Forall safe_event evs
      /\ count_execute evs <= n
      /\ loop_post k evs o.
Proof.
  induction n as [|n IH]; intros k chain obs s o s' Hk Hr.
  - simpl in Hr. injection Hr as <- <-. exists []. simpl.
    repeat split; auto. lia.
  - simpl seq in Hr. cbn [run_loop] in Hr. unfold bind at 1 in Hr.
    destruct (decide_action_spec nobody question chain (k + 1) s)
      as (e1 & T1 & F1 & O1).
    destruct (_decide_action question chain (k + 1) s) as [[d|e] s1];
      simpl in T1, O1; [|contradiction].
    assert (Q1 : Forall quiet e1) by now apply llm_quiet.
    assert (Early : forall x, exists evs,
               trace s1 = app evs (trace s) /\ Forall safe_event evs
               /\ count_execute evs <= S n /\ loop_post k evs (Raise x)).
    { intros x. exists e1. split; [exact T1|]. split; [now apply quiet_safe|].
      rewrite (quiet_count Q1). split; [lia | exact I]. }
    unfold bind at 1 in Hr. rewrite py_get_run in Hr.
    destruct d as [| | | | | |dd]; try (injection Hr as <- <-; apply Early).
    unfold bind at 1 in Hr. rewrite py_get_run in Hr.
    unfold bind at 1 in Hr. rewrite py_get_run in Hr.
    set (tool_name := dict_get dd "tool" (PStr "keyword_search")) in *.
    set (tool_args := dict_get dd "args" (PDict [])) in *.
    set (thought := dict_get dd "thought" (PStr EmptyString)) in *.
    destruct (eq_str tool_name "FINISH").
    + unfold bind at 1 in Hr.
      destruct (generate_final_answer_spec nobody question obs s1)
        as (e2 & T2 & F2 & O2).
      destruct (_generate_final_answer question obs s1) as [[answer|e] s2];
        simpl in T2, O2; [|contradiction].
      unfold bind at 1 in Hr. unfold observe in Hr.
      destruct (time_time (world s2)) as [now w]. unfold ret in Hr.
      injection Hr as <- <-. exists (app e2 e1). simpl trace.
      rewrite T2, T1, app_assoc. split; [reflexivity|].
      assert (Q2 : Forall quiet (app e2 e1)).
      { apply Forall_app. split; [now apply llm_quiet | exact Q1]. }
      split; [now apply quiet_safe|]. unfold loop_post. simpl.
      rewrite (quiet_count Q2), Nat.add_0_r. repeat split; auto. lia.
    + unfold bind at 1 in Hr.
      destruct (execute_tool_spec tool_name tool_args s1) as (ex & v & Hv & Tx & Fx).
      destruct (_execute_tool tool_name tool_args s1) as [[v'|e] s2];
        simpl in Hv, Tx; [|discriminate].
      injection Hv as ->. unfold bind at 1 in Hr.
      destruct (summarize_observation_spec quiet v s2) as (e3 & T3 & F3 & _).
      set (mid := app e3 (app ex (EvExecute tool_name tool_args :: e1))).
      assert (Tm : forall s3, trace s3 = app e3 (trace s2) -> trace s3 = app mid (trace s)).
      { intros s3 ->. unfold mid. rewrite Tx, T1.
        rewrite <- !app_assoc. reflexivity. }
      assert (Fm : Forall safe_event mid).
      { unfold mid. apply Forall_app. split; [now apply quiet_safe|].
        apply Forall_app. split; [now apply quiet_safe|].
        constructor; [exact I | now apply quiet_safe]. }
      assert (Cm : count_execute mid = 1).
      { unfold mid. rewrite !count_execute_app. simpl.
        rewrite (quiet_count F3), (quiet_count Fx), (quiet_count Q1). reflexivity. }
      destruct (_summarize_observation v s2) as [[obs_summary|e] s3]; simpl in T3.
      * destruct (_has_sufficient_results v && Nat.leb 1 k).
        -- unfold ret in Hr. injection Hr as <- <-. exists mid.
           split; [now apply Tm|]. split; [exact Fm|]. unfold loop_post.
           rewrite Cm, length_app. simpl. lia.
        -- apply IH in Hr; [|rewrite length_app; simpl; lia].
           destruct Hr as (evs & Te & Fe & Ce & Pe).
           exists (app evs mid). rewrite Te, (Tm s3 T3), app_assoc.
           split; [reflexivity|]. split; [apply Forall_app; auto|].
           unfold loop_post in *. rewrite count_execute_app, Cm. split; [lia|].
           destruct o as [[r|c' o']|x]; [|lia|exact I].
           destruct Pe as (P1 & P2 & P3). repeat split; [lia | lia | exact P3].
      * injection Hr as <- <-. exists mid.
        split; [now apply Tm|]. split; [exact Fm|]. rewrite Cm. split; [lia | exact I].
Qed.

End LoopInvariant.

Section Run.
Context {E : Externals}.

(** [run] is the loop followed, unless the loop returned, by the code
    after it. *)
Lemma run_unfold (question : string) (s : state) :
  run question s
  = let (t0, w0) := time_time (world s) in
    match run_loop question t0 (seq 0 MAX_STEPS) [] [] (mkState w0 (trace s)) with
    | (Ok (Returned r), s1) => (Ok r, s1)
    | (Ok (Completed thought_chain all_observations), s1) =>
        run_finish question t0 thought_chain all_observations s1
    | (Raise e, s1) => (Raise e, s1)
    end.
Proof.
  unfold run, bind, observe. destruct (time_time (world s)) as [t0 w0].
  destruct (run_loop question t0 (seq 0 MAX_STEPS) [] [] _) as [[[r|c o]|e] s1];
    reflexivity.
Qed.

(** A run makes at most [MAX_STEPS] calls of [_execute_tool], reports
    exactly those calls as its steps, and sends to the store only queries
    that pass the gate. *)
Lemma run_spec (question : string) (s : state) :
  exists evs,
    trace (snd (run question s)) = app evs (trace s)
    /\ Forall safe_event evs
    /\ count_execute evs <= MAX_STEPS
    /\ match fst (run question s) with
       | Ok r => ar_steps_taken r = count_execute evs
                 /\ List.length (ar_thought_chain r) = count_execute evs
       | Raise _ => True
       end.
Proof.
  rewrite run_unfold. destruct (time_time (world s)) as [t0 w0].
  set (s0 := mkState w0 (trace s)).
  destruct (run_loop question t0 (seq 0 MAX_STEPS) [] [] s0) as [o s1] eqn:Hr.
  apply run_loop_spec in Hr as (evs & T & F & C & P); [|reflexivity].
  simpl in T.
  destruct o as [[r|chain obs]|e]; simpl in P.
  - exists evs. simpl. destruct P as (P1 & P2 & _). auto.
  - unfold run_finish, bind.
    destruct (generate_final_answer_spec nobody question obs s1) as (e2 & T2 & F2 & O2).
    destruct (_generate_final_answer question obs s1) as [[answer|e] s2];
      simpl in T2, O2; [|contradiction].
    unfold observe. destruct (time_time (world s2)) as [now w2]. simpl.
    exists (app e2 evs). rewrite T2, T, app_assoc.
    assert (Q2 : Forall quiet e2) by now apply llm_quiet.
    split; [reflexivity|]. split; [apply Forall_app; split; [now apply quiet_safe | exact F]|].
    rewrite count_execute_app, (quiet_count Q2). simpl. auto.
  - exists evs. simpl. auto.
Qed.

(** A [FINISH] decision ends the loop at once: no call of
    [_execute_tool], the steps so far as the count, success set. *)
Lemma finish_returns (question : string) (t0 : spec_float) (step : nat)
    (rest : list nat) (chain : list step_rec) (obs : list obs_rec)
    (s s1 : state) (d : dict) :
  _decide_action question chain (step + 1) s = (Ok (PDict d), s1) ->
  dict_get d "tool" (PStr "keyword_search") = PStr "FINISH" ->
  exists r s2 evs,
    run_loop question t0 (step :: rest) chain obs s = (Ok (Returned r), s2)
    /\ trace s2 = app evs (trace s)
    /\ count_execute evs = 0
    /\ ar_steps_taken r = step
    /\ ar_thought_chain r = chain
    /\ ar_success r = true.
Proof.
  intros Hd Ht. cbn [run_loop]. unfold bind at 1. rewrite Hd.
  destruct (decide_action_spec nobody question chain (step + 1) s) as (e1 & T1 & F1 & _).
  rewrite Hd in T1. simpl in T1.
  unfold bind at 1. rewrite py_get_run. rewrite Ht.
  unfold bind at 1. rewrite py_get_run. unfold bind at 1. rewrite py_get_run.
  change (eq_str (PStr "FINISH") "FINISH") with true. cbv iota. unfold bind at 1.
  destruct (generate_final_answer_spec nobody question obs s1) as (e2 & T2 & F2 & O2).
  destruct (_generate_final_answer question obs s1) as [[answer|e] s2];
    simpl in T2, O2; [|contradiction].
  unfold bind, observe. destruct (time_time (world s2)) as [now w2].
  eexists _, _, (app e2 e1). split; [reflexivity|]. simpl.
  rewrite T2, T1, app_assoc. split; [reflexivity|].
  rewrite count_execute_app, (quiet_count (llm_quiet F1)), (quiet_count (llm_quiet F2)).
  auto.
Qed.

End Run.

(* ===================================================================== *)
(** * The properties of the specification *)
(* ===================================================================== *)

Section SafetyClaim.
Context {E : Externals}.

Lemma bind_ok A B (c : M A) (k : A -> M B) (s s1 : state) (a : A) :
  c s = (Ok a, s1) -> bind c k s = k a s1.
Proof. intros H. unfold bind. rewrite H. reflexivity. Qed.

Lemma lacks_cypher_dict (d : dict) (x : pyval) (s : state) :
  assoc "cypher" d = Some x ->
  lacks_cypher (PDict d) s = (Ok false, s).
Proof.
  intros H. unfold lacks_cypher.
  assert (Ht : truthy (PDict d) = true) by (destruct d; [discriminate | reflexivity]).
  rewrite Ht. simpl negb. cbv iota. unfold bind, py_in, dict_has. rewrite H. reflexivity.
Qed.

(** X25. The safety gate on queries of ASCII text: a generated query
    in which a keyword of the denylist (DROP, DELETE, DETACH, REMOVE,
    SET, CREATE, MERGE) occurs as a whole word, in any case, is blocked,
    and the adapter then returns the error result with a null query; a
    query in which none occurs is accepted (such as a query made of
    MATCH, WHERE, RETURN, ORDER BY and LIMIT).  Whatever the LLM
    answers, a query that the adapter returns has passed the gate, and
    every query that a run sends to the store has passed it.  (On a
    query with other characters the gate can miss a keyword: it looks
    for the word boundaries after [upper()], which turns U+0345, no word
    character, into the letter U+0399.) *)
Theorem safety_gate_on_ascii_queries :
  (forall cypher : string,
      PyStr.ascii_text cypher = true ->
      (exists k, In k BLOCKED_CYPHER_KEYWORDS /\ occurs_as_word k cypher) ->
      exists k, In k BLOCKED_CYPHER_KEYWORDS
                /\ _safety_check cypher
                   = Some ("Blocked: Cypher contains write operation '" ++ k ++ "'"))
  /\ (forall cypher : string,
         PyStr.ascii_text cypher = true ->
         (forall k, In k BLOCKED_CYPHER_KEYWORDS -> ~ occurs_as_word k cypher) ->
         _safety_check cypher = None)
  /\ (forall (question : pyval) (schema raw : string) (s s1 : state) (d : dict)
             (cypher : string),
         _call_ollama (PromptCypher question schema) s = (Ok raw, s1) ->
         decoded_or_none raw = PDict d ->
         assoc "cypher" d = Some (PStr cypher) ->
         PyStr.ascii_text cypher = true ->
         (exists k, In k BLOCKED_CYPHER_KEYWORDS /\ occurs_as_word k cypher) ->
         exists k,
           In k BLOCKED_CYPHER_KEYWORDS
           /\ generate_cypher "ollama" question schema s
              = (Ok (error_result PNone
                       (PStr ("Blocked: Cypher contains write operation '" ++ k ++ "'"))
                       (PStr "unsafe_query")), s1))
  /\ (forall (llm_provider : string) (question : pyval) (schema : string) (s : state),
         exists d,
           fst (generate_cypher llm_provider question schema s) = Ok (PDict d)
           /\ (assoc "cypher" d = Some PNone
               \/ exists q, assoc "cypher" d = Some (PStr q) /\ _safety_check q = None))
  /\ (forall (question : string) (s : state),
         exists evs,
           trace (snd (run question s)) = app evs (trace s)
           /\ Forall safe_event evs)
  /\ _safety_check
       "MATCH (p:Paper) WHERE p.year > 2020 RETURN p.title, p.year ORDER BY p.year DESC LIMIT 20"
     = None.
Proof.
  split; [intros cypher _; apply safety_check_blocks|].
  split; [intros cypher _; apply safety_check_accepts|].
  split; [|split; [|split; [|vm_compute; reflexivity]]].
  - intros question schema raw s s1 d cypher Hcall Hdec Hd _ Hocc.
    destruct (safety_check_blocks Hocc) as (k & Hin & Hk).
    exists k. split; [exact Hin|].
    unfold generate_cypher, try_except.
    change ("ollama" =? "ollama") with true. cbv iota.
    erewrite bind_ok by exact Hcall.
    erewrite bind_ok by apply extract_json_run. rewrite Hdec.
    erewrite bind_ok by (eapply lacks_cypher_dict; exact Hd). cbv iota.
    erewrite bind_ok by reflexivity.
    erewrite bind_ok by (eapply lacks_cypher_dict; exact Hd). cbv iota.
    erewrite bind_ok by (unfold py_getitem; rewrite Hd; reflexivity).
    erewrite bind_ok by (unfold safety_check_val; rewrite Hk; reflexivity).
    reflexivity.
  - intros llm_provider question schema s.
    destruct (generate_cypher_spec llm_provider question schema s) as (evs & _ & _ & Ho).
    destruct (fst (generate_cypher llm_provider question schema s)) as [r|e];
      [|contradiction].
    destruct Ho as (d & -> & Hd). exists d. auto.
  - intros question s. destruct (run_spec question s) as (evs & T & F & _).
    exists evs. auto.
Qed.

End SafetyClaim.

(** The LLM of the example answers with [MATCH (n) DETACH DELETE n]: the
  adapter returns the error result. *)
Lemma safety_gate_ascii_witness :
exists k,
  In k BLOCKED_CYPHER_KEYWORDS
  /\ fst (generate_cypher "ollama" (PStr "remove all papers") get_schema_description
            (Demo.start [Demo.delete_answer] []))
     = Ok (error_result PNone
             (PStr ("Blocked: Cypher contains write operation '" ++ k ++ "'"))
             (PStr "unsafe_query")).
Proof.
pose (s := Demo.start [Demo.delete_answer] []).
pose (p := PromptCypher (PStr "remove all papers") get_schema_description).
destruct (proj1 (proj2 (proj2 (@safety_gate_on_ascii_queries Demo.externals)))
            (PStr "remove all papers") get_schema_description Demo.delete_answer
            s (snd (_call_ollama p s))
            [("cypher", PStr "MATCH (n) DETACH DELETE n");
             ("explanation", PStr "removes every node")]
            "MATCH (n) DETACH DELETE n")
  as (k & Hin & Hk).
- reflexivity.
- vm_compute. reflexivity.
- reflexivity.
- reflexivity.
- exists "DELETE". split; [simpl; auto|].
  exists "MATCH (n) DETACH ", "DELETE", " n".
  split; [reflexivity|]. split; [reflexivity|].
  split; [apply ends_outside_word_iff | apply starts_outside_word_iff]; reflexivity.
- exists k. split; [exact Hin|]. fold s. rewrite Hk. reflexivity.
Defined.

Section PlannerClaim.
Context {E : Externals}.

(** C4. For every question whose lower-cased text contains one of the
    count tokens ("how many", "total", "count", "statistics",
    "overview"), the decision of the planner at step 1 is the statistics
    tool with an empty argument mapping; the state comes back as it was,
    so no call of the LLM has been made. *)
Theorem count_question_selects_statistics
    (question : string) (thought_chain : list step_rec) (s : state) :
  (exists w, In w ["how many"; "total"; "count"; "statistics"; "overview"]
             /\ PyStr.contains w (PyStr.lower question) = true) ->
  exists thought,
    _decide_action question thought_chain 1 s
    = (Ok (PDict [("thought", PStr thought);
                  ("tool", PStr "get_statistics");
                  ("args", PDict [])]), s).
Proof.
  intros H. eexists. apply decide_statistics. apply any_in_iff. exact H.
Qed.

End PlannerClaim.

(** "How many papers are in the database?" *)
Lemma count_question_witness :
exists thought,
  _decide_action "How many papers are in the database?" [] 1 (Demo.start [] [])
  = (Ok (PDict [("thought", PStr thought);
                ("tool", PStr "get_statistics");
                ("args", PDict [])]), Demo.start [] []).
Proof.
apply (@count_question_selects_statistics Demo.externals).
exists "how many". split; [simpl; auto | reflexivity].
Defined.

Section LoopClaims.
Context {E : Externals}.

(** C3. A run of the loop makes at most [MAX_STEPS] = 3 tool calls (calls
    of [_execute_tool]), whatever the LLM and the store answer, and the
    number of steps it reports is the number of those calls; a [FINISH]
    decision ends the loop without a tool call. *)
Theorem run_makes_at_most_three_tool_calls :
  MAX_STEPS = 3
  /\ (forall (question : string) (s : state),
         exists evs,
           trace (snd (run question s)) = app evs (trace s)
           /\ count_execute evs <= MAX_STEPS
           /\ forall r, fst (run question s) = Ok r ->
                        ar_steps_taken r = count_execute evs)
  /\ (forall (question : string) (t0 : spec_float) (step : nat) (rest : list nat)
             (chain : list step_rec) (obs : list obs_rec) (s s1 : state) (d : dict),
         _decide_action question chain (step + 1) s = (Ok (PDict d), s1) ->
         dict_get d "tool" (PStr "keyword_search") = PStr "FINISH" ->
         exists r s2 evs,
           run_loop question t0 (step :: rest) chain obs s = (Ok (Returned r), s2)
           /\ trace s2 = app evs (trace s)
           /\ count_execute evs = 0
           /\ ar_steps_taken r = step).
Proof.
  split; [reflexivity|]. split.
  - intros question s. destruct (run_spec question s) as (evs & T & _ & C & P).
    exists evs. split; [exact T|]. split; [exact C|].
    intros r Hr. rewrite Hr in P. apply P.
  - intros question t0 step rest chain obs s s1 d Hd Ht.
    destruct (@finish_returns E question t0 step rest chain obs s s1 d Hd Ht)
      as (r & s2 & evs & H1 & H2 & H3 & H4 & _).
    exists r, s2, evs. auto.
Qed.

(** C9. The success flag is true whenever the loop is left through the
    terminal decision of the planner, whatever the answer; when the loop
    ends otherwise, the flag says that the answer is not empty and that
    its lower-cased text does not contain "couldn't find". *)
Theorem success_flag_of_a_run :
  (forall (question : string) (t0 : spec_float) (step : nat) (rest : list nat)
          (chain : list step_rec) (obs : list obs_rec) (s s1 : state) (d : dict),
      _decide_action question chain (step + 1) s = (Ok (PDict d), s1) ->
      dict_get d "tool" (PStr "keyword_search") = PStr "FINISH" ->
      exists r s2,
        run_loop question t0 (step :: rest) chain obs s = (Ok (Returned r), s2)
        /\ ar_success r = true)
  /\ (forall (question : string) (s s' : state) (r : agent_result),
         run question s = (Ok r, s') ->
         exists t0 s0 exit s1,
           run_loop question t0 (seq 0 MAX_STEPS) [] [] s0 = (Ok exit, s1)
           /\ match exit with
              | Returned r' => r' = r /\ ar_success r = true
              | Completed chain obs =>
                  run_finish question t0 chain obs s1 = (Ok r, s')
                  /\ ar_success r
                     = negb (ar_answer r =? EmptyString)
                       && negb (PyStr.contains "couldn't find"
                                  (PyStr.lower (ar_answer r)))
              end).
Proof.
  split.
  - intros question t0 step rest chain obs s s1 d Hd Ht.
    destruct (@finish_returns E question t0 step rest chain obs s s1 d Hd Ht)
      as (r & s2 & evs & H1 & _ & _ & _ & _ & H6).
    exists r, s2. auto.
  - intros question s s' r Hr. rewrite run_unfold in Hr.
    destruct (time_time (world s)) as [t0 w0].
    destruct (run_loop question t0 (seq 0 MAX_STEPS) [] [] _) as [o s1] eqn:Hl.
    destruct o as [[r'|chain obs]|e]; [| |discriminate].
    + injection Hr as -> ->. exists t0, (mkState w0 (trace s)), (Returned r), s'.
      split; [exact Hl|]. split; [reflexivity|].
      apply run_loop_spec in Hl as (evs & _ & _ & _ & P); [|reflexivity].
      apply P.
    + exists t0, (mkState w0 (trace s)), (Completed chain obs), s1. split; [exact Hl|].
      split; [exact Hr|]. unfold run_finish, bind in Hr.
      destruct (_generate_final_answer question obs s1) as [[answer|e] s2];
        [|discriminate].
      unfold observe in Hr. destruct (time_time (world s2)) as [now w2].
      injection Hr as <- _. reflexivity.
Qed.

End LoopClaims.

Section KeywordClaim.
Context {E : Externals}.

(** C10. For a query that is empty or made of white space only, the
    keyword-search tool sends one query to the store, and it is not the
    keyword query: it is the query for the most cited papers, with its
    [LIMIT] set to 10; the tool returns what the store answers to it, so
    the result is not empty when the graph has papers with citations. *)
Theorem blank_query_returns_most_cited (query : string) (s : state) :
  PyStr.strip query = EmptyString ->
  _tool_keyword_search (PStr query) s
  = (let (r, w) :=
       session_run Cypher.most_cited_papers [("limit", PInt 10)] (world s) in
     (match r with
      | Some records => Ok (rows records)
      | None => Raise DriverError
      end,
      mkState w (EvQuery Cypher.most_cited_papers [("limit", PInt 10)] :: trace s)))
  /\ Cypher.most_cited_papers <> Cypher.papers_by_keyword
  /\ PyStr.contains "LIMIT $limit" Cypher.most_cited_papers = true.
Proof.
  intros H. split; [|split; [intros Hq; vm_compute in Hq; discriminate
                            | vm_compute; reflexivity]].
  unfold _tool_keyword_search. rewrite H.
  change (truthy (PStr EmptyString)) with false.
  rewrite orb_true_r.
  unfold get_most_cited_papers, execute_query, bind, perform.
  destruct (session_run _ _ (world s)) as [[records|] w]; reflexivity.
Qed.

End KeywordClaim.

(** At step 2, after a step that found three papers, the planner says
  [FINISH], and the loop returns with one step taken. *)
Lemma finish_decision_witness :
exists r s2 evs,
  run_loop "graph" (S754_zero false) [1; 2] [Demo.found_step] [] (Demo.start [] [])
  = (Ok (Returned r), s2)
  /\ trace s2 = app evs (trace (Demo.start [] []))
  /\ count_execute evs = 0
  /\ ar_steps_taken r = 1.
Proof.
apply (proj2 (proj2 (@run_makes_at_most_three_tool_calls Demo.externals)))
  with (s1 := Demo.start [] [])
       (d := [("thought", PStr "I already have sufficient results from the previous step.");
              ("tool", PStr "FINISH"); ("args", PDict [])]);
  reflexivity.
Defined.

(** The run of the example ends without a terminal decision and with an
  apology: its success flag is false. *)
Lemma success_flag_witness :
ar_success Demo.apology_result = false
/\ exists t0 s0 exit s1,
    run_loop "graph networks" t0 (seq 0 MAX_STEPS) [] [] s0 = (Ok exit, s1)
    /\ match exit with
       | Returned r' =>
           r' = Demo.apology_result /\ ar_success Demo.apology_result = true
       | Completed chain obs =>
           run_finish "graph networks" t0 chain obs s1
           = (Ok Demo.apology_result, Demo.apology_state)
           /\ ar_success Demo.apology_result
              = negb (ar_answer Demo.apology_result =? EmptyString)
                && negb (PyStr.contains "couldn't find"
                           (PyStr.lower (ar_answer Demo.apology_result)))
       end.
Proof.
split; [reflexivity|].
apply (proj2 (@success_flag_of_a_run Demo.externals))
  with (s := Demo.start Demo.apology_answers []).
vm_compute. reflexivity.
Defined.

(** A query of three spaces, on a store of ten papers: the ten papers. *)
Lemma blank_query_witness :
fst (_tool_keyword_search (PStr "   ") (Demo.start [] Demo.ten_papers))
= Ok (rows Demo.ten_papers).
Proof.
rewrite (proj1 (@blank_query_returns_most_cited Demo.externals "   "
                  (Demo.start [] Demo.ten_papers) eq_refl)).
reflexivity.
Defined.

Section ExecutorClaim.
Context {E : Externals}.

(** C6. The executor never raises.  For a tool name that is not in the
    registry, it runs the keyword search with the first value of the
    argument mapping (the empty string when the mapping is empty) as the
    query.  When the mapping does not fit the parameters of the tool, it
    calls the tool once more, with the first value as the one positional
    argument, and gives the empty list if that call raises.  When the
    tool itself raises, it gives the empty list. *)
Theorem executor_never_propagates_failure :
  (forall (tool_name tool_args : pyval) (s : state),
      exists v, fst (_execute_tool tool_name tool_args s) = Ok v)
  /\ (forall (tool_name : pyval) (d : dict) (s : state),
         unknown_tool tool_name ->
         _execute_tool tool_name (PDict d) s
         = or_empty
             (_tool_keyword_search (first_or_empty d)
                (record_event
                   (EvInvoke KeywordSearch
                      (Kwargs (PDict [("query", first_or_empty d)])))
                   (record_event (EvExecute tool_name (PDict d)) s))))
  /\ (forall (name : string) (t : tool) (d : dict) (s : state),
         lookup_tool name tools = Some t ->
         bind_kwargs t d = None ->
         _execute_tool (PStr name) (PDict d) s
         = or_empty
             (invoke t (Positional (first_or_empty d))
                (record_event (EvInvoke t (Kwargs (PDict d)))
                   (record_event (EvExecute (PStr name) (PDict d)) s))))
  /\ (forall (name : string) (t : tool) (d : dict) (arg : pyval)
             (s s1 : state) (e : exn),
         lookup_tool name tools = Some t ->
         bind_kwargs t d = Some arg ->
         tool_body t arg
           (record_event (EvInvoke t (Kwargs (PDict d)))
              (record_event (EvExecute (PStr name) (PDict d)) s)) = (Raise e, s1) ->
         fst (_execute_tool (PStr name) (PDict d) s) = Ok (PList [])).
Proof.
  split; [|split; [|split]].
  - intros tool_name tool_args s.
    destruct (execute_tool_spec tool_name tool_args s) as (evs & v & Hv & _).
    exists v. exact Hv.
  - intros tool_name d s H. now apply execute_unknown.
  - intros name t d s Hl Hb. now apply execute_mismatch.
  - intros name t d arg s s1 e Hl Hb Hr.
    exact (@execute_body_raises E name t d arg s s1 e Hl Hb Hr).
Qed.

End ExecutorClaim.

(** An unknown tool with a query, a known tool with a wrong argument
  name, and a tool that raises. *)
Lemma executor_witness :
fst (_execute_tool (PStr "web_search") (PDict [("q", PStr "graph")])
       (Demo.start [] Demo.ten_papers))
= Ok (rows Demo.ten_papers)
/\ fst (_execute_tool (PStr "author_search") (PDict [("author", PStr "Sarah")])
          (Demo.start [] Demo.ten_papers))
   = Ok (rows Demo.ten_papers)
/\ fst (_execute_tool (PStr "cypher_search") (PDict [("question", PInt 5)])
          (Demo.start [] Demo.ten_papers))
   = Ok (PList []).
Proof.
pose proof (@executor_never_propagates_failure Demo.externals) as (_ & H2 & H3 & H4).
split; [|split].
- rewrite H2 by reflexivity. reflexivity.
- rewrite (H3 "author_search" AuthorSearch) by reflexivity. reflexivity.
- apply (H4 "cypher_search" CypherSearch) with
    (arg := PInt 5)
    (s1 := record_event
             (EvInvoke CypherSearch (Kwargs (PDict [("question", PInt 5)])))
             (record_event
                (EvExecute (PStr "cypher_search") (PDict [("question", PInt 5)]))
                (Demo.start [] Demo.ten_papers)))
    (e := TypeError); reflexivity.
Defined.

Section ResultSizeClaim.
Context {E : Externals}.

Lemma summarize_items_length (items : list pyval) :
  forall i s lines s',
    summarize_items i items s = (Ok lines, s') ->
    List.length lines = List.length items.
Proof.
  induction items as [|item items IH]; intros i s lines s' H; simpl in H.
  - injection H as <- _. reflexivity.
  - unfold bind in H.
    destruct (summarize_item i item s) as [[line|e] s1]; [|discriminate].
    destruct (summarize_items (S i) items s1) as [[ls|e] s2] eqn:H2; [|discriminate].
    injection H as <- _. simpl. f_equal. eapply IH, H2.
Qed.

(** The summary of a list of records: a headline with their number, one
    line for each of the first five, and one more line when there are
    more than five. *)
Lemma summary_shape (l : list pyval) (s s' : state) (summary : string) :
  l <> [] ->
  _summarize_observation (PList l) s = (Ok summary, s') ->
  exists items more,
    summary
    = PyStr.join newline
        (("Found " ++ PyStr.of_nat (List.length l) ++ " results:") :: app items more)
    /\ List.length items = Nat.min 5 (List.length l)
    /\ List.length more <= 1.
Proof.
  intros Hl H. destruct l as [|x l]; [congruence|].
  unfold _summarize_observation, bind in H.
  destruct (summarize_items 1 (firstn 5 (x :: l)) s) as [[items|e] s1] eqn:Hi;
    [|discriminate].
  apply summarize_items_length in Hi. rewrite length_firstn in Hi.
  destruct (Nat.ltb 5 (List.length (x :: l))); injection H as <- _.
  - exists items, ["  ... and " ++ PyStr.of_nat (List.length (x :: l) - 5) ++ " more"].
    auto.
  - exists items, []. rewrite app_nil_r. auto.
Qed.

(** The summary of a list of records is the headline with their number,
    the lines of the first five records, in order, and one more line
    when there are more than five. *)
Lemma summary_of_first_five (l : list pyval) (s s' : state) (summary : string) :
  l <> [] ->
  _summarize_observation (PList l) s = (Ok summary, s') ->
  exists items,
    summarize_items 1 (firstn 5 l) s = (Ok items, s')
    /\ List.length items = Nat.min 5 (List.length l)
    /\ summary
       = PyStr.join newline
           (("Found " ++ PyStr.of_nat (List.length l) ++ " results:")
              :: app items
                   (if Nat.ltb 5 (List.length l)
                    then ["  ... and " ++ PyStr.of_nat (List.length l - 5) ++ " more"]
                    else [])).
Proof.
  intros Hl H. destruct l as [|x l]; [congruence|].
  unfold _summarize_observation, bind in H.
  destruct (summarize_items 1 (firstn 5 (x :: l)) s) as [[items|e] s1] eqn:Hi;
    [|discriminate].
  exists items.
  pose proof (summarize_items_length _ _ _ Hi) as Hn. rewrite length_firstn in Hn.
  destruct (Nat.ltb 5 (List.length (x :: l))); injection H as <- <-.
  - auto.
  - rewrite app_nil_r. auto.
Qed.

(** The records after the fifth have no part in the summary but their
    number. *)
Lemma summary_ignores_the_rest (l l' : list pyval) (s : state) :
  firstn 5 l = firstn 5 l' ->
  List.length l = List.length l' ->
  _summarize_observation (PList l) s = _summarize_observation (PList l') s.
Proof.
  intros Hf Hn. destruct l as [|x l], l' as [|x' l']; try discriminate; [reflexivity|].
  unfold _summarize_observation. rewrite Hf, Hn. reflexivity.
Qed.

(** C2, as the code has it.  A search tool returns the records exactly as
    the store delivers them, however many they are: its query has no
    [LIMIT].  What is capped is the summary of an observation, the text
    that reaches the prompts: after the headline it has the lines of the
    first five records and of no other, then one line with the number
    of the records left out; two results that agree on their first five
    records and on their length have the same summary. *)
Theorem tools_return_the_records_of_the_store :
  (forall (t : tool) (query p : string) (arg : pyval) (s : state)
          (records : list dict) (w : World),
      plain_search t = Some (query, p) ->
      session_run query [(p, arg)] (world s) = (Some records, w) ->
      tool_body t arg s
      = (Ok (rows records), mkState w (EvQuery query [(p, arg)] :: trace s)))
  /\ (forall (q : string) (s : state) (records : list dict) (w : World),
         PyStr.strip q <> EmptyString ->
         records <> [] ->
         session_run Cypher.papers_by_keyword [("keyword", PStr q)] (world s)
         = (Some records, w) ->
         _tool_keyword_search (PStr q) s
         = (Ok (rows records),
            mkState w (EvQuery Cypher.papers_by_keyword [("keyword", PStr q)] :: trace s)))
  /\ (forall records : list dict,
         exists l, rows records = PList l /\ List.length l = List.length records)
  /\ (PyStr.contains "LIMIT" Cypher.papers_by_keyword = false
      /\ PyStr.contains "LIMIT" Cypher.by_author = false
      /\ PyStr.contains "LIMIT" Cypher.by_institution = false
      /\ PyStr.contains "LIMIT" Cypher.by_topic = false)
  /\ (forall (l : list pyval) (s s' : state) (summary : string),
         l <> [] ->
         _summarize_observation (PList l) s = (Ok summary, s') ->
         exists items,
           summarize_items 1 (firstn 5 l) s = (Ok items, s')
           /\ List.length items = Nat.min 5 (List.length l)
           /\ summary
              = PyStr.join newline
                  (("Found " ++ PyStr.of_nat (List.length l) ++ " results:")
                     :: app items
                          (if Nat.ltb 5 (List.length l)
                           then ["  ... and " ++ PyStr.of_nat (List.length l - 5)
                                 ++ " more"]
                           else [])))
  /\ (forall (l l' : list pyval) (s : state),
         firstn 5 l = firstn 5 l' ->
         List.length l = List.length l' ->
         _summarize_observation (PList l) s = _summarize_observation (PList l') s).
Proof.
  split; [|split; [|split; [|split; [|split]]]].
  - intros t query p arg s records w Hp Hs.
    destruct t; try discriminate; injection Hp as <- <-;
      unfold tool_body, _tool_author_search, _tool_institution_search,
        _tool_topic_search, search_by_author, search_by_institution,
        search_by_topic, execute_query, bind, perform;
      rewrite Hs; reflexivity.
  - intros q s records w Hq Hr Hs. unfold _tool_keyword_search.
    assert (Hq' : truthy (PStr (PyStr.strip q)) = true).
    { simpl. destruct (String.eqb_spec (PyStr.strip q) EmptyString); [contradiction|reflexivity]. }
    assert (Hq'' : truthy (PStr q) = true).
    { destruct q; [contradiction Hq; reflexivity | reflexivity]. }
    rewrite Hq', Hq''. change (negb true || negb true) with false. cbv iota.
    assert (Hk : search_papers_by_keyword (PStr q) s
                 = (Ok records,
                    mkState w (EvQuery Cypher.papers_by_keyword [("keyword", PStr q)]
                                 :: trace s))).
    { unfold search_papers_by_keyword, execute_query, bind, perform.
      rewrite Hs. reflexivity. }
    erewrite bind_ok by exact Hk. destruct records; [congruence|]. reflexivity.
  - intros records. exists (map PDict records). split; [reflexivity|apply length_map].
  - repeat split; vm_compute; reflexivity.
  - exact summary_of_first_five.
  - exact summary_ignores_the_rest.
Qed.

End ResultSizeClaim.

(** C2, as the specification has it, does not hold: no number bounds the
  length of the record sequences that the executor returns. *)
Lemma tool_results_are_not_capped :
~ (exists limit : nat,
      forall (E : Externals) (tool_name tool_args : pyval) (s : state)
             (l : list pyval),
        fst (_execute_tool tool_name tool_args s) = Ok (PList l) ->
        List.length l <= limit).
Proof.
intros [limit H].
specialize (H Demo.externals (PStr "keyword_search")
              (PDict [("query", PStr "graph")])
              (Demo.start [] (repeat (Demo.paper "Graph Neural Networks" 2020 7)
                                (S limit)))
              (map PDict (repeat (Demo.paper "Graph Neural Networks" 2020 7)
                            (S limit)))
              eq_refl).
rewrite length_map, repeat_length in H. lia.
Qed.

(** A store that answers the author query with ten records, asked for
  "Sarah"; ten records, summarised. *)
Lemma tools_return_the_records_witness :
fst (tool_body AuthorSearch (PStr "Sarah") (Demo.start [] Demo.ten_papers))
= Ok (rows Demo.ten_papers)
/\ fst (_tool_keyword_search (PStr "graph") (Demo.start [] Demo.ten_papers))
   = Ok (rows Demo.ten_papers)
/\ (exists items,
      fst (summarize_items 1 (firstn 5 (map PDict Demo.ten_papers)) (Demo.start [] []))
      = Ok items
      /\ List.length items = 5
      /\ fst (_summarize_observation (rows Demo.ten_papers) (Demo.start [] []))
         = Ok (PyStr.join newline
                 ("Found 10 results:" :: app items ["  ... and 5 more"])))
/\ _summarize_observation (rows Demo.ten_papers) (Demo.start [] [])
   = _summarize_observation
       (rows (app (firstn 5 Demo.ten_papers) (repeat Shelf.untitled 5)))
       (Demo.start [] []).
Proof.
pose proof (@tools_return_the_records_of_the_store Demo.externals)
  as (H1 & H2 & _ & _ & H5 & H6).
split; [|split; [|split]].
- rewrite (H1 AuthorSearch Cypher.by_author "author_name" (PStr "Sarah")
             (Demo.start [] Demo.ten_papers) Demo.ten_papers
             (Demo.mkWorld [] Demo.ten_papers) eq_refl eq_refl).
  reflexivity.
- rewrite (H2 "graph" (Demo.start [] Demo.ten_papers) Demo.ten_papers
             (Demo.mkWorld [] Demo.ten_papers)); [reflexivity | | | reflexivity];
    discriminate.
- destruct (H5 (map PDict Demo.ten_papers) (Demo.start [] [])
              (snd (_summarize_observation (rows Demo.ten_papers) (Demo.start [] [])))
              (match fst (_summarize_observation (rows Demo.ten_papers)
                            (Demo.start [] [])) with
               | Ok x => x
               | Raise _ => EmptyString
               end))
    as (items & Hi & Hn & Hs).
  + discriminate.
  + vm_compute. reflexivity.
  + exists items. split; [rewrite Hi; reflexivity|]. split; [exact Hn|].
    change (PyStr.join newline ("Found 10 results:" :: app items ["  ... and 5 more"]))
      with (PyStr.join newline
              (("Found " ++ PyStr.of_nat (List.length (map PDict Demo.ten_papers))
                ++ " results:")
                 :: app items
                      (if Nat.ltb 5 (List.length (map PDict Demo.ten_papers))
                       then ["  ... and "
                             ++ PyStr.of_nat (List.length (map PDict Demo.ten_papers) - 5)
                             ++ " more"]
                       else []))).
    rewrite <- Hs. vm_compute. reflexivity.
- apply (H6 (map PDict Demo.ten_papers)
           (map PDict (app (firstn 5 Demo.ten_papers) (repeat Shelf.untitled 5)))
           (Demo.start [] [])); reflexivity.
Defined.

Section ParserClaim.
Context {E : Externals}.

(** C5, at the input ["[1]"].  The parser tries its three strategies in
    order, never raises and gives [None] when all of them fail (lemma
    [parse_json_run]); but what it returns is whatever [json.loads]
    decoded first, and that need not be a mapping: a JSON list comes
    back as a list, from [_parse_json] as from [_extract_json]. *)
Theorem parser_returns_a_list (s : state) :
  json_loads "[1]" = Some (PList [PInt 1]) ->
  _parse_json "[1]" s = (Ok (PList [PInt 1]), s)
  /\ _extract_json "[1]" s = (Ok (PList [PInt 1]), s)
  /\ is_dict (PList [PInt 1]) = false.
Proof.
  intros H.
  assert (Hd : decoded_or_none "[1]" = PList [PInt 1]).
  { unfold decoded_or_none.
    change (candidates "[1]") with ["[1]"]. simpl. rewrite H. reflexivity. }
  rewrite parse_json_run, extract_json_run, Hd. auto.
Qed.

End ParserClaim.

(** With the JSON decoder of the example. *)
Lemma parser_returns_a_list_witness :
_parse_json "[1]" (Demo.start [] []) = (Ok (PList [PInt 1]), Demo.start [] [])
/\ _extract_json "[1]" (Demo.start [] []) = (Ok (PList [PInt 1]), Demo.start [] [])
/\ is_dict (PList [PInt 1]) = false.
Proof.
apply (@parser_returns_a_list Demo.externals). reflexivity.
Defined.

(** When the LLM answers the first question of the planner with ["[1]"],
  the list reaches [run], whose [action_decision.get] raises. *)
Example run_raises_on_a_list :
fst (run "graph networks" (Demo.start ["[1]"] Demo.ten_papers)) = Raise AttributeError.
Proof. vm_compute. reflexivity. Qed.

Section RetryClaim.
Context {E : Externals}.

(** C7, at the answer ["5"].  The first answer of the LLM decodes to the
    number 5, which has no query field; the membership test on it raises
    a [TypeError], and the adapter returns the error result after one
    call of the LLM only: there is no retry. *)
Theorem number_answer_is_not_retried
    (question : pyval) (schema : string) (s : state) (w : World) :
  requests_post (mkRequest (PromptCypher question schema) 1 300 45) (world s)
  = (HttpResponse 200 (Some "5"), w) ->
  json_loads "5" = Some (PInt 5) ->
  generate_cypher "ollama" question schema s
  = (Ok (error_result PNone (PStr (exn_str TypeError)) (PStr (exn_str TypeError))),
     mkState w (EvLLM (mkRequest (PromptCypher question schema) 1 300 45) :: trace s)).
Proof.
  intros Hp Hj.
  assert (Hc : _call_ollama (PromptCypher question schema) s
               = (Ok "5",
                  mkState w (EvLLM (mkRequest (PromptCypher question schema) 1 300 45)
                               :: trace s))).
  { unfold _call_ollama, bind, perform. rewrite Hp. reflexivity. }
  assert (Hd : decoded_or_none "5" = PInt 5).
  { unfold decoded_or_none. change (candidates "5") with ["5"]. simpl.
    rewrite Hj. reflexivity. }
  unfold generate_cypher, try_except.
  change ("ollama" =? "ollama") with true. cbv iota.
  erewrite bind_ok by exact Hc.
  erewrite bind_ok by apply extract_json_run. rewrite Hd.
  reflexivity.
Qed.

End RetryClaim.

(** The LLM of the example answers ["5"] and would answer a read query
  next: the error result comes back after the first answer, the second
  is never asked for. *)
Lemma number_answer_witness :
generate_cypher "ollama" (PStr "most cited papers") get_schema_description
  (Demo.start ["5"; Demo.match_answer] [])
= (Ok (error_result PNone (PStr "TypeError") (PStr "TypeError")),
   mkState (Demo.mkWorld [Demo.match_answer] [])
     [EvLLM (mkRequest (PromptCypher (PStr "most cited papers") get_schema_description)
               1 300 45)]).
Proof.
apply (@number_answer_is_not_retried Demo.externals); reflexivity.
Defined.

Section EarlyFinishClaim.
Context {E : Externals}.

Lemma join_head (sep x : string) (xs : list string) :
  exists tail, PyStr.join sep (x :: xs) = x ++ tail.
Proof.
  destruct xs as [|y ys]; simpl.
  - exists EmptyString. now rewrite append_empty_r.
  - eexists. reflexivity.
Qed.

Lemma previous_has_results_last (chain : list step_rec) (st : step_rec) :
  previous_has_results (app chain [st])
  = PyStr.contains "Found" (st_observation st)
    && negb (PyStr.contains "0 results" (st_observation st)).
Proof. unfold previous_has_results. rewrite rev_app_distr. reflexivity. Qed.

(** C8, after a step that returned ten records.  The summary of the step
    starts with "Found 10 results:", in which the test of the planner
    reads "0 results": from step 2 on the planner does not take the
    [FINISH] shortcut, although the step has results, and asks the LLM. *)
Theorem ten_results_are_not_seen
    (question : string) (chain : list step_rec) (records : list dict)
    (thought action args : pyval) (step step_number : nat)
    (s s' s0 : state) (summary : string) :
  List.length records = 10 ->
  _summarize_observation (rows records) s = (Ok summary, s') ->
  2 <= step_number ->
  previous_has_results
    (app chain [mkStep step thought action args summary (rows records)]) = false
  /\ trace (snd (_decide_action question
                   (app chain [mkStep step thought action args summary (rows records)])
                   step_number s0))
     = EvLLM (mkRequest
                (PromptDecide question
                   (app chain [mkStep step thought action args summary (rows records)])
                   step_number) 2 250 90)
         :: trace s0.
Proof.
  intros Hl Hs Hn.
  assert (Hp : previous_has_results
                 (app chain [mkStep step thought action args summary (rows records)])
               = false).
  { rewrite previous_has_results_last. simpl st_observation.
    apply summary_shape in Hs; [|destruct records; [discriminate | discriminate]].
    destruct Hs as (items & more & -> & _).
    unfold dict in *. rewrite length_map, Hl.
    destruct (join_head newline
                ("Found " ++ PyStr.of_nat 10 ++ " results:") (app items more))
      as [tail ->].
    assert (Hc : PyStr.contains "0 results"
                   (("Found " ++ PyStr.of_nat 10 ++ " results:") ++ tail) = true).
    { apply contains_iff. exists "Found 1", (":" ++ tail). reflexivity. }
    rewrite Hc. apply andb_false_r. }
  split; [exact Hp|].
  destruct (decide_asks_llm question
              (app chain [mkStep step thought action args summary (rows records)])
              s0 Hn Hp) as (s1 & <- & Ht).
  exact Ht.
Qed.

End EarlyFinishClaim.

(** Step 1 returned the ten papers of the example: at step 2 the planner
  asks the LLM. *)
Lemma ten_results_witness :
exists summary,
  fst (_summarize_observation (rows Demo.ten_papers) (Demo.start [] [])) = Ok summary
  /\ previous_has_results
       [mkStep 1 (PStr "search") (PStr "keyword_search")
          (PDict [("query", PStr "graph")]) summary (rows Demo.ten_papers)] = false
  /\ trace (snd (_decide_action "graph networks"
                   [mkStep 1 (PStr "search") (PStr "keyword_search")
                      (PDict [("query", PStr "graph")]) summary
                      (rows Demo.ten_papers)]
                   2 (Demo.start ["FINISH"] [])))
     = [EvLLM (mkRequest
                 (PromptDecide "graph networks"
                    [mkStep 1 (PStr "search") (PStr "keyword_search")
                       (PDict [("query", PStr "graph")]) summary
                       (rows Demo.ten_papers)] 2) 2 250 90)].
Proof.
pose (r := _summarize_observation (rows Demo.ten_papers) (Demo.start [] [])).
pose (summary := match fst r with Ok x => x | Raise _ => EmptyString end).
exists summary.
destruct (@ten_results_are_not_seen Demo.externals "graph networks" []
            Demo.ten_papers (PStr "search") (PStr "keyword_search")
            (PDict [("query", PStr "graph")]) 1 2
            (Demo.start [] []) (snd r) (Demo.start ["FINISH"] []) summary)
  as (H1 & H2).
- reflexivity.
- vm_compute. reflexivity.
- repeat constructor.
- split; [vm_compute; reflexivity|]. split; [exact H1 | exact H2].
Defined.

(* ===================================================================== *)
(** * Examples *)
(* ===================================================================== *)

Example re_fence_1 :
Re.fence_group "a```json
{x}
``` b ```c```" = Some "{x}
".
Proof. reflexivity. Qed.

Example re_fence_2 : Re.fence_group "````x```" = Some "`x".
Proof. reflexivity. Qed.

Example re_fence_3 : Re.fence_group "```jsonjson```" = Some "json".
Proof. reflexivity. Qed.

Example re_brace_1 : Re.brace_group "x {a} y } z { " = Some "{a} y }".
Proof. reflexivity. Qed.

Example re_word_1 :
Re.search_word "SET" "RESET x" = false /\ Re.search_word "SET" "a SET_b" = false
/\ Re.search_word "SET" "(SET)" = true.
Proof. repeat split; reflexivity. Qed.

Example split_1 : PyStr.split "  a b " = ["a"; "b"].
Proof. reflexivity. Qed.

Example safety_examples :
_safety_check "MATCH (n) detach delete n"
= Some "Blocked: Cypher contains write operation 'DELETE'"
/\ _safety_check "MATCH (p:Paper) WHERE p.title CONTAINS 'reset' RETURN p" = None
/\ _safety_check "MATCH (p:Paper) SET p.year = 1" <> None
/\ _safety_check "MATCH (p:Paper) RETURN p.dataset_name" = None.
Proof. repeat split; try (vm_compute; reflexivity). vm_compute. discriminate. Qed.

Example institution_examples :
InstRe.search "papers from IIT Tirupati" = Some "IIT Tirupati"
/\ InstRe.search "authors from Stanford research groups" = Some "Stanford"
/\ InstRe.search "papers of MIT" = None.
Proof. repeat split; reflexivity. Qed.

(** A question about counts in the world of the examples: one tool call,
  then the answer. *)
Example run_statistics :
let r := run "how many papers are in the database"
           (Demo.start ["nonsense"; "There are 10 papers."] Demo.ten_papers) in
match fst r with
| Ok a => ar_steps_taken a = 2 /\ ar_success a = true
| Raise _ => False
end.
Proof. vm_compute. auto. Qed.

(* ===================================================================== *)
(** * Further properties of the loop *)
(* ===================================================================== *)

Section LoopSteps.
Context {E : Externals}.

(** One turn of the loop that does not raise: the planner gave a mapping,
    and either it said [FINISH] and the loop returned, or the tool ran,
    its result was summarised and recorded, and the loop stopped on a
    sufficient result or went on. *)
Lemma run_loop_step (question : string) (t0 : spec_float) (step : nat)
    (rest : list nat) (chain : list step_rec) (obs : list obs_rec)
    (s s' : state) (exit : loop_exit) :
  run_loop question t0 (step :: rest) chain obs s = (Ok exit, s') ->
  exists d s1,
    _decide_action question chain (step + 1) s = (Ok (PDict d), s1)
    /\ ((eq_str (dict_get d "tool" (PStr "keyword_search")) "FINISH" = true
         /\ exists answer s2,
             _generate_final_answer question obs s1 = (Ok answer, s2)
             /\ exit = Returned
                         (mkResult question answer chain step
                            (round_elapsed (fst (time_time (world s2))) t0) true)
             /\ s' = mkState (snd (time_time (world s2))) (trace s2))
        \/ (eq_str (dict_get d "tool" (PStr "keyword_search")) "FINISH" = false
            /\ exists observation s2 summary s3,
                _execute_tool (dict_get d "tool" (PStr "keyword_search"))
                  (dict_get d "args" (PDict [])) s1 = (Ok observation, s2)
                /\ _summarize_observation observation s2 = (Ok summary, s3)
                /\ ((_has_sufficient_results observation && Nat.leb 1 step = true
                     /\ exit = Completed
                                 (app chain
                                    [mkStep (step + 1)
                                       (dict_get d "thought" (PStr EmptyString))
                                       (dict_get d "tool" (PStr "keyword_search"))
                                       (dict_get d "args" (PDict []))
                                       summary observation])
                                 (app obs
                                    [mkObs (dict_get d "tool" (PStr "keyword_search"))
                                       (dict_get d "args" (PDict []))
                                       observation summary])
                     /\ s' = s3)
                    \/ (_has_sufficient_results observation && Nat.leb 1 step = false
                        /\ run_loop question t0 rest
                             (app chain
                                [mkStep (step + 1)
                                   (dict_get d "thought" (PStr EmptyString))
                                   (dict_get d "tool" (PStr "keyword_search"))
                                   (dict_get d "args" (PDict []))
                                   summary observation])
                             (app obs
                                [mkObs (dict_get d "tool" (PStr "keyword_search"))
                                   (dict_get d "args" (PDict []))
                                   observation summary])
                             s3 = (Ok exit, s'))))).
Proof.
intros Hr. cbn [run_loop] in Hr. unfold bind at 1 in Hr.
destruct (_decide_action question chain (step + 1) s) as [[d|e] s1] eqn:Hd;
  [|discriminate].
unfold bind at 1 in Hr. rewrite py_get_run in Hr.
destruct d as [| | | | | |d]; try discriminate.
exists d, s1. split; [first [exact Hd | reflexivity]|].
unfold bind at 1 in Hr. rewrite py_get_run in Hr.
unfold bind at 1 in Hr. rewrite py_get_run in Hr.
destruct (eq_str (dict_get d "tool" (PStr "keyword_search")) "FINISH").
- left. split; [reflexivity|]. unfold bind at 1 in Hr.
  destruct (_generate_final_answer question obs s1) as [[answer|e] s2] eqn:Hg;
    [|discriminate].
  exists answer, s2. unfold bind, observe in Hr.
  destruct (time_time (world s2)) as [now w].
  unfold ret in Hr. injection Hr as <- <-.
  split; [first [exact Hg | reflexivity]|]. auto.
- right. split; [reflexivity|]. unfold bind at 1 in Hr.
  destruct (_execute_tool _ _ s1) as [[observation|e] s2] eqn:He; [|discriminate].
  unfold bind at 1 in Hr.
  destruct (_summarize_observation observation s2) as [[summary|e] s3] eqn:Hs;
    [|discriminate].
  exists observation, s2, summary, s3. split; [first [exact He | reflexivity]|].
  split; [first [exact Hs | reflexivity]|].
  destruct (_has_sufficient_results observation && Nat.leb 1 step).
  + left. unfold ret in Hr. injection Hr as <- <-. auto.
  + right. auto.
Qed.

(** The steps that the loop adds to the thought chain are numbered from
    the first step it runs, and each one records the summary of the raw
    result it records. *)
Lemma run_loop_chain (question : string) (t0 : spec_float) (n : nat) :
  forall k chain obs s exit s',
    run_loop question t0 (seq k n) chain obs s = (Ok exit, s') ->
    exists added,
      chain_of_exit exit = app chain added
      /\ map st_step added = seq (S k) (List.length added)
      /\ Forall (fun st => exists s1 s2,
                     _summarize_observation (st_raw_results st) s1
                     = (Ok (st_observation st), s2)) added
      /\ match exit with
         | Returned r => ar_question r = question
         | Completed _ _ => True
         end.
Proof.
induction n as [|n IH]; intros k chain obs s exit s' Hr.
- simpl in Hr. injection Hr as <- _. exists []. simpl. rewrite app_nil_r. auto.
- simpl seq in Hr. apply run_loop_step in Hr.
  destruct Hr as (d & s1 & _ & [(_ & answer & s2 & _ & -> & _)
                               | (_ & observation & s2 & summary & s3 & _ & Hs & Hc)]).
  + exists []. simpl. rewrite app_nil_r. auto.
  + destruct Hc as [(_ & -> & _) | (_ & Hr)].
    * eexists [_]. simpl. split; [reflexivity|]. rewrite Nat.add_1_r.
      split; [reflexivity|]. split; [|exact I].
      constructor; [|constructor]. simpl. eauto.
    * apply IH in Hr. destruct Hr as (added & Hc & Hn & Hf & Hq).
      eexists (_ :: added). rewrite Hc, <- app_assoc. split; [reflexivity|].
      simpl. rewrite Hn, Nat.add_1_r. split; [reflexivity|].
      split; [|exact Hq]. constructor; [simpl; eauto | exact Hf].
Qed.

(** The loop of a run, when it ends without a [FINISH] decision, has
    recorded at least two steps: the test for sufficient results is only
    made from the second step on. *)
Lemma run_loop_completed (question : string) (t0 : spec_float) (n : nat) :
  forall k chain obs s chain' obs' s',
    List.length chain = k ->
    run_loop question t0 (seq k n) chain obs s = (Ok (Completed chain' obs'), s') ->
    List.length chain' = k + n \/ (2 <= List.length chain' <= k + n).
Proof.
induction n as [|n IH]; intros k chain obs s chain' obs' s' Hk Hr.
- simpl in Hr. injection Hr as <- _. left. lia.
- simpl seq in Hr. apply run_loop_step in Hr.
  destruct Hr as (d & s1 & _ & [(_ & answer & s2 & _ & Hx & _)
                               | (_ & observation & s2 & summary & s3 & _ & _ & Hc)]);
    [discriminate|].
  destruct Hc as [(Hsuf & Hx & _) | (_ & Hr)].
  + injection Hx as -> _. apply andb_true_iff in Hsuf. destruct Hsuf as [_ Hle].
    apply Nat.leb_le in Hle. rewrite length_app. simpl. right. lia.
  + apply IH in Hr; [|rewrite length_app; simpl; lia]. lia.
Qed.

End LoopSteps.

Section RunShape.
Context {E : Externals}.

(** X1. In the result of a run the steps of the thought chain are
    numbered 1, 2, ... in order, [steps_taken] is their number (at most
    [MAX_STEPS]), the question is the one asked, and the observation
    recorded in each step is the summary of the raw result recorded in
    it. *)
Theorem thought_chain_is_numbered (question : string) (s s' : state) (r : agent_result) :
  run question s = (Ok r, s') ->
  map st_step (ar_thought_chain r) = seq 1 (ar_steps_taken r)
  /\ ar_steps_taken r = List.length (ar_thought_chain r)
  /\ ar_steps_taken r <= MAX_STEPS
  /\ ar_question r = question
  /\ Forall (fun st => exists s1 s2,
                 _summarize_observation (st_raw_results st) s1
                 = (Ok (st_observation st), s2)) (ar_thought_chain r).
Proof.
intros Hr. rewrite run_unfold in Hr. destruct (time_time (world s)) as [t0 w0].
destruct (run_loop question t0 (seq 0 MAX_STEPS) [] [] _) as [o s1] eqn:Hl.
destruct o as [exit|e]; [|discriminate].
pose proof Hl as Hc. apply run_loop_chain in Hc.
destruct Hc as (added & Hc & Hn & Hf & Hq).
apply run_loop_spec in Hl as (evs & _ & _ & Hb & Hp); [|reflexivity].
simpl in Hc. destruct exit as [r'|chain obs]; simpl in Hp, Hc.
- injection Hr as -> _. destruct Hp as (P1 & P2 & _).
  rewrite Hc, P1, <- P2, Hc. repeat split; auto. rewrite <- Hc, P2. lia.
- unfold run_finish, bind in Hr.
  destruct (_generate_final_answer question obs s1) as [[answer|e] s2]; [|discriminate].
  unfold observe in Hr. destruct (time_time (world s2)) as [now w2].
  injection Hr as <- _. simpl. rewrite Hc. repeat split; auto.
  rewrite <- Hc, Hp. lia.
Qed.

End RunShape.

(** The run of the example in which the LLM never decides: three steps,
    numbered 1, 2, 3. *)
Lemma thought_chain_witness :
  map st_step (ar_thought_chain Demo.apology_result) = [1; 2; 3]
  /\ ar_steps_taken Demo.apology_result = 3.
Proof.
destruct (@thought_chain_is_numbered Demo.externals "graph networks"
            (Demo.start Demo.apology_answers []) Demo.apology_state
            Demo.apology_result) as (H1 & H2 & _).
- vm_compute. reflexivity.
- rewrite H1. split; reflexivity.
Defined.

Section RunEnds.
Context {E : Externals}.

(** X2. A run that ends without a [FINISH] decision has made two or three
    tool calls, never fewer: a sufficient result stops the loop only from
    the second step on.  So a run that reports fewer than two steps ended
    by [FINISH], and reports success. *)
Theorem short_run_ended_by_finish (question : string) (s s' : state) (r : agent_result) :
  run question s = (Ok r, s') ->
  (ar_steps_taken r < 2 -> ar_success r = true)
  /\ (ar_success r = false -> 2 <= ar_steps_taken r <= MAX_STEPS).
Proof.
intros Hr. rewrite run_unfold in Hr. destruct (time_time (world s)) as [t0 w0].
destruct (run_loop question t0 (seq 0 MAX_STEPS) [] [] _) as [o s1] eqn:Hl.
destruct o as [[r'|chain obs]|e]; [| |discriminate].
- injection Hr as -> _.
  apply run_loop_spec in Hl as (evs & _ & _ & _ & _ & _ & Hs); [|reflexivity].
  split; [auto | congruence].
- apply run_loop_completed in Hl; [|reflexivity].
  unfold run_finish, bind in Hr.
  destruct (_generate_final_answer question obs s1) as [[answer|e] s2]; [|discriminate].
  unfold observe in Hr. destruct (time_time (world s2)) as [now w2].
  injection Hr as <- _. simpl. unfold MAX_STEPS in *. split; intros; lia.
Qed.

Lemma generate_final_answer_empty (question : string) (s : state) :
  _generate_final_answer question [] s = (Ok no_information, s).
Proof. reflexivity. Qed.

(** X3. When the planner says [FINISH] at the first step, the run makes
    no tool call and no call of the LLM for the answer: the answer is the
    fixed text that no information was found, and the success flag is
    true all the same. *)
Theorem finish_at_first_step (question : string) (s s1 : state) (d : dict) :
  _decide_action question [] 1
    (mkState (snd (time_time (world s))) (trace s)) = (Ok (PDict d), s1) ->
  dict_get d "tool" (PStr "keyword_search") = PStr "FINISH" ->
  exists r s',
    run question s = (Ok r, s')
    /\ ar_answer r = no_information
    /\ ar_success r = true
    /\ ar_steps_taken r = 0
    /\ ar_thought_chain r = []
    /\ trace s' = trace s1.
Proof.
intros Hd Ht. rewrite run_unfold.
destruct (time_time (world s)) as [t0 w0]. simpl snd in Hd.
change MAX_STEPS with 3. simpl seq. cbn [run_loop].
change (0 + 1) with 1.
erewrite bind_ok by exact Hd.
erewrite bind_ok by reflexivity. rewrite Ht.
erewrite bind_ok by reflexivity.
erewrite bind_ok by reflexivity.
change (eq_str (PStr "FINISH") "FINISH") with true. cbv iota.
erewrite bind_ok by apply generate_final_answer_empty.
unfold bind, observe. destruct (time_time (world s1)) as [now w].
eexists _, _. split; [reflexivity|]. simpl. auto.
Qed.

Lemma call_llm_run (p : prompt) (temperature max_tokens : nat) (s : state) :
  _call_llm p temperature max_tokens s
  = (Ok (response_text
           (fst (requests_post (mkRequest p temperature max_tokens 90) (world s)))),
     mkState (snd (requests_post (mkRequest p temperature max_tokens 90) (world s)))
       (EvLLM (mkRequest p temperature max_tokens 90) :: trace s)).
Proof.
unfold _call_llm, bind, perform.
destruct (requests_post _ (world s)) as [o w]. simpl.
destruct o as [st [text|]| |]; simpl; try destruct (Nat.eqb st 200); reflexivity.
Qed.

(** X4. When the LLM gives no text for the final answer (it cannot be
    reached, the status is not 200, or the text is empty), the answer of
    the run is the fixed text that no answer could be generated, and the
    success flag is true: that text does not contain "couldn't find". *)
Theorem failed_synthesis_reports_success
    (question : string) (t0 : spec_float) (chain : list step_rec)
    (obs : list obs_rec) (s : state) :
  obs <> [] ->
  response_text
    (fst (requests_post (mkRequest (PromptAnswer question obs) 4 500 90) (world s)))
  = EmptyString ->
  exists r s',
    run_finish question t0 chain obs s = (Ok r, s')
    /\ ar_answer r = no_answer
    /\ ar_success r = true
    /\ trace s' = EvLLM (mkRequest (PromptAnswer question obs) 4 500 90) :: trace s.
Proof.
intros Ho Ht. unfold run_finish.
assert (Hg : _generate_final_answer question obs s
             = (Ok no_answer,
                mkState (snd (requests_post
                                (mkRequest (PromptAnswer question obs) 4 500 90)
                                (world s)))
                  (EvLLM (mkRequest (PromptAnswer question obs) 4 500 90) :: trace s))).
{ unfold _generate_final_answer. destruct obs as [|o obs]; [congruence|].
  erewrite bind_ok by apply call_llm_run. rewrite Ht. reflexivity. }
erewrite bind_ok by exact Hg. unfold bind, observe. simpl world.
destruct (time_time _) as [now w]. eexists _, _. split; [reflexivity|].
simpl. auto.
Qed.

(** X5. The planner never raises, asks the LLM at most once, and never
    gives an empty decision: what it returns is a rule decision, the
    decoded answer of the LLM when that is not empty, or the fallback to
    the keyword search. *)
Theorem planner_always_decides
    (question : string) (thought_chain : list step_rec) (step_number : nat) (s : state) :
  exists v s',
    _decide_action question thought_chain step_number s = (Ok v, s')
    /\ truthy v = true
    /\ (s' = s
        \/ (world s' = snd (requests_post
                              (mkRequest (PromptDecide question thought_chain step_number)
                                 2 250 90) (world s))
            /\ trace s'
               = EvLLM (mkRequest (PromptDecide question thought_chain step_number)
                          2 250 90) :: trace s)).
Proof.
unfold _decide_action.
destruct (if Nat.eqb step_number 1 then rule_step1 question else None) as [d|] eqn:Hrule.
- exists d, s. split; [reflexivity|]. split; [|now left].
  destruct (Nat.eqb step_number 1); [|discriminate]. unfold rule_step1 in Hrule.
  destruct (any_in count_words _); [injection Hrule as <-; reflexivity|].
  destruct (any_in institution_words _); [injection Hrule as <-; reflexivity|].
  discriminate.
- destruct (Nat.leb 2 step_number && previous_has_results thought_chain).
  + eexists _, s. split; [reflexivity|]. split; [reflexivity | now left].
  + erewrite bind_ok by apply call_llm_run.
    erewrite bind_ok by apply parse_json_run.
    destruct (truthy (decoded_or_none _)) eqn:Ht; simpl negb; cbv iota.
    * eexists _, _. split; [reflexivity|]. split; [exact Ht|]. right. auto.
    * eexists _, _. split; [reflexivity|]. split; [reflexivity|]. right. auto.
Qed.

End RunEnds.

(** The LLM of the example says [FINISH] at once. *)
Lemma short_run_witness :
  ar_steps_taken DemoMore.finish_result = 0
  /\ ar_success DemoMore.finish_result = true.
Proof.
split; [reflexivity|].
apply (proj1 (@short_run_ended_by_finish Demo.externals "graph networks"
                (Demo.start [DemoMore.finish_answer] Demo.ten_papers)
                DemoMore.finish_state DemoMore.finish_result
                ltac:(vm_compute; reflexivity))).
vm_compute. repeat constructor.
Defined.

Lemma finish_at_first_step_witness :
  exists r s',
    run "graph networks" (Demo.start [DemoMore.finish_answer] Demo.ten_papers)
    = (Ok r, s')
    /\ ar_answer r = no_information
    /\ ar_success r = true
    /\ ar_steps_taken r = 0.
Proof.
destruct (@finish_at_first_step Demo.externals "graph networks"
            (Demo.start [DemoMore.finish_answer] Demo.ten_papers)
            (snd (_decide_action "graph networks" [] 1
                    (Demo.start [DemoMore.finish_answer] Demo.ten_papers)))
            [("thought", PStr "enough"); ("tool", PStr "FINISH"); ("args", PDict [])])
  as (r & s' & H1 & H2 & H3 & H4 & _).
- vm_compute. reflexivity.
- reflexivity.
- exists r, s'. auto.
Defined.

(** No LLM at all, after a step that found three papers. *)
Lemma failed_synthesis_witness :
  exists r s',
    run_finish "graph networks" (S754_zero false) [Demo.found_step]
      [DemoMore.found_obs] (Demo.start [] Demo.ten_papers) = (Ok r, s')
    /\ ar_answer r = no_answer
    /\ ar_success r = true.
Proof.
destruct (@failed_synthesis_reports_success Demo.externals "graph networks"
            (S754_zero false) [Demo.found_step] [DemoMore.found_obs]
            (Demo.start [] Demo.ten_papers))
  as (r & s' & H1 & H2 & H3 & _).
- discriminate.
- reflexivity.
- exists r, s'. auto.
Defined.

(* ===================================================================== *)
(** * The institution rule of the planner *)
(* ===================================================================== *)

Section InstitutionRule.
Context {E : Externals}.
Import PyStr.

Lemma all_chars_lstrip p (s : string) :
  all_chars p s = true -> all_chars p (lstrip s) = true.
Proof.
induction s as [|c s IH]; simpl; [auto|]. intros H.
apply andb_true_iff in H. destruct H as [Hc Hs].
destruct (is_space c); [auto | simpl; now rewrite Hc, Hs].
Qed.

Lemma all_chars_rstrip p (s : string) :
  all_chars p s = true -> all_chars p (rstrip s) = true.
Proof.
induction s as [|c s IH]; simpl; [auto|]. intros H.
apply andb_true_iff in H. destruct H as [Hc Hs].
destruct (is_space c && (rstrip s =? EmptyString)); [reflexivity|].
simpl. now rewrite Hc, IH.
Qed.

Lemma lstrip_head (s : string) : opt_space (head (lstrip s)) = false.
Proof.
induction s as [|c s IH]; simpl; [reflexivity|].
destruct (is_space c) eqn:Hc; [exact IH | simpl; exact Hc].
Qed.

Lemma rstrip_head (s : string) :
  opt_space (head s) = false -> opt_space (head (rstrip s)) = false.
Proof.
destruct s as [|c s]; simpl; [auto|]. intros Hc. rewrite Hc. simpl. exact Hc.
Qed.

Lemma rstrip_last (s : string) : opt_space (Re.last_of None (rstrip s)) = false.
Proof.
induction s as [|c s IH]; simpl; [reflexivity|].
destruct (is_space c) eqn:Hc; simpl.
- destruct (String.eqb_spec (rstrip s) EmptyString) as [He|Hne]; [reflexivity|].
  simpl. destruct (rstrip s) as [|x r] eqn:Hr; [congruence|]. exact IH.
- destruct (rstrip s) as [|x r] eqn:Hr; simpl; [exact Hc|].
  exact IH.
Qed.

Lemma strip_ends (s : string) :
  opt_space (head (strip s)) = false
  /\ opt_space (Re.last_of None (strip s)) = false.
Proof.
unfold strip. split; [apply rstrip_head, lstrip_head | apply rstrip_last].
Qed.

Lemma all_chars_strip p (s : string) :
  all_chars p s = true -> all_chars p (strip s) = true.
Proof. intros H. now apply all_chars_rstrip, all_chars_lstrip. Qed.

Lemma lazy_group_class (s g : string) :
  InstRe.lazy_group s = Some g -> all_chars InstRe.in_class g = true.
Proof.
revert g; induction s as [|c s IH]; intros g H; simpl in H; [discriminate|].
destruct (InstRe.in_class c) eqn:Hc; [|discriminate].
destruct (InstRe.tail_ok s).
- injection H as <-. simpl. now rewrite Hc.
- destruct (InstRe.lazy_group s) as [g'|]; [|discriminate].
  injection H as <-. simpl. now rewrite Hc, IH.
Qed.

Lemma search_class (s g : string) :
  InstRe.search s = Some g -> all_chars InstRe.in_class g = true.
Proof.
induction s as [|c s IH]; intros H.
- vm_compute in H. discriminate.
- change (InstRe.search (String c s))
    with (match (if InstRe.iprefix "from " (String c s)
                 then InstRe.lazy_group (drop 5 (String c s)) else None) with
          | Some g => Some g
          | None => InstRe.search s
          end) in H.
  destruct (if InstRe.iprefix "from " (String c s)
            then InstRe.lazy_group (drop 5 (String c s)) else None) as [g'|] eqn:Hg.
  + injection H as <-.
    destruct (InstRe.iprefix "from " (String c s)); [|discriminate].
    eapply lazy_group_class, Hg.
  + auto.
Qed.

(** X6. At step 1, a question with an institution word (and no count
    word) is sent to the institution search without a call of the LLM.
    The name searched for is the text after "from" that the pattern
    captures, stripped, or "IIT" when the pattern does not match; it is
    made of letters and spaces only and has no white space at its ends. *)
Theorem institution_question_selects_institution_search
    (question : string) (thought_chain : list step_rec) (s : state) :
  any_in count_words (lower question) = false ->
  any_in institution_words (lower question) = true ->
  exists name,
    _decide_action question thought_chain 1 s
    = (Ok (decision "Question asks about an institution — using institution_search."
             "institution_search" [("name", PStr name)]), s)
    /\ name = match InstRe.search question with
              | Some g => strip g
              | None => "IIT"
              end
    /\ all_chars InstRe.in_class name = true
    /\ opt_space (head name) = false
    /\ opt_space (Re.last_of None name) = false.
Proof.
intros Hc Hi. eexists. split.
- unfold _decide_action, rule_step1. simpl Nat.eqb. cbv iota.
  rewrite Hc, Hi. reflexivity.
- split; [reflexivity|].
  destruct (InstRe.search question) as [g|] eqn:Hg.
  + split; [apply all_chars_strip; eapply search_class, Hg | apply strip_ends].
  + repeat split; reflexivity.
Qed.

End InstitutionRule.

(** "papers from IIT Tirupati". *)
Lemma institution_question_witness :
  _decide_action "papers from IIT Tirupati" [] 1 (Demo.start [] [])
  = (Ok (decision "Question asks about an institution — using institution_search."
           "institution_search" [("name", PStr "IIT Tirupati")]), Demo.start [] []).
Proof.
destruct (@institution_question_selects_institution_search Demo.externals
            "papers from IIT Tirupati" [] (Demo.start [] []) eq_refl eq_refl)
  as (name & H1 & H2 & _).
rewrite H1, H2. reflexivity.
Defined.

(* ===================================================================== *)
(** * More about the tools *)
(* ===================================================================== *)

Section KeywordRetry.
Context {E : Externals}.

(** X7. The keyword search on a query that is not blank sends the keyword
    query once; when the store finds nothing and the query has more than
    two words, it sends it once more, for the first word alone, and
    returns what the store answers then; when the query has at most two
    words it returns the empty list. *)
Theorem keyword_search_retries_with_first_word (q : string) (s : state) (w1 : World) :
  PyStr.strip q <> EmptyString ->
  session_run Cypher.papers_by_keyword [("keyword", PStr q)] (world s) = (Some [], w1) ->
  (2 < List.length (PyStr.split q) ->
   _tool_keyword_search (PStr q) s
   = (let (r, w2) :=
        session_run Cypher.papers_by_keyword
          [("keyword", PStr (hd EmptyString (PyStr.split q)))] w1 in
      (match r with
       | Some records => Ok (rows records)
       | None => Raise DriverError
       end,
       mkState w2
         (EvQuery Cypher.papers_by_keyword
            [("keyword", PStr (hd EmptyString (PyStr.split q)))]
          :: EvQuery Cypher.papers_by_keyword [("keyword", PStr q)] :: trace s))))
  /\ (List.length (PyStr.split q) <= 2 ->
      _tool_keyword_search (PStr q) s
      = (Ok (PList []),
         mkState w1 (EvQuery Cypher.papers_by_keyword [("keyword", PStr q)] :: trace s))).
Proof.
intros Hq Hs.
assert (Hq' : truthy (PStr (PyStr.strip q)) = true).
{ simpl. destruct (String.eqb_spec (PyStr.strip q) EmptyString); [contradiction|reflexivity]. }
assert (Hq'' : truthy (PStr q) = true).
{ destruct q; [contradiction Hq; reflexivity | reflexivity]. }
assert (Hk : search_papers_by_keyword (PStr q) s
             = (Ok [],
                mkState w1 (EvQuery Cypher.papers_by_keyword [("keyword", PStr q)]
                              :: trace s))).
{ unfold search_papers_by_keyword, execute_query, bind, perform.
  rewrite Hs. reflexivity. }
split; intros Hn; unfold _tool_keyword_search; rewrite Hq', Hq'';
  change (negb true || negb true) with false; cbv iota;
  erewrite bind_ok by exact Hk; change (negb (truthy (rows []))) with true.
- apply Nat.ltb_lt in Hn. rewrite Hn. change (true && true) with true. cbv iota.
  unfold search_papers_by_keyword, execute_query, bind, perform. cbn [world trace].
  destruct (session_run _ _ w1) as [[records|] w2]; reflexivity.
- apply Nat.ltb_ge in Hn. rewrite Hn. reflexivity.
Qed.

End KeywordRetry.

(** "attention mechanism in deep learning" finds no title; "attention"
    finds two. *)
Lemma keyword_retry_witness :
  fst (@_tool_keyword_search Shelf.externals
         (PStr "attention mechanism in deep learning") (Shelf.start [] Shelf.papers))
  = Ok (rows [Demo.paper "Attention Is All You Need" 2017 90000;
              Demo.paper "Graph Attention Networks" 2018 20000])
  /\ fst (@_tool_keyword_search Shelf.externals (PStr "quantum computing")
            (Shelf.start [] Shelf.papers))
     = Ok (PList []).
Proof.
pose proof (@keyword_search_retries_with_first_word Shelf.externals
              "attention mechanism in deep learning" (Shelf.start [] Shelf.papers)
              (Demo.mkWorld [] Shelf.papers)) as H1.
pose proof (@keyword_search_retries_with_first_word Shelf.externals
              "quantum computing" (Shelf.start [] Shelf.papers)
              (Demo.mkWorld [] Shelf.papers)) as H2.
split.
- rewrite (proj1 (H1 ltac:(discriminate) eq_refl)); [reflexivity|].
  vm_compute. repeat constructor.
- rewrite (proj2 (H2 ltac:(discriminate) eq_refl)); [reflexivity|].
  vm_compute. repeat constructor.
Defined.

Section CypherTool.
Context {E : Externals}.

(** X8. The Cypher tool on a question that is a string never runs a
    query that the safety gate refuses: the generator returns a mapping;
    when its query is null or empty the tool answers with the keyword
    search on the whole question; otherwise the query passes the gate and
    the tool returns the rows the store gives for it, or, when the
    connection or the execution fails, the keyword search on the whole
    question again. *)
Theorem cypher_tool_runs_gated_query_or_falls_back (q : string) (s : state) :
  exists d s1,
    generate_cypher "ollama" (PStr q) get_schema_description s = (Ok (PDict d), s1)
    /\ match assoc "cypher" d with
       | Some PNone => _tool_cypher_search (PStr q) s = keyword_fallback (PStr q) s1
       | Some (PStr text) =>
           _safety_check text = None
           /\ (if text =? EmptyString
               then _tool_cypher_search (PStr q) s = keyword_fallback (PStr q) s1
               else
                 let (connected, w2) := neo4j_connect (world s1) in
                 if connected : bool
                 then
                   let (r, w3) := session_run text [] w2 in
                   let s3 := mkState w3 (EvQuery text [] :: EvConnect :: trace s1) in
                   match r with
                   | Some records => _tool_cypher_search (PStr q) s = (Ok (rows records), s3)
                   | None => _tool_cypher_search (PStr q) s = keyword_fallback (PStr q) s3
                   end
                 else _tool_cypher_search (PStr q) s
                      = keyword_fallback (PStr q) (mkState w2 (EvConnect :: trace s1)))
       | _ => False
       end.
Proof.
destruct (generate_cypher_spec "ollama" (PStr q) get_schema_description s)
  as (evs & _ & _ & Hres).
destruct (generate_cypher "ollama" (PStr q) get_schema_description s)
  as [[r|e] s1] eqn:Hg; simpl in Hres; [|contradiction].
destruct Hres as (d & -> & Hc).
exists d, s1. split; [reflexivity|].
assert (Hrun :
          _tool_cypher_search (PStr q) s
          = (if negb (truthy (dict_get d "cypher" PNone))
             then keyword_fallback (PStr q)
             else bind (py_slice 80 (dict_get d "cypher" PNone))
                    (fun _ =>
                       try_except
                         (bind (perform EvConnect neo4j_connect)
                            (fun connected : bool =>
                               if connected
                               then match dict_get d "cypher" PNone with
                                    | PStr text =>
                                        bind (execute_query text [])
                                          (fun results => ret (rows results))
                                    | _ => raise TypeError
                                    end
                               else raise DriverError))
                         (fun _ => keyword_fallback (PStr q)))) s1).
{ unfold _tool_cypher_search.
  erewrite bind_ok by reflexivity. cbv zeta.
  erewrite bind_ok by exact Hg.
  erewrite bind_ok by reflexivity.
  destruct (negb (truthy (dict_get d "cypher" PNone))); reflexivity. }
destruct Hc as [Hc | (text & Hc & Hsafe)]; unfold dict in *; rewrite Hc.
- rewrite Hrun. unfold dict_get. unfold dict in *. rewrite Hc. reflexivity.
- split; [exact Hsafe|].
  rewrite Hrun. unfold dict_get. unfold dict in *. rewrite Hc.
  change (truthy (PStr text)) with (negb (text =? EmptyString)).
  destruct (text =? EmptyString); [reflexivity|].
  change (negb (negb false)) with false. cbv iota.
  erewrite bind_ok by reflexivity.
  unfold try_except, bind, perform, execute_query.
  destruct (neo4j_connect (world s1)) as [[|] w2]; [|reflexivity].
  unfold bind, perform. cbn [world trace].
  destruct (session_run text [] w2) as [[records|] w3]; reflexivity.
Qed.

End CypherTool.

(* ===================================================================== *)
(** * More about the query generation adapter *)
(* ===================================================================== *)

Section GeneratorRuns.
Context {E : Externals}.

Lemma stateless_ret A (a : A) : stateless (ret a).
Proof. exists (Ok a). reflexivity. Qed.

Lemma stateless_raise A (e : exn) : stateless (@raise E A e).
Proof. exists (Raise e). reflexivity. Qed.

Lemma stateless_bind A B (c : M A) (k : A -> M B) :
  stateless c -> (forall a, stateless (k a)) -> stateless (bind c k).
Proof.
intros [[a|e] Hc] Hk.
- destruct (Hk a) as [o Ho]. exists o. intros s. unfold bind. rewrite Hc. apply Ho.
- exists (Raise e). intros s. unfold bind. rewrite Hc. reflexivity.
Qed.

Lemma stateless_try A (c : M A) (h : exn -> M A) :
  stateless c -> (forall e, stateless (h e)) -> stateless (try_except c h).
Proof.
intros [[a|e] Hc] Hh.
- exists (Ok a). intros s. unfold try_except. rewrite Hc. reflexivity.
- destruct (Hh e) as [o Ho]. exists o. intros s. unfold try_except. rewrite Hc. apply Ho.
Qed.

Lemma stateless_lacks_cypher (result : pyval) : stateless (lacks_cypher result).
Proof.
unfold lacks_cypher. destruct (negb (truthy result)); [apply stateless_ret|].
apply stateless_bind; [|intros b; apply stateless_ret].
destruct result; first [apply stateless_ret | apply stateless_raise].
Qed.

Lemma stateless_checked (result : pyval) : stateless (checked result).
Proof.
unfold checked. apply stateless_bind; [apply stateless_lacks_cypher|].
intros [|]; [apply stateless_ret|].
apply stateless_bind.
- unfold py_getitem. destruct result; try apply stateless_raise.
  destruct (assoc "cypher" d); [apply stateless_ret | apply stateless_raise].
- intros cypher. apply stateless_bind.
  + destruct cypher; first [apply stateless_ret | apply stateless_raise].
  + intros [msg|]; apply stateless_ret.
Qed.

(** What [reported (checked result)] returns: it never raises and leaves
    the state alone. *)
Lemma reported_checked_run (result : pyval) (s : state) :
  exists r, forall s', reported (checked result) s' = (Ok r, s').
Proof.
destruct (stateless_checked result) as [[a|e] Hc].
- exists a. intros s'. unfold reported, try_except. rewrite Hc. reflexivity.
- exists (error_result PNone (PStr (exn_str e)) (PStr (exn_str e))).
  intros s'. unfold reported, try_except. rewrite Hc. reflexivity.
Qed.

Lemma call_ollama_run (p : prompt) (s : state) :
  _call_ollama p s
  = (Ok (response_text (fst (requests_post (mkRequest p 1 300 45) (world s)))),
     after_request (mkRequest p 1 300 45) s).
Proof.
unfold _call_ollama, after_request, bind, perform.
destruct (requests_post _ (world s)) as [o w]. simpl.
destruct o as [st [text|]| |]; simpl; try destruct (Nat.eqb st 200); reflexivity.
Qed.

Lemma try_bind_ok A B (c : M A) (k : A -> M B) (h : exn -> M B) (s s1 : state) (a : A) :
  c s = (Ok a, s1) -> try_except (bind c k) h s = try_except (k a) h s1.
Proof. intros H. unfold try_except, bind. rewrite H. reflexivity. Qed.

(** The generator, step by step: one request; a second one exactly when
    the first answer lacks a query; then the end of the function on the
    answer that was kept. *)
Lemma generate_cypher_run (question : pyval) (schema : string) (s : state) :
  let s1 := after_request (first_request question schema) s in
  let a1 := ollama_answer (first_request question schema) s in
  let s2 := after_request (retry_request question) s1 in
  let a2 := ollama_answer (retry_request question) s1 in
  generate_cypher "ollama" question schema s
  = match fst (lacks_cypher a1 s1) with
    | Ok true => reported (checked a2) s2
    | _ => reported (checked a1) s1
    end.
Proof.
intros s1 a1 s2 a2. unfold generate_cypher.
change ("ollama" =? "ollama") with true. cbv iota zeta.
erewrite try_bind_ok by apply call_ollama_run.
erewrite try_bind_ok by apply extract_json_run.
fold (first_request question schema). fold s1. fold a1.
destruct (stateless_lacks_cypher a1) as [o Ho].
rewrite Ho. cbn [fst].
destruct o as [[|]|e].
- erewrite try_bind_ok by apply Ho.
  cbv iota.
  assert (H2 : bind (_call_ollama (PromptSimple question))
                 (fun raw_response2 => _extract_json raw_response2) s1
               = (Ok a2, s2)).
  { erewrite bind_ok by apply call_ollama_run. apply extract_json_run. }
  erewrite try_bind_ok by exact H2.
  reflexivity.
- erewrite try_bind_ok by apply Ho. cbv iota.
  erewrite try_bind_ok by reflexivity.
  reflexivity.
- unfold reported, checked, try_except, bind. rewrite !Ho. reflexivity.
Qed.

(** X9. The generator never raises, and it asks the LLM once or twice:
    the trace grows by the first request, followed by the request with
    the simpler prompt exactly when the first answer is empty or has no
    "cypher" in it.  Nothing else of the state changes. *)
Theorem generator_asks_at_most_twice (question : pyval) (schema : string) (s : state) :
  let s1 := after_request (first_request question schema) s in
  let a1 := ollama_answer (first_request question schema) s in
  exists r,
    generate_cypher "ollama" question schema s
    = (Ok r, match fst (lacks_cypher a1 s) with
             | Ok true => after_request (retry_request question) s1
             | _ => s1
             end).
Proof.
intros s1 a1. rewrite generate_cypher_run. fold s1. fold a1.
destruct (stateless_lacks_cypher a1) as [o Ho]. rewrite !Ho. cbn [fst].
destruct o as [[|]|e].
- destruct (reported_checked_run
              (ollama_answer (retry_request question) s1) s) as [r Hr].
  exists r. apply Hr.
- destruct (reported_checked_run a1 s) as [r Hr]. exists r. apply Hr.
- destruct (reported_checked_run a1 s) as [r Hr]. exists r. apply Hr.
Qed.

(** X10. The outcomes of the retry.  When the first answer gives no
    query: if the second answer gives none either, the result is the
    record of the failure, with a null query; if the second answer is a
    mapping whose query is a text that the gate accepts, the result is
    that mapping, unchanged. *)
Theorem generator_retry_outcomes (question : pyval) (schema : string) (s : state) :
  let s1 := after_request (first_request question schema) s in
  let a1 := ollama_answer (first_request question schema) s in
  let a2 := ollama_answer (retry_request question) s1 in
  fst (lacks_cypher a1 s) = Ok true ->
  (fst (lacks_cypher a2 s) = Ok true ->
   fst (generate_cypher "ollama" question schema s) = Ok failed_after_retry)
  /\ (forall d q,
        a2 = PDict d -> assoc "cypher" d = Some (PStr q) -> _safety_check q = None ->
        fst (generate_cypher "ollama" question schema s) = Ok a2).
Proof.
intros s1 a1 a2 H1. rewrite generate_cypher_run. fold s1. fold a1. fold a2.
destruct (stateless_lacks_cypher a1) as [o1 Ho1]. rewrite Ho1 in *. cbn [fst] in *.
subst o1. split.
- intros H2. destruct (stateless_lacks_cypher a2) as [o2 Ho2].
  rewrite Ho2 in H2. cbn [fst] in H2. subst o2.
  unfold reported, checked, try_except, bind. rewrite Ho2. reflexivity.
- intros d q Hd Hc Hsafe. rewrite Hd.
  unfold reported, checked, try_except, bind.
  rewrite (lacks_cypher_dict d _ Hc). cbv iota.
  unfold py_getitem. unfold dict in *. rewrite Hc.
  unfold ret, safety_check_val. rewrite Hsafe. reflexivity.
Qed.

End GeneratorRuns.

(** Two answers without a query; an answer without a query followed by a
    read query. *)
Lemma generator_retry_witness :
  fst (generate_cypher "ollama" (PStr "papers") get_schema_description
         (Demo.start ["I do not know"; "nor do I now"] []))
  = Ok failed_after_retry
  /\ fst (generate_cypher "ollama" (PStr "papers") get_schema_description
            (Demo.start ["I do not know"; Demo.match_answer] []))
     = Ok (PDict [("cypher", PStr "MATCH (p:Paper) RETURN p.title LIMIT 10")]).
Proof.
split.
- apply (proj1 (@generator_retry_outcomes Demo.externals (PStr "papers")
                  get_schema_description
                  (Demo.start ["I do not know"; "nor do I now"] []) eq_refl)).
  vm_compute. reflexivity.
- apply (proj2 (@generator_retry_outcomes Demo.externals (PStr "papers")
                  get_schema_description
                  (Demo.start ["I do not know"; Demo.match_answer] []) eq_refl)
           [("cypher", PStr "MATCH (p:Paper) RETURN p.title LIMIT 10")]
           "MATCH (p:Paper) RETURN p.title LIMIT 10");
    vm_compute; reflexivity.
Defined.

(* ===================================================================== *)
(** * More about the safety gate *)
(* ===================================================================== *)

Section GateOrder.
Import PyStr Re.

Lemma first_blocked_first (before after : list string) (k u : string) :
  search_word k u = true ->
  (forall k', In k' before -> search_word k' u = false) ->
  first_blocked (app before (k :: after)) u
  = Some ("Blocked: Cypher contains write operation '" ++ k ++ "'").
Proof.
induction before as [|k0 before IH]; intros Hk Hb; simpl.
- rewrite Hk. reflexivity.
- rewrite (Hb k0 (or_introl eq_refl)). apply IH; [exact Hk|].
  intros k' Hin. apply Hb. now right.
Qed.

Lemma first_blocked_inv (keywords : list string) (u : string) :
  first_blocked keywords u <> None ->
  exists k, In k keywords /\ search_word k u = true.
Proof.
induction keywords as [|k ks IH]; simpl; intros H; [contradiction H; reflexivity|].
destruct (search_word k u) eqn:Hk.
- exists k. split; [now left | exact Hk].
- destruct (IH H) as (k' & Hin & Hs). exists k'. split; [now right | exact Hs].
Qed.

Lemma not_occurs_search (k cypher : string) :
  keyword_like k = true ->
  ~ occurs_as_word k cypher -> search_word k (upper cypher) = false.
Proof.
intros Hk Hn. destruct (search_word k (upper cypher)) eqn:Hs; [exfalso | reflexivity].
apply Hn. apply occurs_as_word_upper. now apply search_word_spec in Hs.
Qed.

(** X11. On a query of ASCII text the message of the gate names the
    first keyword, in the order of the denylist (DROP, DELETE, DETACH,
    REMOVE, SET, CREATE, MERGE), that occurs in the query as a whole
    word: not the first one in the query. *)
Theorem gate_names_first_keyword_of_the_list
    (cypher k : string) (before after : list string) :
  ascii_text cypher = true ->
  BLOCKED_CYPHER_KEYWORDS = app before (k :: after) ->
  occurs_as_word k cypher ->
  (forall k', In k' before -> ~ occurs_as_word k' cypher) ->
  _safety_check cypher
  = Some ("Blocked: Cypher contains write operation '" ++ k ++ "'").
Proof.
intros _ Hl Hk Hb. unfold _safety_check. rewrite Hl.
assert (Hin : forall k', In k' (app before (k :: after)) -> keyword_like k' = true).
{ intros k' H. apply blocked_keyword_like. rewrite Hl. exact H. }
apply first_blocked_first.
- apply search_word_spec.
  + apply Hin. apply in_or_app. right. now left.
  + now apply occurs_as_word_upper.
- intros k' H. apply not_occurs_search.
  + apply Hin. apply in_or_app. now left.
  + now apply Hb.
Qed.

(** X12. On ASCII text, a query that the gate blocks stays blocked
    inside a longer text, when the text before it does not end in a word
    character and the text after it does not start with one. *)
Theorem blocked_query_stays_blocked (cypher before after : string) :
  ascii_text before = true ->
  ascii_text cypher = true ->
  ascii_text after = true ->
  _safety_check cypher <> None ->
  ends_outside_word before ->
  starts_outside_word after ->
  _safety_check (before ++ cypher ++ after) <> None.
Proof.
intros _ _ _ Hq Hb Ha. unfold _safety_check in Hq.
destruct (first_blocked_inv _ _ Hq) as (k & Hin & Hs).
apply search_word_spec in Hs; [|now apply blocked_keyword_like].
destruct Hs as (b & r & Hu & Hbb & Hr).
assert (Hs : search_word k (upper (before ++ cypher ++ after)) = true).
{ apply search_word_spec; [now apply blocked_keyword_like|].
  exists (upper before ++ b), (r ++ upper after). split; [|split].
  - unfold upper in *. rewrite !map_chars_append, Hu.
    now rewrite !append_assoc.
  - rewrite ends_outside_word_iff in *. rewrite last_of_append.
    destruct b as [|x b].
    + simpl. unfold upper. rewrite last_of_map_none, opt_word_upper. exact Hb.
    + rewrite last_of_nonempty. exact Hbb.
  - rewrite starts_outside_word_iff in *. destruct r as [|x r].
    + simpl. unfold upper. rewrite head_map, opt_word_upper. exact Ha.
    + exact Hr. }
destruct (@first_blocked_some BLOCKED_CYPHER_KEYWORDS
            (upper (before ++ cypher ++ after))) as (k' & _ & Hk').
{ exists k. split; [exact Hin | exact Hs]. }
unfold _safety_check. rewrite Hk'. discriminate.
Qed.

End GateOrder.

(** DETACH comes first in the query, DELETE comes first in the list. *)
Lemma gate_names_first_keyword_witness :
  _safety_check "MATCH (n) DETACH DELETE n"
  = Some "Blocked: Cypher contains write operation 'DELETE'".
Proof.
apply (@gate_names_first_keyword_of_the_list "MATCH (n) DETACH DELETE n" "DELETE"
         ["DROP"] ["DETACH"; "REMOVE"; "SET"; "CREATE"; "MERGE"]).
- reflexivity.
- reflexivity.
- exists "MATCH (n) DETACH ", "DELETE", " n".
  split; [reflexivity|]. split; [reflexivity|].
  split; [apply ends_outside_word_iff | apply starts_outside_word_iff]; reflexivity.
- intros k' [<-|[]] H. apply occurs_as_word_upper in H.
  apply (@search_word_spec "DROP" _ eq_refl) in H.
  vm_compute in H. discriminate.
Defined.

(** A blocked statement after a read statement. *)
Lemma blocked_query_witness :
  _safety_check ("MATCH (n) RETURN n; " ++ "drop index papers" ++ " // done") <> None.
Proof.
apply (@blocked_query_stays_blocked "drop index papers" "MATCH (n) RETURN n; " " // done").
- reflexivity.
- reflexivity.
- reflexivity.
- vm_compute. discriminate.
- apply ends_outside_word_iff. reflexivity.
- apply starts_outside_word_iff. reflexivity.
Defined.

(* ===================================================================== *)
(** * The summary of an observation *)
(* ===================================================================== *)

Section Summary.
Context {E : Externals}.

Lemma summarize_item_record (i : nat) (d : dict) :
  exists line, forall s : state,
    summarize_item i (PDict d) s
    = (if titled d then Ok line else Raise TypeError, s).
Proof.
unfold titled, summarize_item, py_get.
destruct (item_title d) eqn:Ht; unfold item_title in Ht;
  first [ exists EmptyString; intros st; unfold bind, ret; rewrite Ht; reflexivity
        | eexists; intros st; unfold bind, ret; rewrite Ht; reflexivity ].
Qed.

Lemma summarize_items_records (records : list dict) :
  forall i, exists lines, forall s : state,
    summarize_items i (map PDict records) s
    = (if forallb titled records then Ok lines else Raise TypeError, s).
Proof.
induction records as [|d records IH]; intros i.
- exists []. reflexivity.
- destruct (summarize_item_record i d) as [line Hl].
  destruct (IH (S i)) as [lines Hls].
  exists (line :: lines). intros s. cbn [map summarize_items forallb].
  unfold bind. rewrite Hl. destruct (titled d); [|reflexivity].
  rewrite Hls. destruct (forallb titled records); reflexivity.
Qed.

(** The summary of records, as a function of their titles. *)
Lemma summarize_rows_run (records : list dict) :
  exists summary, forall s : state,
    _summarize_observation (rows records) s
    = (if forallb titled (firstn 5 records) then Ok summary else Raise TypeError, s).
Proof.
destruct records as [|d records]; [exists "No results found."; reflexivity|].
destruct (summarize_items_records (firstn 5 (d :: records)) 1) as [lines Hl].
eexists. intros s. unfold rows, _summarize_observation.
cbn [map]. rewrite <- (map_cons PDict d records), firstn_map.
unfold bind. rewrite Hl.
destruct (forallb titled (firstn 5 (d :: records))); reflexivity.
Qed.

(** X13. The summary of the records of a tool is computed exactly when
    each of the first five records has a title that can be cut (a text
    under "title", else under "p.title", else the default): a null title
    among them raises TypeError, and the records after the fifth are
    never looked at.  The state is left alone. *)
Theorem summary_needs_titles (records : list dict) :
  exists summary, forall s : state,
    _summarize_observation (rows records) s
    = (if forallb titled (firstn 5 records) then Ok summary else Raise TypeError, s).
Proof. exact (summarize_rows_run records). Qed.

(** X14. The loop of [run] has no handler around the summary: when the
    first tool call returns records of which one of the first five has a
    null title, the run ends with TypeError and returns no result. *)
Theorem run_raises_on_untitled_record
    (question : string) (s s1 s2 : state) (d : dict) (records : list dict) :
  _decide_action question [] 1
    (mkState (snd (time_time (world s))) (trace s)) = (Ok (PDict d), s1) ->
  eq_str (dict_get d "tool" (PStr "keyword_search")) "FINISH" = false ->
  _execute_tool (dict_get d "tool" (PStr "keyword_search"))
    (dict_get d "args" (PDict [])) s1 = (Ok (rows records), s2) ->
  forallb titled (firstn 5 records) = false ->
  run question s = (Raise TypeError, s2).
Proof.
intros Hd Ht Hx Hn. rewrite run_unfold.
destruct (time_time (world s)) as [t0 w0]. simpl snd in Hd.
change MAX_STEPS with 3. simpl seq. cbn [run_loop].
change (0 + 1) with 1.
erewrite bind_ok by exact Hd.
erewrite bind_ok by reflexivity.
erewrite bind_ok by reflexivity.
erewrite bind_ok by reflexivity.
rewrite Ht. cbv iota.
erewrite bind_ok by exact Hx.
destruct (summarize_rows_run records) as [summary Hs].
unfold bind. rewrite Hs, Hn. reflexivity.
Qed.

End Summary.

(** A question that the institution rule answers, and a store whose
    first record has no title. *)
Lemma run_raises_witness :
  fst (run "papers from IIT Tirupati"
         (Demo.start [] [Shelf.untitled; Demo.paper "Graph Attention Networks" 2018 20000]))
  = Raise TypeError.
Proof.
set (s := Demo.start [] [Shelf.untitled; Demo.paper "Graph Attention Networks" 2018 20000]).
pose (d := [("thought",
             PStr "Question asks about an institution — using institution_search.");
            ("tool", PStr "institution_search");
            ("args", PDict [("name", PStr "IIT Tirupati")])]).
rewrite (@run_raises_on_untitled_record Demo.externals "papers from IIT Tirupati" s s
           (snd (_execute_tool (PStr "institution_search")
                   (PDict [("name", PStr "IIT Tirupati")]) s))
           d [Shelf.untitled; Demo.paper "Graph Attention Networks" 2018 20000]).
- reflexivity.
- vm_compute. reflexivity.
- reflexivity.
- vm_compute. reflexivity.
- reflexivity.
Defined.

(* ===================================================================== *)
(** * The tool accuracy of a run *)
(* ===================================================================== *)

Section ToolAccuracy.
Context {E : Externals}.
Import Evaluator.

Lemma first_use_later (expected : string) (chain : list step_rec) :
  Forall (fun st => st_step st <> 1) chain ->
  first_use expected chain
  = if used_in expected chain then score_half else score_none.
Proof.
induction 1 as [|st chain Hst _ IH]; [reflexivity|].
simpl. destruct (eq_str (st_action st) expected); simpl.
- destruct (Nat.eqb_spec (st_step st) 1); [contradiction | reflexivity].
- exact IH.
Qed.

Lemma accuracy_numbered (expected : string) (first : step_rec) (later : list step_rec) :
  map st_step (first :: later) = seq 1 (S (List.length later)) ->
  compute_tool_accuracy expected (first :: later)
  = if eq_str (st_action first) expected then score_full
    else if used_in expected later then score_half else score_none.
Proof.
intros Hn. simpl in Hn. injection Hn as H1 Hl.
unfold compute_tool_accuracy. cbn [first_use]. rewrite H1.
destruct (eq_str (st_action first) expected); [reflexivity|].
apply first_use_later. apply Forall_forall. intros st Hin Hs.
assert (Hi : In (st_step st) (seq 2 (List.length later))).
{ rewrite <- Hl. now apply in_map. }
apply in_seq in Hi. lia.
Qed.

(** The steps of the result of a run are numbered from 1. *)
Lemma run_chain_numbered (question : string) (s s' : state) (r : agent_result) :
  run question s = (Ok r, s') ->
  map st_step (ar_thought_chain r) = seq 1 (List.length (ar_thought_chain r)).
Proof.
intros Hr. rewrite run_unfold in Hr. destruct (time_time (world s)) as [t0 w0].
destruct (run_loop question t0 (seq 0 MAX_STEPS) [] [] _) as [o s1] eqn:Hl.
destruct o as [exit|e]; [|discriminate].
apply run_loop_chain in Hl. destruct Hl as (added & Hc & Hn & _).
simpl in Hc. destruct exit as [r'|chain obs]; simpl in Hc.
- injection Hr as -> _. rewrite Hc. exact Hn.
- unfold run_finish, bind in Hr.
  destruct (_generate_final_answer question obs s1) as [[answer|e] s2]; [|discriminate].
  unfold observe in Hr. destruct (time_time (world s2)) as [now w2].
  injection Hr as <- _. simpl. rewrite Hc. exact Hn.
Qed.

(** The first step of the result of a run is what the planner decided at
    step 1, unless that was [FINISH]. *)
Lemma run_first_step (question : string) (s s' s1 : state) (r : agent_result)
    (d : dict) :
  run question s = (Ok r, s') ->
  _decide_action question [] 1
    (mkState (snd (time_time (world s))) (trace s)) = (Ok (PDict d), s1) ->
  eq_str (dict_get d "tool" (PStr "keyword_search")) "FINISH" = false ->
  exists first later,
    ar_thought_chain r = first :: later
    /\ st_action first = dict_get d "tool" (PStr "keyword_search")
    /\ st_args first = dict_get d "args" (PDict []).
Proof.
intros Hr Hd Hf. rewrite run_unfold in Hr.
destruct (time_time (world s)) as [t0 w0]. simpl snd in Hd.
destruct (run_loop question t0 (seq 0 MAX_STEPS) [] [] _) as [o s2] eqn:Hl.
destruct o as [exit|e]; [|discriminate].
change (seq 0 MAX_STEPS) with (0 :: seq 1 2) in Hl.
apply run_loop_step in Hl.
destruct Hl as (d' & s1' & Hd' & Hcases).
change (0 + 1) with 1 in Hd'. rewrite Hd in Hd'. injection Hd' as <- <-.
destruct Hcases as [(Hfin & _) | (_ & observation & s3 & summary & s4 & _ & _ & Hc)];
  [congruence|].
destruct Hc as [(Hsuf & _) | (_ & Hl)].
{ rewrite andb_false_r in Hsuf. discriminate. }
apply run_loop_chain in Hl. destruct Hl as (added & Hc & _).
simpl app in Hc.
assert (Hchain : ar_thought_chain r = chain_of_exit exit).
{ destruct exit as [r'|chain obs]; simpl.
  - now injection Hr as ->.
  - unfold run_finish, bind in Hr.
    destruct (_generate_final_answer question obs s2) as [[answer|e] s5]; [|discriminate].
    unfold observe in Hr. destruct (time_time (world s5)) as [now w5].
    now injection Hr as <-. }
rewrite Hchain, Hc. eexists _, added. split; [reflexivity|]. split; reflexivity.
Qed.

(** X15. The tool accuracy of the thought chain of a run: 1.0 when the
    first step used the expected tool, 0.5 when it did not and a later
    step did, 0.0 otherwise (in particular for a run without steps).
    This rests on the numbering of the steps of a run. *)
Theorem tool_accuracy_of_a_run (question expected : string) (s s' : state)
    (r : agent_result) :
  run question s = (Ok r, s') ->
  compute_tool_accuracy expected (ar_thought_chain r)
  = match ar_thought_chain r with
    | [] => score_none
    | first :: later =>
        if eq_str (st_action first) expected then score_full
        else if used_in expected later then score_half else score_none
    end.
Proof.
intros Hr. apply run_chain_numbered in Hr.
destruct (ar_thought_chain r) as [|first later]; [reflexivity|].
apply accuracy_numbered. exact Hr.
Qed.

(** X16. A question that the rules of step 1 answer gets the full tool
    accuracy for the tool of the rule, in every run that returns: the
    statistics tool for a question with a count word, the institution
    search for a question with an institution word and no count word. *)
Theorem rule_question_scores_full (question : string) (s s' : state)
    (r : agent_result) :
  run question s = (Ok r, s') ->
  (any_in count_words (PyStr.lower question) = true ->
   compute_tool_accuracy "get_statistics" (ar_thought_chain r) = score_full)
  /\ (any_in count_words (PyStr.lower question) = false ->
      any_in institution_words (PyStr.lower question) = true ->
      compute_tool_accuracy "institution_search" (ar_thought_chain r) = score_full).
Proof.
intros Hr. pose proof (@run_chain_numbered _ _ _ _ Hr) as Hn.
set (s0 := mkState (snd (time_time (world s))) (trace s)).
split.
- intros Hc.
  destruct (@run_first_step question s s' s0 r
              [("thought",
                PStr "Question asks for counts/statistics — using get_statistics directly.");
               ("tool", PStr "get_statistics"); ("args", PDict [])] Hr)
    as (first & later & Hch & Ha & _).
  + apply decide_statistics. exact Hc.
  + reflexivity.
  + rewrite Hch in *. rewrite accuracy_numbered by exact Hn. rewrite Ha. reflexivity.
- intros Hc Hi.
  assert (Hd : exists name,
             rule_step1 question
             = Some (decision "Question asks about an institution — using institution_search."
                       "institution_search" [("name", PStr name)])).
  { unfold rule_step1. rewrite Hc, Hi. eexists. reflexivity. }
  destruct Hd as [name Hd].
  destruct (@run_first_step question s s' s0 r
              [("thought",
                PStr "Question asks about an institution — using institution_search.");
               ("tool", PStr "institution_search");
               ("args", PDict [("name", PStr name)])] Hr)
    as (first & later & Hch & Ha & _).
  + unfold _decide_action. change (Nat.eqb 1 1) with true. cbv iota.
    rewrite Hd. reflexivity.
  + reflexivity.
  + rewrite Hch in *. rewrite accuracy_numbered by exact Hn. rewrite Ha. reflexivity.
Qed.

End ToolAccuracy.

(** The run of the example in which the LLM never decides used the
    keyword search three times. *)
Lemma tool_accuracy_witness :
  Evaluator.compute_tool_accuracy "keyword_search"
    (ar_thought_chain Demo.apology_result) = Evaluator.score_full
  /\ Evaluator.compute_tool_accuracy "get_statistics"
       (ar_thought_chain Demo.apology_result) = Evaluator.score_none.
Proof.
split;
  rewrite (@tool_accuracy_of_a_run Demo.externals "graph networks" _
             (Demo.start Demo.apology_answers []) Demo.apology_state
             Demo.apology_result)
    by (vm_compute; reflexivity);
  reflexivity.
Defined.

Lemma rule_question_witness :
  Evaluator.compute_tool_accuracy "get_statistics"
    (ar_thought_chain (DemoRuns.result_of DemoRuns.count_run)) = Evaluator.score_full
  /\ Evaluator.compute_tool_accuracy "institution_search"
       (ar_thought_chain (DemoRuns.result_of DemoRuns.institution_run))
     = Evaluator.score_full.
Proof.
split.
- apply (proj1 (@rule_question_scores_full Demo.externals
                  "How many papers are there?" (Demo.start [] Demo.ten_papers)
                  (snd DemoRuns.count_run) (DemoRuns.result_of DemoRuns.count_run)
                  ltac:(vm_compute; reflexivity))).
  vm_compute. reflexivity.
- apply (proj2 (@rule_question_scores_full Demo.externals
                  "papers from IIT Tirupati" (Demo.start [] Demo.ten_papers)
                  (snd DemoRuns.institution_run)
                  (DemoRuns.result_of DemoRuns.institution_run)
                  ltac:(vm_compute; reflexivity))).
  + vm_compute. reflexivity.
  + vm_compute. reflexivity.
Defined.

(* ===================================================================== *)
(** * The hybrid question answering system *)
(* ===================================================================== *)

Section Strategy.
Import PyStr Hybrid.

Lemma score_of_none (weight : nat) (patterns : list string) (q : string) :
  any_in patterns q = false -> score_of weight patterns q = 0.
Proof.
unfold any_in, score_of. induction patterns as [|p ps IH]; simpl; [reflexivity|].
intros H. apply orb_false_iff in H. destruct H as [Hp Hps].
rewrite Hp. simpl. apply IH, Hps.
Qed.

Lemma plain_scores (question : string) :
  plain question = true -> snd (scores question) <= 1.
Proof.
unfold plain, scores. intros H.
apply andb_true_iff in H. destruct H as [H Hw].
apply andb_true_iff in H. destruct H as [Hs Hd].
apply negb_true_iff in Hs. apply negb_true_iff in Hd. apply Nat.leb_le in Hw.
cbv zeta. cbn [snd]. rewrite Hd. cbn [andb].
rewrite (score_of_none 2 _ _ Hs). exact Hw.
Qed.

Lemma plain_predefined (question : string) :
  plain question = true -> decide_strategy question = "predefined".
Proof.
intros H. apply plain_scores in H. unfold decide_strategy.
destruct (scores question) as [pre gen]. cbn [snd] in H.
destruct (Nat.ltb gen pre); [reflexivity|].
destruct (Nat.leb_spec 2 gen); [lia | reflexivity].
Qed.

Lemma score_of_some (weight : nat) (patterns : list string) (q : string) :
  any_in patterns q = true -> weight <= score_of weight patterns q.
Proof.
unfold any_in, score_of. induction patterns as [|p ps IH]; simpl; [discriminate|].
intros H. destruct (contains p q); [lia|]. simpl in H. apply IH in H. lia.
Qed.

(** X17. A tie goes to the generated query: when the question has one
    of the strong phrases for a generated query ("more than",
    "between", ...) and at most one of the phrases for the predefined
    searches ("how many", "most cited", ...), the strategy is
    "generate". *)
Theorem strong_phrase_wins_a_tie (question : string) :
  any_in generate_strong (strip (lower question)) = true ->
  score_of 2 predefined_strong (strip (lower question)) <= 2 ->
  decide_strategy question = "generate".
Proof.
intros Hs Hp. unfold decide_strategy, scores. cbv zeta.
apply (score_of_some 2) in Hs.
set (pre := score_of 2 predefined_strong _) in *.
set (gen := score_of 2 generate_strong _) in *.
set (weak := score_of 1 generate_weak _).
match goal with
| |- context [if ?b then gen + weak + 2 else gen + weak] =>
    set (total := if b then gen + weak + 2 else gen + weak);
    assert (Ht : gen <= total) by (unfold total; destruct b; lia)
end.
destruct (Nat.ltb_spec total pre) as [Hlt|Hlt]; [lia|].
destruct (Nat.leb_spec 2 total) as [Hle|Hle]; [reflexivity | lia].
Qed.

(** X18. A question without a digit, without any of the strong phrases
    for a generated query and with one of the weak phrases at most gets
    the predefined searches, whatever else it says. *)
Theorem plain_question_is_predefined (question : string) :
  any_in generate_strong (strip (lower question)) = false ->
  has_digit (strip (lower question)) = false ->
  score_of 1 generate_weak (strip (lower question)) <= 1 ->
  decide_strategy question = "predefined".
Proof.
intros Hs Hd Hw. apply plain_predefined. unfold plain.
rewrite Hs, Hd. apply Nat.leb_le in Hw. rewrite Hw. reflexivity.
Qed.

End Strategy.

Lemma strong_phrase_witness :
  Hybrid.decide_strategy "How many papers have more than fifty citations?" = "generate".
Proof.
apply strong_phrase_wins_a_tie.
- reflexivity.
- vm_compute. lia.
Defined.

Lemma plain_question_witness :
  Hybrid.decide_strategy "Which papers did both groups write on graph networks?"
  = "predefined".
Proof.
apply plain_question_is_predefined.
- reflexivity.
- reflexivity.
- vm_compute. lia.
Defined.

Section HybridSearch.
Context {E : Externals}.
Import PyStr Hybrid.

Lemma execute_query_store (query : string) (parameters : dict) :
  _safety_check query = None ->
  spec store_only anybody driver_error (execute_query query parameters).
Proof.
intros H. unfold execute_query. eapply spec_bind with (Q1 := anybody).
- apply spec_perform; [repeat split; simpl; auto | intros; exact I].
- intros [records|] _; [apply spec_ret; exact I | apply spec_raise; reflexivity].
Qed.

Lemma results_search_result (papers : list dict) (statistics : dict) :
  search_result (results papers statistics).
Proof.
eexists _, _. split; [reflexivity|]. split; [reflexivity|].
right. right. eexists. reflexivity.
Qed.

Lemma fallback_search_result (papers : list dict) (more : dict) :
  search_result (fallback_results papers more).
Proof.
eexists _, _. split; [reflexivity|]. split; [reflexivity|]. left. reflexivity.
Qed.

Lemma author_loop_spec (words : list string) :
  spec store_only anybody driver_error (author_loop words).
Proof.
induction words as [|word rest IH]; cbn [author_loop]; [apply spec_ret; exact I|].
destruct (name_like word); [|exact IH].
eapply spec_bind with (Q1 := anybody);
  [apply execute_query_store, fixed_queries_safe|].
intros papers _. destruct (truthy (rows papers)); [apply spec_ret; exact I | exact IH].
Qed.

Lemma search_with_predefined_spec (question : string) :
  spec store_only search_result driver_error (search_with_predefined question).
Proof.
unfold search_with_predefined. cbv zeta.
destruct (any_in _ (lower question)).
{ eapply spec_bind with (Q1 := anybody).
  - unfold get_statistics. eapply spec_bind with (Q1 := anybody);
      [apply execute_query_store, fixed_queries_safe|].
    intros [|r rs] _; apply spec_ret; exact I.
  - intros statistics _. apply spec_ret, results_search_result. }
destruct (any_in _ (lower question)).
{ eapply spec_bind with (Q1 := anybody);
    [apply execute_query_store, fixed_queries_safe|].
  intros papers _. apply spec_ret, results_search_result. }
destruct (contains "iit" (lower question) || _ || _).
{ eapply spec_bind with (Q1 := anybody);
    [apply execute_query_store, fixed_queries_safe|].
  intros papers _. apply spec_ret, results_search_result. }
eapply spec_bind with (Q1 := anybody).
- destruct (contains "author" (lower question));
    [apply author_loop_spec | apply spec_ret; exact I].
- intros [papers|] _; [apply spec_ret, results_search_result|].
  eapply spec_bind with (Q1 := anybody);
    [apply execute_query_store, fixed_queries_safe|].
  intros papers _. apply spec_ret, results_search_result.
Qed.

Lemma store_only_quiet (e : event) : store_only e -> quiet e.
Proof. intros [H _]. exact H. Qed.

Lemma keyword_fallback_spec (question : string) (more : dict) :
  spec quiet search_result driver_error
    (bind (search_papers_by_keyword (PStr question))
       (fun fallback => ret (fallback_results fallback more))).
Proof.
eapply spec_bind with (Q1 := anybody).
- eapply spec_weaken;
    [apply execute_query_store, fixed_queries_safe | apply store_only_quiet | auto | auto].
- intros fallback _. apply spec_ret, fallback_search_result.
Qed.

Lemma search_with_generated_cypher_spec (llm_provider question : string) :
  spec quiet search_result driver_error
    (search_with_generated_cypher llm_provider question).
Proof.
unfold search_with_generated_cypher. cbv zeta.
eapply spec_bind.
{ eapply spec_weaken; [apply generate_cypher_spec | apply is_llm_quiet | | ].
  - intros a H; exact H.
  - intros e []. }
intros res (d & -> & Hd). simpl py_get.
eapply spec_bind with (Q1 := fun c => c = dict_get d "cypher" PNone);
  [apply spec_ret; reflexivity|].
intros cypher ->. unfold dict_get at 1.
destruct Hd as [Hd | (q & Hd & Hsafe)]; unfold dict in *; rewrite Hd.
- simpl negb. cbv iota.
  eapply spec_bind with (Q1 := anybody).
  + eapply spec_weaken;
      [apply execute_query_store, fixed_queries_safe | apply store_only_quiet | auto | auto].
  + intros fallback _.
    eapply spec_bind with (Q1 := anybody); [apply spec_ret; exact I|].
    intros reason _. apply spec_ret, fallback_search_result.
- destruct (negb (truthy (PStr q))).
  + eapply spec_bind with (Q1 := anybody).
    * eapply spec_weaken;
        [apply execute_query_store, fixed_queries_safe | apply store_only_quiet | auto | auto].
    * intros fallback _.
      eapply spec_bind with (Q1 := anybody); [apply spec_ret; exact I|].
      intros reason _. apply spec_ret, fallback_search_result.
  + unfold py_getitem. unfold dict in *. rewrite Hd.
    eapply spec_bind with (Q1 := fun c => c = PStr q); [apply spec_ret; reflexivity|].
    intros c ->. simpl py_slice.
    eapply spec_bind with (Q1 := anybody); [apply spec_ret; exact I|]. intros _ _.
    eapply spec_try with (X1 := anybody).
    * eapply spec_bind with (Q1 := anybody).
      -- apply spec_perform; [split; exact I | intros; exact I].
      -- intros [|] _; [|apply spec_raise; exact I].
         eapply spec_bind with (Q1 := anybody).
         ++ eapply spec_weaken;
              [apply execute_query_store, Hsafe | apply store_only_quiet | auto
              | intros; exact I].
         ++ intros papers _.
            eapply spec_bind with (Q1 := anybody); [apply spec_ret; exact I|].
            intros explanation _. apply spec_ret.
            eexists _, _. split; [reflexivity|]. split; [reflexivity|].
            right. left. exists q. split; [reflexivity | exact Hsafe].
    * intros e _. apply keyword_fallback_spec.
Qed.

(** X19. For a question that names an institution ("iit",
    "institution" or "university" in it, no word for statistics or for
    the top papers), the predefined search asks the store for the papers
    of "IIT", whatever institution the question names. *)
Theorem predefined_search_asks_for_iit (question : string) (s : state) :
  any_in ["how many"; "statistics"; "count"; "total"; "overview"] (lower question)
  = false ->
  any_in ["most cited"; "top papers"; "best"; "highest"] (lower question) = false ->
  contains "iit" (lower question) || contains "institution" (lower question)
  || contains "university" (lower question) = true ->
  search_with_predefined question s
  = (let (r, w) := session_run Cypher.by_institution
                     [("institution_name", PStr "IIT")] (world s) in
     (match r with
      | Some records => Ok (results records [])
      | None => Raise DriverError
      end,
      mkState w (EvQuery Cypher.by_institution [("institution_name", PStr "IIT")]
                   :: trace s))).
Proof.
intros H1 H2 H3. unfold search_with_predefined. cbv zeta. rewrite H1, H2, H3.
unfold search_by_institution, execute_query, bind, perform.
destruct (session_run _ _ (world s)) as [[records|] w]; reflexivity.
Qed.

(** X20. Whatever the question and whatever the LLM answers, the search
    of the hybrid system sends to the store only queries that pass the
    safety gate, raises nothing but an error of the driver, and returns a
    mapping with a list of papers that is marked as a fallback, or names
    the generated query it ran, or comes from the predefined searches. *)
Theorem hybrid_search_is_gated (llm_provider question : string) :
  spec quiet search_result driver_error (ask_search llm_provider question).
Proof.
unfold ask_search. cbv zeta.
destruct (decide_strategy question =? "predefined").
- eapply spec_weaken;
    [apply search_with_predefined_spec | apply store_only_quiet | auto | auto].
- apply search_with_generated_cypher_spec.
Qed.

(** X21. For a plain question (no digit, no strong phrase for a
    generated query, one weak phrase at most) the search of the hybrid
    system makes no request to the LLM: the trace grows by events of the
    store alone. *)
Theorem plain_question_makes_no_llm_request (llm_provider question : string) :
  plain question = true ->
  spec store_only search_result driver_error (ask_search llm_provider question).
Proof.
intros H. unfold ask_search. cbv zeta. rewrite (plain_predefined _ H).
change ("predefined" =? "predefined") with true. cbv iota.
apply search_with_predefined_spec.
Qed.

End HybridSearch.

(** A question about Stanford is answered with the papers of "IIT". *)
Lemma predefined_search_witness :
  Hybrid.search_with_predefined "Which papers come from Stanford University?"
    (Demo.start [] Demo.ten_papers)
  = (Ok (Hybrid.results Demo.ten_papers []),
     mkState (Demo.mkWorld [] Demo.ten_papers)
       [EvQuery Cypher.by_institution [("institution_name", PStr "IIT")]]).
Proof.
rewrite (@predefined_search_asks_for_iit Demo.externals
           "Which papers come from Stanford University?"
           (Demo.start [] Demo.ten_papers) eq_refl eq_refl eq_refl).
reflexivity.
Defined.

Lemma plain_question_search_witness :
  exists evs,
    trace (snd (Hybrid.ask_search "ollama"
                  "Which papers did both groups write on graph networks?"
                  (Demo.start [] Demo.ten_papers)))
    = app evs []
    /\ Forall Hybrid.store_only evs.
Proof.
destruct (@plain_question_makes_no_llm_request Demo.externals "ollama"
            "Which papers did both groups write on graph networks?" eq_refl
            (Demo.start [] Demo.ten_papers)) as (evs & H1 & H2 & _).
exists evs. split; [exact H1 | exact H2].
Defined.

(* ===================================================================== *)
(** * The fallback of the planner *)
(* ===================================================================== *)

Section PlannerFallback.
Context {E : Externals}.

Lemma in_firstn A (n : nat) (l : list A) (x : A) : In x (firstn n l) -> In x l.
Proof.
intros H. rewrite <- (firstn_skipn n l). apply in_or_app. now left.
Qed.

(** The query of the fallback decision: the question itself, or up to
    four of its words, each longer than three characters. *)
Lemma fallback_query (question : string) :
  exists query,
    fallback_decision question
    = decision "Falling back to keyword search" "keyword_search"
        [("query", PStr query)]
    /\ (query = question
        \/ exists words,
             query = PyStr.join " " words
             /\ words <> []
             /\ List.length words <= 4
             /\ Forall (fun w => In w (PyStr.split question) /\ 3 < String.length w)
                  words).
Proof.
unfold fallback_decision. cbv zeta.
destruct (filter _ (PyStr.split question)) as [|w ws] eqn:Hf.
- exists question. split; [reflexivity | now left].
- eexists. split; [reflexivity|]. right.
  exists (firstn 4 (w :: ws)). split; [reflexivity|].
  split; [discriminate|]. split; [apply firstn_le_length|].
  apply Forall_forall. intros x Hx. apply in_firstn in Hx.
  rewrite <- Hf in Hx. apply filter_In in Hx. destruct Hx as [Hin Hlen].
  split; [exact Hin|]. apply Nat.ltb_lt. exact Hlen.
Qed.

(** X22. When no rule decides and the answer of the LLM cannot be used
    (no text, no JSON in it, or an empty or null value), the planner
    decides on the keyword search, after one request to the LLM; the
    query is the question itself, or up to four words of the question,
    each longer than three characters, joined by spaces. *)
Theorem planner_falls_back_to_keyword_search
    (question : string) (thought_chain : list step_rec) (step_number : nat)
    (s : state) :
  (step_number = 1 -> rule_step1 question = None) ->
  Nat.leb 2 step_number && previous_has_results thought_chain = false ->
  truthy (decoded_or_none
            (response_text
               (fst (requests_post
                       (mkRequest (PromptDecide question thought_chain step_number)
                          2 250 90) (world s))))) = false ->
  exists query,
    _decide_action question thought_chain step_number s
    = (Ok (decision "Falling back to keyword search" "keyword_search"
             [("query", PStr query)]),
       mkState
         (snd (requests_post
                 (mkRequest (PromptDecide question thought_chain step_number)
                    2 250 90) (world s)))
         (EvLLM (mkRequest (PromptDecide question thought_chain step_number) 2 250 90)
            :: trace s))
    /\ (query = question
        \/ exists words,
             query = PyStr.join " " words
             /\ words <> []
             /\ List.length words <= 4
             /\ Forall (fun w => In w (PyStr.split question) /\ 3 < String.length w)
                  words).
Proof.
intros Hrule Hprev Hans.
destruct (fallback_query question) as (query & Hq & Hshape).
exists query. split; [|exact Hshape].
unfold _decide_action.
assert (Hr : (if Nat.eqb step_number 1 then rule_step1 question else None) = None).
{ destruct (Nat.eqb_spec step_number 1) as [H1|_]; [now apply Hrule | reflexivity]. }
rewrite Hr, Hprev.
erewrite bind_ok by apply call_llm_run.
erewrite bind_ok by apply parse_json_run.
rewrite Hans. simpl negb. cbv iota. rewrite Hq. reflexivity.
Qed.

End PlannerFallback.

(** No LLM: the question has two words longer than three characters. *)
Lemma planner_fallback_witness :
  exists query,
    fst (_decide_action "find graph networks" [] 1 (Demo.start [] Demo.ten_papers))
    = Ok (decision "Falling back to keyword search" "keyword_search"
            [("query", PStr query)])
    /\ query = "find graph networks".
Proof.
destruct (@planner_falls_back_to_keyword_search Demo.externals
            "find graph networks" [] 1 (Demo.start [] Demo.ten_papers))
  as (query & Hd & _).
- reflexivity.
- reflexivity.
- vm_compute. reflexivity.
- exists query. rewrite Hd. split; [reflexivity|].
  vm_compute in Hd. congruence.
Defined.

(* ===================================================================== *)
(** * The context of the hybrid system *)
(* ===================================================================== *)

Section ContextMarker.
Context {E : Externals}.
Variable format_1f : pyval -> option string.
Import PyStr HybridContext.

Lemma marked_context (lines : list string) :
  lacks_context (join newline (sentinel :: lines)) = false.
Proof.
destruct (join_head newline sentinel lines) as [tail ->].
unfold lacks_context. rewrite (contains_prefix _ _ (prefix_append sentinel tail)).
reflexivity.
Qed.

Lemma papers_block_rows (records : list dict) :
  forall i, exists lines, @papers_block E i (map PDict records) = Some lines.
Proof.
induction records as [|r records IH]; intros i; [exists []; reflexivity|].
destruct (IH (S i)) as [more Hm]. cbn [map papers_block].
unfold paper_lines. rewrite Hm. eexists. reflexivity.
Qed.

(** X23. The marker of the context: whenever [format_context] returns,
    the test at the start of [generate_nlp_answer] rejects its result
    exactly when the search results have neither statistics nor papers.
    A context made from statistics alone is accepted. *)
Theorem context_is_accepted_iff_there_is_content (search_results : dict)
    (context : string) :
  @format_context E format_1f search_results = Some context ->
  lacks_context context
  = negb (truthy (dict_get search_results "statistics" PNone)
          || truthy (dict_get search_results "papers" PNone)).
Proof.
unfold format_context. cbv zeta.
destruct (if truthy (dict_get search_results "statistics" PNone) then _ else _)
  as [statistics_lines|]; [|discriminate].
destruct (if truthy (dict_get search_results "papers" PNone) then _ else _)
  as [papers_lines|]; [|discriminate].
destruct (truthy (dict_get search_results "statistics" PNone)
          || truthy (dict_get search_results "papers" PNone));
  simpl negb; cbv iota; intros H; injection H as <-.
- apply marked_context.
- reflexivity.
Qed.

(** X24. On the results of a predefined search (records of the store
    under "papers", a record of statistics under "statistics")
    [format_context] raises only when the average of the statistics
    cannot be formatted; the papers never make it raise. *)
Theorem context_of_store_results (records : list dict) (statistics : dict) :
  (truthy (dict_get statistics "avg_citations" (PInt 0)) = true ->
   format_1f (dict_get statistics "avg_citations" (PInt 0)) <> None) ->
  exists context,
    @format_context E format_1f
      [("papers", rows records); ("statistics", PDict statistics)]
    = Some context.
Proof.
intros Havg. unfold format_context. cbv zeta.
change (dict_get [("papers", rows records); ("statistics", PDict statistics)]
          "statistics" PNone) with (PDict statistics).
change (dict_get [("papers", rows records); ("statistics", PDict statistics)]
          "papers" PNone) with (rows records).
change (dict_get [("papers", rows records); ("statistics", PDict statistics)]
          "fallback" PNone) with PNone.
assert (Hs : exists lines,
           (if truthy (PDict statistics)
            then @statistics_block E format_1f (PDict statistics) else Some [])
           = Some lines).
{ destruct (truthy (PDict statistics)); [|eexists; reflexivity].
  unfold statistics_block. cbv zeta.
  destruct (truthy (dict_get statistics "avg_citations" (PInt 0))).
  - destruct (format_1f _) as [t|]; [|contradiction Havg; reflexivity].
    eexists. reflexivity.
  - eexists. reflexivity. }
destruct Hs as [lines ->].
assert (Hp : exists lines,
           (if truthy (rows records)
            then match rows records with
                 | PList l =>
                     option_map (cons (newline ++ "RESEARCH PAPERS:"))
                       (@papers_block E 1 (firstn 10 l))
                 | _ => None
                 end
            else Some [])
           = Some lines).
{ destruct (truthy (rows records)); [|eexists; reflexivity].
  unfold rows. cbv beta iota. rewrite firstn_map.
  destruct (papers_block_rows (firstn 10 records) 1) as [ls Hls].
  exists ((newline ++ "RESEARCH PAPERS:") :: ls).
  exact (f_equal (option_map (cons (newline ++ "RESEARCH PAPERS:"))) Hls). }
destruct Hp as [plines ->].
destruct (negb _); eexists; reflexivity.
Qed.

End ContextMarker.

(** Statistics alone: the context is accepted. *)
Lemma context_marker_witness :
  exists context,
    @HybridContext.format_context Demo.externals (fun _ => Some "0.0")
      [("papers", PList []);
       ("statistics", PDict [("total_papers", PInt 10); ("total_authors", PInt 4)])]
    = Some context
    /\ HybridContext.lacks_context context = false.
Proof.
pose (d := [("papers", PList []);
            ("statistics", PDict [("total_papers", PInt 10); ("total_authors", PInt 4)])]).
pose (c := match @HybridContext.format_context Demo.externals (fun _ => Some "0.0") d with
           | Some c => c
           | None => EmptyString
           end).
assert (H : @HybridContext.format_context Demo.externals (fun _ => Some "0.0") d = Some c)
  by (vm_compute; reflexivity).
exists c. split; [exact H|].
rewrite (@context_is_accepted_iff_there_is_content Demo.externals
           (fun _ => Some "0.0") d c H).
reflexivity.
Defined.

(** Ten papers and statistics with an average. *)
Lemma context_of_store_results_witness :
  exists context,
    @HybridContext.format_context Demo.externals (fun _ => Some "5.5")
      [("papers", rows Demo.ten_papers);
       ("statistics", PDict [("total_papers", PInt 10); ("avg_citations", PInt 5)])]
    = Some context.
Proof.
apply (@context_of_store_results Demo.externals (fun _ => Some "5.5") Demo.ten_papers
         [("total_papers", PInt 10); ("avg_citations", PInt 5)]).
intros _. discriminate.
Defined.
